(** * A shallow embedding of the emulator cog (abstract_emulator.py, gameBoy.py,
    emulator.py).

    The abstract controller [AbastractEmulator] is instantiated by its only
    concrete backend [GameBoy]; the external PyBoy library is modelled by the
    effects it has on an observable trace of backend events, the file system
    by its files and directories, and Python exceptions by an
    error-and-state monad in which the state reached at the [raise] is kept
    (mutations done before a raise are not rolled back). Numbers follow
    Python: [int]s are exact, [float]s are IEEE doubles whose products and
    quotients are rounded to the nearest double. *)

From Stdlib Require Import List String Ascii ZArith QArith Qround Bool Lia.
From Stdlib Require Qcanon.
Import ListNotations.
Open Scope string_scope.
Open Scope list_scope.

(** ** Strings: Python's [str.lower] on ASCII text *)

Definition lower_ascii (c : ascii) : ascii :=
  let n := nat_of_ascii c in
  if andb (Nat.leb 65 n) (Nat.leb n 90) then ascii_of_nat (n + 32) else c.

Fixpoint lower (s : string) : string :=
  match s with
  | EmptyString => EmptyString
  | String c s' => String (lower_ascii c) (lower s')
  end.

(** ** Python dicts as insertion-ordered association lists *)

Section Dict.
Context {K V : Type} (eqk : K -> K -> bool).

Fixpoint dict_get (k : K) (d : list (K * V)) : option V :=
  match d with
  | [] => None
  | (k', v) :: d' => if eqk k k' then Some v else dict_get k d'
  end.

(** [d[k] = v]: an existing key keeps its position, a new key goes last. *)
Fixpoint dict_set (k : K) (v : V) (d : list (K * V)) : list (K * V) :=
  match d with
  | [] => [(k, v)]
  | (k', v') :: d' => if eqk k k' then (k', v) :: d' else (k', v') :: dict_set k v d'
  end.

(** [del d[k]] on a present key. *)
Fixpoint dict_del (k : K) (d : list (K * V)) : list (K * V) :=
  match d with
  | [] => []
  | (k', v') :: d' => if eqk k k' then d' else (k', v') :: dict_del k d'
  end.

Definition dict_keys (d : list (K * V)) : list K := map fst d.
End Dict.

(** ** The PyBoy backend and its observable effects *)

(** [pyboy.windowevent] codes used by [GameBoy]. *)
Inductive WindowEvent :=
| PRESS_BUTTON_A | RELEASE_BUTTON_A
| PRESS_BUTTON_B | RELEASE_BUTTON_B
| PRESS_BUTTON_SELECT | RELEASE_BUTTON_SELECT
| PRESS_BUTTON_START | RELEASE_BUTTON_START
| PRESS_ARROW_UP | RELEASE_ARROW_UP
| PRESS_ARROW_DOWN | RELEASE_ARROW_DOWN
| PRESS_ARROW_LEFT | RELEASE_ARROW_LEFT
| PRESS_ARROW_RIGHT | RELEASE_ARROW_RIGHT.

(** [class ButtonCode]. *)
Record ButtonCode := mkButtonCode {
  name : string;
  pressCode : WindowEvent;
  releaseCode : option WindowEvent
}.

(** A live [PyBoy] object ([self._pyboy]); [None] when not running. *)
Record PyBoy := mkPyBoy { pb_gameROM : string; pb_bootROM : option string }.

(** The screen of the emulator is determined by the history of backend
    events: [Screen h] is the screen after history [h]. *)
Inductive Image := Screen (h : list Event)
with Event :=
| EStart (gameROM : string) (bootROM : option string)
| EStop
| ETick
| EShot
| EInput (code : option WindowEvent)
| ELoad (path : string)
| ESave (path : string)
| EGif (path : string) (frames : list Image) (duration : Z).

(** Exceptions the code can raise. *)
Inductive Exn :=
| ValueError (msg : string)
| NotRunning
| AlreadyRunning
| NoScreenShotFramesSaved
| ButtonNotRecognized (buttonName : string)
| NameError (ident : string)
| AttributeError
| FileNotFoundError (path : string)
| FileExistsError (path : string)
| IsADirectoryError (path : string)
| KeyError
| TypeError
| RuntimeError
| OverflowError
| ZeroDivisionError.

(** ** Python numbers *)

(** [a < b] on exact rationals. *)
Definition Qltb (a b : Q) : bool := negb (Qle_bool b a).

(** A Python [float]: a finite double (an exact rational), an infinity or a
    NaN. *)
Inductive PyFloat := FFin (q : Q) | FPInf | FNInf | FNaN.

(** [x > q] and [x < q] for a float [x] and a number [q]; NaN compares false. *)
Definition float_gt (x : PyFloat) (q : Q) : bool :=
  match x with FFin a => Qltb q a | FPInf => true | FNInf | FNaN => false end.
Definition float_lt (x : PyFloat) (q : Q) : bool :=
  match x with FFin a => Qltb a q | FNInf => true | FPInf | FNaN => false end.

(** A numeric argument: an [int] or a [float]. *)
Inductive PyNum := PInt (z : Z) | PFloat (x : PyFloat).

(** [n / f] rounded to the nearest integer, ties to even, for [f > 0]. *)
Definition py_round_div (n f : Z) : Z :=
  let q := Z.div n f in
  let r := Z.modulo n f in
  if Z.ltb (2 * r) f then q
  else if Z.ltb f (2 * r) then q + 1
  else if Z.even q then q else q + 1.

(** [2 ^ k <= a / d] for [d > 0]. *)
Definition pow2_le (k a d : Z) : bool :=
  if Z.leb 0 k then Z.leb (d * 2 ^ k) a else Z.leb d (a * 2 ^ (- k)).

(** IEEE 754 binary64 rounding of an exact rational, to nearest with ties to
    even: 53-bit significands, subnormals down to [2 ^ -1074], and infinity
    from [2 ^ 1024] on. A finite result is given in lowest terms. *)
Definition round_double (x : Q) : PyFloat :=
  let n := Qnum x in
  let d := Zpos (Qden x) in
  if Z.eqb n 0 then FFin 0%Q else
  let a := Z.abs n in
  let e0 := (Z.log2 a - Z.log2 d)%Z in
  let e := if pow2_le e0 a d then e0 else (e0 - 1)%Z in
  let u := Z.max (e - 52) (-1074) in
  let m := if Z.leb 0 u then py_round_div a (d * 2 ^ u) else py_round_div (a * 2 ^ (- u)) d in
  if Z.leb 0 u && Z.leb (2 ^ 1024) (m * 2 ^ u) then (if Z.ltb n 0 then FNInf else FPInf)
  else
    let mag := if Z.leb 0 u then inject_Z (m * 2 ^ u) else Qmake m (Z.to_pos (2 ^ (- u))) in
    FFin (Qred (if Z.ltb n 0 then Qopp mag else mag)).

Definition inf_of (pos : bool) : PyFloat := if pos then FPInf else FNInf.

(** [x * y] on floats. *)
Definition float_mul (x y : PyFloat) : PyFloat :=
  match x, y with
  | FNaN, _ => FNaN
  | _, FNaN => FNaN
  | FFin a, FFin b => round_double (Qmult a b)
  | FFin a, FPInf | FPInf, FFin a => if Qeq_bool a 0 then FNaN else inf_of (Qltb 0 a)
  | FFin a, FNInf | FNInf, FFin a => if Qeq_bool a 0 then FNaN else inf_of (Qltb a 0)
  | FPInf, FPInf | FNInf, FNInf => FPInf
  | FPInf, FNInf | FNInf, FPInf => FNInf
  end.

(** [float(n)] for an [int]: too large an [int] raises [OverflowError]. *)
Definition int_to_float (n : Z) : Exn + PyFloat :=
  match round_double (inject_Z n) with
  | FFin q => inr (FFin q)
  | _ => inl OverflowError
  end.

(** [x * n] for a number [x] and an [int] [n]: an [int] product is exact, a
    [float] one converts [n] first. *)
Definition py_mul_int (x : PyNum) (n : Z) : Exn + PyNum :=
  match x with
  | PInt z => inr (PInt (z * n)%Z)
  | PFloat f =>
      match int_to_float n with
      | inl err => inl err
      | inr g => inr (PFloat (float_mul f g))
      end
  end.

(** [int(math.ceil(x))]. *)
Definition py_ceil (x : PyNum) : Exn + Z :=
  match x with
  | PInt z => inr z
  | PFloat (FFin q) => inr (Qceiling q)
  | PFloat (FPInf | FNInf) => inl OverflowError
  | PFloat FNaN => inl (ValueError "cannot convert float NaN to integer")
  end.

(** [x < 0]. *)
Definition py_lt0 (x : PyNum) : bool :=
  match x with PInt z => Z.ltb z 0 | PFloat f => float_lt f 0 end.

(** [int(math.ceil(numberOfSeconds * self._fps))]. *)
Definition num_frames (numberOfSeconds : PyNum) (fps : Z) : Exn + Z :=
  match py_mul_int numberOfSeconds fps with
  | inl x => inl x
  | inr p => py_ceil p
  end.

(** [n / f] on [int]s: a correctly rounded float. *)
Definition py_truediv (n f : Z) : Exn + PyFloat :=
  if Z.eqb f 0 then inl ZeroDivisionError
  else match round_double (Qdiv (inject_Z n) (inject_Z f)) with
       | FFin q => inr (FFin q)
       | _ => inl OverflowError
       end.

(** [int(round(x))] for a float: ties to even. *)
Definition py_round (x : PyFloat) : Exn + Z :=
  match x with
  | FFin q => inr (py_round_div (Qnum q) (Zpos (Qden q)))
  | FPInf | FNInf => inl OverflowError
  | FNaN => inl (ValueError "cannot convert float NaN to integer")
  end.

(** ** The file system

    Files and directories by normalised path: repeated slashes are collapsed
    and a trailing slash is dropped. A relative path is relative to the
    working directory, which exists; ["/"] always exists. Opening or creating
    under a missing parent gives [FileNotFoundError] (a parent that is a file,
    [NotADirectoryError] in Python, is reported the same way; permissions are
    not modelled). *)

Fixpoint squeeze_slashes (s : string) : string :=
  match s with
  | EmptyString => EmptyString
  | String c s' =>
      let r := squeeze_slashes s' in
      if Ascii.eqb c "/" then
        match r with
        | String c' _ => if Ascii.eqb c' "/" then r else String c r
        | EmptyString => String c r
        end
      else String c r
  end.

Fixpoint drop_trailing_slash (s : string) : string :=
  match s with
  | EmptyString => EmptyString
  | String c EmptyString => if Ascii.eqb c "/" then EmptyString else s
  | String c s' => String c (drop_trailing_slash s')
  end.

Definition norm_path (p : string) : string :=
  let q := squeeze_slashes p in
  if String.eqb q "/" then q else drop_trailing_slash q.

Record FS := mkFS { fs_files : list string; fs_dirs : list string }.

Definition is_file (fs : FS) (p : string) : bool :=
  existsb (String.eqb (norm_path p)) (fs_files fs).

Definition is_dir (fs : FS) (p : string) : bool :=
  let q := norm_path p in String.eqb q "/" || existsb (String.eqb q) (fs_dirs fs).

(** [os.path.exists]. *)
Definition path_exists (fs : FS) (p : string) : bool := is_file fs p || is_dir fs p.

(** The part of [p] before its last ['/'], [None] when there is none. *)
Fixpoint before_last_slash (p : string) : option string :=
  match p with
  | EmptyString => None
  | String c p' =>
      match before_last_slash p' with
      | Some r => Some (String c r)
      | None => if Ascii.eqb c "/" then Some EmptyString else None
      end
  end.

(** The directory holding [p]; [""] is the working directory. *)
Definition parent_dir (p : string) : string :=
  match before_last_slash (norm_path p) with
  | None => ""
  | Some EmptyString => "/"
  | Some r => r
  end.

Definition parent_is_dir (fs : FS) (p : string) : bool :=
  let q := parent_dir p in String.eqb q "" || is_dir fs q.

(** [open(p, "wb")]: creates the file, or truncates an existing one. *)
Definition open_write (p : string) (fs : FS) : Exn + FS :=
  if is_dir fs p then inl (IsADirectoryError p)
  else if String.eqb (norm_path p) "" || negb (parent_is_dir fs p) then inl (FileNotFoundError p)
  else if is_file fs p then inr fs
  else inr (mkFS (fs_files fs ++ [norm_path p]) (fs_dirs fs)).

(** When [open(p, "wb")] succeeds. *)
Definition can_write (fs : FS) (p : string) : bool :=
  negb (is_dir fs p) && negb (String.eqb (norm_path p) "") && parent_is_dir fs p.

(** [open(p, "rb")]: the error it raises, if any. *)
Definition open_read (p : string) (fs : FS) : option Exn :=
  if is_file fs p then None
  else if is_dir fs p then Some (IsADirectoryError p)
  else Some (FileNotFoundError p).

(** [os.mkdir(p)]. *)
Definition os_mkdir (p : string) (fs : FS) : Exn + FS :=
  if path_exists fs p then inl (FileExistsError p)
  else if String.eqb (norm_path p) "" || negb (parent_is_dir fs p) then inl (FileNotFoundError p)
  else inr (mkFS (fs_files fs) (fs_dirs fs ++ [norm_path p])).

Definition no_files : FS := mkFS [] [].

(** The emulator object: fields of [AbastractEmulator] and [GameBoy], the
    file system it works on and the trace of backend events. *)
Record Emu := mkEmu {
  fps : Z;
  pyboy : option PyBoy;
  screenShots : list Image;
  buttons : list (string * ButtonCode);
  files : FS;
  trace : list Event
}.

(** ** An exception-and-state monad *)

Inductive Res (S A : Type) :=
| Ok (a : A) (s : S)
| Raise (e : Exn) (s : S).
Arguments Ok {S A} a s.
Arguments Raise {S A} e s.

Definition St (S A : Type) := S -> Res S A.

Definition ret {S A} (a : A) : St S A := fun s => Ok a s.
Definition raise {S A} (e : Exn) : St S A := fun s => Raise e s.
Definition bind {S A B} (m : St S A) (k : A -> St S B) : St S B :=
  fun s => match m s with Ok a s' => k a s' | Raise e s' => Raise e s' end.
Definition get {S} : St S S := fun s => Ok s s.
Definition modify {S} (f : S -> S) : St S unit := fun s => Ok tt (f s).

Notation "x <- m ;; k" := (bind m (fun x => k))
  (at level 61, m at next level, right associativity).
Notation "m ;;; k" := (bind m (fun _ => k))
  (at level 61, right associativity).

Definition M := St Emu.

(** Record updates. *)
Definition set_pyboy (p : option PyBoy) (e : Emu) : Emu :=
  mkEmu (fps e) p (screenShots e) (buttons e) (files e) (trace e).
Definition set_screenShots (l : list Image) (e : Emu) : Emu :=
  mkEmu (fps e) (pyboy e) l (buttons e) (files e) (trace e).
Definition set_buttons (b : list (string * ButtonCode)) (e : Emu) : Emu :=
  mkEmu (fps e) (pyboy e) (screenShots e) b (files e) (trace e).
Definition set_files (fs : FS) (e : Emu) : Emu :=
  mkEmu (fps e) (pyboy e) (screenShots e) (buttons e) fs (trace e).
Definition emit (ev : Event) (e : Emu) : Emu :=
  mkEmu (fps e) (pyboy e) (screenShots e) (buttons e) (files e) (trace e ++ [ev]).

(** ** [AbastractEmulator] over the [GameBoy] backend *)

(** [isRunning] (GameBoy): [self._pyboy is not None]. *)
Definition isRunning (e : Emu) : bool :=
  match pyboy e with Some _ => true | None => false end.

Definition assertIsRunning : M unit :=
  fun e => if isRunning e then Ok tt e else Raise NotRunning e.

Definition assertNotRunning : M unit :=
  fun e => if isRunning e then Raise AlreadyRunning e else Ok tt e.

(** [buttonNames]: [[buttonName.lower() for buttonName in self.__buttons.keys()]]. *)
Definition buttonNames (e : Emu) : list string :=
  map lower (dict_keys (buttons e)).

(** [_registerButton]: [self.__buttons[button.name.lower()] = button]. *)
Definition _registerButton (b : ButtonCode) (e : Emu) : Emu :=
  set_buttons (dict_set String.eqb (lower (name b)) b (buttons e)) e.

(** [_getButton]: a missing key lands in the [except KeyError] branch, whose
    [raise ButtonNotReconized(buttonName)] names an identifier that is not
    defined in the module, so Python raises [NameError] there. *)
Definition _getButton (buttonName : string) : M ButtonCode :=
  fun e =>
    match dict_get String.eqb (lower buttonName) (buttons e) with
    | Some b => Ok b e
    | None => Raise (NameError "ButtonNotReconized") e
    end.

(** [self._pyboy.send_input(code)]. *)
Definition send_input (code : option WindowEvent) : M unit :=
  fun e => match pyboy e with
           | None => Raise AttributeError e
           | Some _ => Ok tt (emit (EInput code) e)
           end.

(** [_runForOneFrame]: [self._pyboy.tick()]. *)
Definition _runForOneFrame : M unit :=
  fun e => match pyboy e with
           | None => Raise AttributeError e
           | Some _ => Ok tt (emit ETick e)
           end.

(** [_abstractTakeScreenShot]: [self._pyboy.get_screen_image()]. *)
Definition _abstractTakeScreenShot : M Image :=
  fun e => match pyboy e with
           | None => Raise AttributeError e
           | Some _ => Ok (Screen (trace e)) (emit EShot e)
           end.

(** [_takeScreenShot]. *)
Definition _takeScreenShot : M unit :=
  assertIsRunning ;;;
  img <- _abstractTakeScreenShot ;;
  modify (fun e => set_screenShots (screenShots e ++ [img]) e).

(** The body of [for _ in range(numberOfFrames)]. *)
Fixpoint frames_loop (k : nat) : M unit :=
  match k with
  | O => ret tt
  | S k' => _runForOneFrame ;;; _takeScreenShot ;;; frames_loop k'
  end.

Definition runForXFrames (numberOfFrames : Z) : M unit :=
  if Z.ltb numberOfFrames 0 then raise (ValueError "numberOfFrames must 0 or more")
  else
    assertIsRunning ;;;
    if Z.eqb numberOfFrames 0 then ret tt
    else frames_loop (Z.to_nat numberOfFrames).

Definition runForXSeconds (numberOfSeconds : PyNum) : M unit :=
  if py_lt0 numberOfSeconds then raise (ValueError "numberOfSeconds must 0 or more")
  else
    assertIsRunning ;;;
    e <- get ;;
    match num_frames numberOfSeconds (fps e) with
    | inl x => raise x
    | inr numFrames => runForXFrames numFrames
    end.

(** [makeGIF]: the duration [int(round(len(self.__screenShots) / self._fps))]
    is computed first; then [self.__screenShots[0].save(filePath, ...)] opens
    [filePath] for writing and writes the GIF, and the list is reset. *)
Definition makeGIF (filePath : string) : M unit :=
  assertIsRunning ;;;
  e <- get ;;
  match screenShots e with
  | [] => raise NoScreenShotFramesSaved
  | first :: rest =>
      match py_truediv (Z.of_nat (List.length (first :: rest))) (fps e) with
      | inl x => raise x
      | inr q =>
          match py_round q with
          | inl x => raise x
          | inr duration =>
              match open_write filePath (files e) with
              | inl x => raise x
              | inr fs =>
                  modify (fun e => set_files fs (emit (EGif filePath (first :: rest) duration) e)) ;;;
                  modify (set_screenShots [])
              end
          end
      end
  end.

(** [GameBoy._abstractHoldButton]. *)
Definition _abstractHoldButton (b : ButtonCode) (numberOfSeconds : PyNum) : M unit :=
  send_input (Some (pressCode b)) ;;;
  runForXSeconds numberOfSeconds ;;;
  send_input (releaseCode b) ;;;
  runForXSeconds (PInt 1).

(** [GameBoy._abstractPressButton]. *)
Definition _abstractPressButton (b : ButtonCode) : M unit :=
  send_input (Some (pressCode b)) ;;;
  runForXFrames 2 ;;;
  send_input (releaseCode b) ;;;
  runForXSeconds (PInt 1).

Definition holdButton (buttonName : string) (numberOfSeconds : PyNum) : M unit :=
  assertIsRunning ;;;
  (if py_lt0 numberOfSeconds
   then raise (ValueError "numberOfSeconds must be greater than 0") else ret tt) ;;;
  b <- _getButton buttonName ;;
  _abstractHoldButton b numberOfSeconds.

Definition pressButton (buttonName : string) : M unit :=
  assertIsRunning ;;;
  b <- _getButton buttonName ;;
  _abstractPressButton b.

(** [GameBoy._abstractStart]: [PyBoy(gameROM, default_ram_file=bootROM, ...)]
    raises [FileNotFoundError] when the game ROM is not a file, and
    [self._pyboy] is set only when the constructor returns. The boot ROM is
    passed on as [default_ram_file] and is not opened here. *)
Definition _abstractStart (gameROMPath : string) (bootROMPath : option string) : M unit :=
  fun e =>
    if is_file (files e) gameROMPath then
      Ok tt (emit (EStart gameROMPath bootROMPath)
                  (set_pyboy (Some (mkPyBoy gameROMPath bootROMPath)) e))
    else Raise (FileNotFoundError gameROMPath) e.

(** [GameBoy._abstractStop]: [self._pyboy.stop(save=False); self._pyboy = None]. *)
Definition _abstractStop : M unit :=
  fun e => match pyboy e with
           | None => Raise AttributeError e
           | Some _ => Ok tt (set_pyboy None (emit EStop e))
           end.

(** [GameBoy.loadState]: [open(path, "rb")] then [self._pyboy.load_state]. *)
Definition loadState (path : string) : M unit :=
  fun e =>
    match open_read path (files e) with
    | Some x => Raise x e
    | None =>
        match pyboy e with
        | None => Raise AttributeError e
        | Some _ => Ok tt (emit (ELoad path) e)
        end
    end.

(** [GameBoy.saveState]: [open(path, "wb")] creates the file, then
    [self._pyboy.save_state] writes it. *)
Definition saveState (path : string) : M unit :=
  fun e =>
    match open_write path (files e) with
    | inl x => Raise x e
    | inr fs =>
        let e1 := set_files fs e in
        match pyboy e1 with
        | None => Raise AttributeError e1
        | Some _ => Ok tt (emit (ESave path) e1)
        end
    end.

Definition start (gameROMPath : string) (bootROMPath saveStateFilePath : option string)
    (numberOfSecondsToRun : PyNum) : M unit :=
  if py_lt0 numberOfSecondsToRun
  then raise (ValueError "numberOfSecondsToRun must be 0 or more")
  else
    assertNotRunning ;;;
    _abstractStart gameROMPath bootROMPath ;;;
    (match saveStateFilePath with Some p => loadState p | None => ret tt end) ;;;
    runForXSeconds numberOfSecondsToRun.

Definition stop (saveStateFilePath : option string) : M unit :=
  assertIsRunning ;;;
  (match saveStateFilePath with Some p => saveState p | None => ret tt end) ;;;
  _abstractStop.

(** [GameBoy.__init__]: [super().__init__(60)] then the button registrations. *)
Definition gameBoy_buttons : list ButtonCode :=
  [ mkButtonCode "A" PRESS_BUTTON_A (Some RELEASE_BUTTON_A);
    mkButtonCode "B" PRESS_BUTTON_B (Some RELEASE_BUTTON_B);
    mkButtonCode "Se" PRESS_BUTTON_SELECT (Some RELEASE_BUTTON_SELECT);
    mkButtonCode "Select" PRESS_BUTTON_SELECT (Some RELEASE_BUTTON_SELECT);
    mkButtonCode "St" PRESS_BUTTON_START (Some RELEASE_BUTTON_START);
    mkButtonCode "Start" PRESS_BUTTON_START (Some RELEASE_BUTTON_START);
    mkButtonCode "U" PRESS_ARROW_UP (Some RELEASE_ARROW_UP);
    mkButtonCode "Up" PRESS_ARROW_UP (Some RELEASE_ARROW_UP);
    mkButtonCode "D" PRESS_ARROW_DOWN (Some RELEASE_ARROW_DOWN);
    mkButtonCode "Down" PRESS_ARROW_DOWN (Some RELEASE_ARROW_DOWN);
    mkButtonCode "L" PRESS_ARROW_LEFT (Some RELEASE_ARROW_LEFT);
    mkButtonCode "Left" PRESS_ARROW_LEFT (Some RELEASE_ARROW_LEFT);
    mkButtonCode "R" PRESS_ARROW_RIGHT (Some RELEASE_ARROW_RIGHT);
    mkButtonCode "Right" PRESS_ARROW_RIGHT (Some RELEASE_ARROW_RIGHT) ].

Definition gameBoy_init (disk : FS) : Emu :=
  fold_left (fun e b => _registerButton b e) gameBoy_buttons
    (mkEmu 60 None [] [] disk []).

(** A GameBoy working in a directory holding a ROM, a boot ROM and a save
    state, after [start("game.gb", "boot.bin", None, 0)]. *)
Definition disk0 : FS := mkFS ["game.gb"; "boot.bin"; "main.state"] [].

Definition started_gb : Emu :=
  match start "game.gb" (Some "boot.bin") None (PInt 0) (gameBoy_init disk0) with
  | Ok _ e => e
  | Raise _ e => e
  end.

(** ** Frame stepping: the effect of [n] loop iterations *)

Fixpoint frame_events (n : nat) : list Event :=
  match n with
  | O => []
  | S k => ETick :: EShot :: frame_events k
  end.

(** The screenshots taken by [n] iterations from history [tr]: the [k]-th one
    is the screen right after the [k]-th tick. *)
Definition shots (tr : list Event) (n : nat) : list Image :=
  map (fun k => Screen (tr ++ frame_events k ++ [ETick])) (seq 0 n).

Definition after_frames (n : nat) (e : Emu) : Emu :=
  mkEmu (fps e) (pyboy e) (screenShots e ++ shots (trace e) n) (buttons e) (files e)
    (trace e ++ frame_events n).

(** ** Paths ([os.path.join] on POSIX) *)

Definition starts_slash (s : string) : bool :=
  match s with String c _ => Ascii.eqb c "/" | EmptyString => false end.

Fixpoint ends_slash (s : string) : bool :=
  match s with
  | EmptyString => false
  | String c EmptyString => Ascii.eqb c "/"
  | String _ s' => ends_slash s'
  end.

(** [posixpath.join(a, b)]: an absolute [b] replaces the path. *)
Definition py_join (a b : string) : string :=
  if starts_slash b then b
  else if String.eqb a "" || ends_slash a then a ++ b
  else a ++ "/" ++ b.

(** A path computation; [os.path.join(None, ...)] raises [TypeError]. *)
Definition join_r (r : Exn + string) (b : string) : Exn + string :=
  match r with inl x => inl x | inr p => inr (py_join p b) end.

(** The path helpers, from the configured [local_path] ([None] by default). *)
Definition gb_path (local_path : option string) : Exn + string :=
  match local_path with None => inl TypeError | Some l => inr (py_join l "gb") end.
Definition boots_dir (lp : option string) : Exn + string := join_r (gb_path lp) "boots".
Definition bootROM_path (lp : option string) (b : string) : Exn + string := join_r (boots_dir lp) b.
Definition games_dir (lp : option string) : Exn + string := join_r (gb_path lp) "games".
Definition gameROM_path (lp : option string) (g : string) : Exn + string := join_r (games_dir lp) g.
Definition saves_dir (lp : option string) : Exn + string := join_r (gb_path lp) "saves".
Definition saves_definition_dir (lp : option string) (def_name : string) : Exn + string :=
  join_r (saves_dir lp) def_name.
Definition state_save_dir (lp : option string) (def_name : string) : Exn + string :=
  join_r (saves_definition_dir lp def_name) "states".
Definition state_save_path (lp : option string) (def_name save_name : string) : Exn + string :=
  join_r (state_save_dir lp def_name) save_name.
Definition screen_shots_save_dir (lp : option string) (def_name : string) : Exn + string :=
  join_r (saves_definition_dir lp def_name) "screen_shots".
Definition screen_shots_save_path (lp : option string) (def_name screen_shot_name : string)
    : Exn + string :=
  join_r (screen_shots_save_dir lp def_name) screen_shot_name.

Definition path_m {S} (r : Exn + string) : St S string :=
  fun s => match r with inl x => Raise x s | inr p => Ok p s end.

(** ** Channel registration bookkeeping (emulator.py) *)

(** [str(channel.id)], the key type of [channels_to_defs]. *)
Inductive ChanKey := StrId (id : Z).

Definition chankey_eqb (a b : ChanKey) : bool :=
  match a, b with StrId x, StrId y => Z.eqb x y end.

Record GameDef := mkGameDef { bootROM : string; gameROM : string }.

(** The persisted global configuration ([_DEFAULT_GLOBAL]); every
    [await self._conf.X.set(...)] writes one field. *)
Record Conf := mkConf {
  game_defs : list (string * GameDef);
  channels_to_defs : list (ChanKey * string);
  defs_to_channels : list (string * list Z)
}.

(** The cog: its configuration, the file system, and the definitions that
    have a lock and a [GameBoy] instance ([_start_instance] ran for them). *)
Record Cog := mkCog {
  conf : Conf;
  disk : FS;
  started : list string
}.

Definition set_game_defs (g : list (string * GameDef)) (c : Cog) : Cog :=
  mkCog (mkConf g (channels_to_defs (conf c)) (defs_to_channels (conf c))) (disk c) (started c).
Definition set_channels_to_defs (m : list (ChanKey * string)) (c : Cog) : Cog :=
  mkCog (mkConf (game_defs (conf c)) m (defs_to_channels (conf c))) (disk c) (started c).
Definition set_defs_to_channels (m : list (string * list Z)) (c : Cog) : Cog :=
  mkCog (mkConf (game_defs (conf c)) (channels_to_defs (conf c)) m) (disk c) (started c).

Definition CM := St Cog.

Definition in_keys {V} (k : string) (d : list (string * V)) : bool :=
  existsb (String.eqb k) (dict_keys d).

(** [setup_set_definition] with the configured local path [lp]: the ROMs are
    looked up with [os.path.exists] at [<lp>/gb/boots/<bootROM>] and
    [<lp>/gb/games/<gameROM>]. Error replies change nothing. *)
Definition setup_set_definition (lp : option string) (definition_name bootROM' gameROM' : string)
    : CM unit :=
  bp <- path_m (bootROM_path lp bootROM') ;;
  c <- get ;;
  if negb (path_exists (disk c) bp) then ret tt
  else
    gp <- path_m (gameROM_path lp gameROM') ;;
    c <- get ;;
    if negb (path_exists (disk c) gp) then ret tt
    else if in_keys definition_name (game_defs (conf c)) then ret tt
    else
      modify (set_game_defs (dict_set String.eqb definition_name
                               (mkGameDef bootROM' gameROM') (game_defs (conf c)))) ;;;
      c <- get ;;
      modify (set_defs_to_channels (dict_set String.eqb definition_name []
                                      (defs_to_channels (conf c)))).

(** [setup_register] from channel [ch]. The "already registered" reply
    formats the undefined name [def_name], which raises [NameError]. *)
Definition setup_register (ch : Z) (definition_name : string) : CM unit :=
  c <- get ;;
  match dict_get String.eqb definition_name (game_defs (conf c)) with
  | None => ret tt
  | Some _ =>
      if existsb (chankey_eqb (StrId ch)) (dict_keys (channels_to_defs (conf c)))
      then raise (NameError "def_name")
      else
        modify (set_channels_to_defs
                  (dict_set chankey_eqb (StrId ch) definition_name (channels_to_defs (conf c)))) ;;;
        c <- get ;;
        match dict_get String.eqb definition_name (defs_to_channels (conf c)) with
        | None => raise KeyError
        | Some l =>
            modify (set_defs_to_channels
                      (dict_set String.eqb definition_name (l ++ [ch])%list (defs_to_channels (conf c))))
        end
  end.

(** [setup_unregister] from channel [ch]. *)
Definition setup_unregister (ch : Z) : CM unit :=
  c <- get ;;
  match dict_get chankey_eqb (StrId ch) (channels_to_defs (conf c)) with
  | None => ret tt
  | Some def_name =>
      modify (set_channels_to_defs (dict_del chankey_eqb (StrId ch) (channels_to_defs (conf c)))) ;;;
      c <- get ;;
      match dict_get String.eqb def_name (defs_to_channels (conf c)) with
      | None => raise KeyError
      | Some l =>
          modify (set_defs_to_channels
                    (dict_set String.eqb def_name (filter (fun c_id => negb (Z.eqb c_id ch)) l)
                       (defs_to_channels (conf c))))
      end
  end.

(** [for channel_id in channels_to_defs.keys(): del channels_to_defs[channel_id]]
    on a local copy: the first deletion changes the dict's size, and the next
    step of the key iterator raises [RuntimeError]; an empty dict is left as is. *)
Definition del_while_iterating {V} (d : list (ChanKey * V)) : Res unit (list (ChanKey * V)) :=
  match d with
  | [] => Ok [] tt
  | (k, _) :: _ => Raise RuntimeError tt
  end.

(** [setup_delete_definition]; [confirmed] is the user's yes/no reaction.
    The "no such definition" reply formats the undefined [name] ([NameError]);
    the "no" branch uses the unimported [contextlib] ([NameError]); with an
    instance, [isRunning()] calls the [bool] returned by the property
    ([TypeError]). *)
Definition setup_delete_definition (definition_name : string) (confirmed : bool) : CM unit :=
  c <- get ;;
  if negb (in_keys definition_name (game_defs (conf c))) then raise (NameError "name")
  else if negb confirmed then raise (NameError "contextlib")
  else if existsb (String.eqb definition_name) (started c) then raise TypeError
  else
    modify (set_game_defs (dict_del String.eqb definition_name (game_defs (conf c)))) ;;;
    c <- get ;;
    match del_while_iterating (channels_to_defs (conf c)) with
    | Raise e _ => raise e
    | Ok c2d _ =>
        modify (set_channels_to_defs c2d) ;;;
        c <- get ;;
        if negb (in_keys definition_name (defs_to_channels (conf c))) then raise KeyError
        else modify (set_defs_to_channels
                       (dict_del String.eqb definition_name (defs_to_channels (conf c))))
    end.

(** ** The per-game lock of [on_message] under asyncio scheduling

    [on_message] runs [if not self._locks[def_name].locked(): async with
    self._locks[def_name]: ...]. Coroutines interleave only at suspension
    points, so the check, the acquisition and the synchronous button presses
    and [runForXSeconds(10)] of a command form one atomic segment; the
    critical section then suspends at its [await]s (saving the state file,
    sending the screenshot). Other users of the same lock ([_start_instance],
    [_stop_instance], [setup_delete_definition]) do [async with] without the
    [locked()] check. The model follows [asyncio.Lock]: [acquire] takes a free
    lock at once only when no waiter is queued, otherwise it queues a future;
    [release] clears [_locked] and wakes the first queued waiter, which sets
    [_locked] again and leaves the queue when it resumes. One game's lock is
    modelled: the locks of different games are distinct objects. *)

Inductive Kind := ButtonCmd | LockUser.

Inductive Phase :=
| AtLock                 (* about to run the lock statement *)
| Blocked                (* queued in [_waiters], future not done *)
| Woken                  (* future done by [release], not resumed yet *)
| InLock (awaits : nat)  (* holds the lock, [awaits] suspensions left *)
| Finished
| Dropped.               (* [locked()] was true: the command is ignored *)

Record Task := mkTask { kind : Kind; body_awaits : nat; phase : Phase }.

Record Sys := mkSys {
  locked : bool;            (* [_locked] *)
  waiters : list nat;       (* [_waiters], by task index *)
  tasks : list Task;
  presses : list nat        (* tasks whose button presses have run *)
}.

Fixpoint set_nth {A} (i : nat) (x : A) (l : list A) : list A :=
  match l, i with
  | [], _ => []
  | _ :: l', O => x :: l'
  | y :: l', S i' => y :: set_nth i' x l'
  end.

Fixpoint remove_first (i : nat) (l : list nat) : list nat :=
  match l with
  | [] => []
  | j :: l' => if Nat.eqb i j then l' else j :: remove_first i l'
  end.

Definition set_phase (i : nat) (t : Task) (p : Phase) (ts : list Task) : list Task :=
  set_nth i (mkTask (kind t) (body_awaits t) p) ts.

Definition is_button (t : Task) : bool :=
  match kind t with ButtonCmd => true | LockUser => false end.

(** Entering the critical section: the presses run in the same segment. *)
Definition enter (i : nat) (t : Task) (s : Sys) (w : list nat) : Sys :=
  mkSys true w (set_phase i t (InLock (body_awaits t)) (tasks s))
    (if is_button t then presses s ++ [i] else presses s).

(** [release]: [_locked = False], then wake the first waiter. *)
Definition release (ts : list Task) (w : list nat) : list Task :=
  match w with
  | j :: _ =>
      match nth_error ts j with
      | Some u => match phase u with Blocked => set_phase j u Woken ts | _ => ts end
      | None => ts
      end
  | [] => ts
  end.

(** One scheduling step of task [i] up to its next suspension point. *)
Definition step (i : nat) (s : Sys) : Sys :=
  match nth_error (tasks s) i with
  | None => s
  | Some t =>
      match phase t with
      | AtLock =>
          if is_button t && locked s then
            mkSys (locked s) (waiters s) (set_phase i t Dropped (tasks s)) (presses s)
          else if negb (locked s) && (match waiters s with [] => true | _ => false end) then
            enter i t s (waiters s)
          else
            mkSys (locked s) (waiters s ++ [i]) (set_phase i t Blocked (tasks s)) (presses s)
      | Woken => enter i t s (remove_first i (waiters s))
      | InLock (S k) => mkSys (locked s) (waiters s) (set_phase i t (InLock k) (tasks s)) (presses s)
      | InLock O =>
          mkSys false (waiters s) (release (set_phase i t Finished (tasks s)) (waiters s)) (presses s)
      | Blocked | Finished | Dropped => s
      end
  end.

Definition run (sched : list nat) (s : Sys) : Sys := fold_left (fun s i => step i s) sched s.

(** All tasks arrive at the lock statement; the lock is free. *)
Definition init_sys (ts : list (Kind * nat)) : Sys :=
  mkSys false [] (map (fun '(k, n) => mkTask k n AtLock) ts) [].

Definition in_lock (t : Task) : bool :=
  match phase t with InLock _ => true | _ => false end.
Definition is_woken (t : Task) : bool :=
  match phase t with Woken => true | _ => false end.

Definition cnt (f : Task -> bool) (ts : list Task) : nat := List.length (filter f ts).

(** ** The command language of [on_message]

    [message.content.split(" ")]: every single space separates two words, so
    consecutive spaces give empty words and [""] splits into [[""]]. *)
Fixpoint py_split_space (s : string) : list string :=
  match s with
  | EmptyString => [EmptyString]
  | String c s' =>
      if Ascii.eqb c " " then EmptyString :: py_split_space s'
      else match py_split_space s' with
           | w :: ws => String c w :: ws
           | [] => [String c EmptyString]
           end
  end.


(** The two commands: [<button> p <number>] and [<button> h <number>]. *)
Inductive Command :=
| Press (button : string) (num : Z)
| Hold (button : string) (num : PyFloat).

(** The parsing part of [on_message] for a message sent in a registered
    channel. [names] is [buttonNames] of the definition's instance, [None]
    when there is no instance. The conversions [int(...)] and [float(...)] are
    the parameters [py_int] and [py_float] ([None]: [ValueError], caught).
    [max(a, x)] keeps [a] unless [x > a]; [min(a, x)] keeps [a] unless
    [x < a]. [None] is a message the listener ignores. *)
Definition on_message_command (py_int : string -> option Z) (py_float : string -> option PyFloat)
    (names : option (list string)) (content : string) : option Command :=
  let split_mess := py_split_space content in
  if Nat.ltb 3 (List.length split_mess) then None
  else
    match names with
    | None => None
    | Some bn =>
        let button := lower (nth 0 split_mess EmptyString) in
        if negb (existsb (String.eqb button) bn) then None
        else if negb (Nat.eqb (List.length split_mess) 3) then None
        else
          let action := lower (nth 1 split_mess EmptyString) in
          if String.eqb action "p" then
            match py_int (nth 2 split_mess EmptyString) with
            | None => None
            | Some x =>
                let m := if Z.ltb 1 x then x else 1%Z in
                Some (Press button (if Z.ltb m 3 then m else 3%Z))
            end
          else if String.eqb action "h" then
            match py_float (nth 2 split_mess EmptyString) with
            | None => None
            | Some x =>
                let m := if float_gt x (1#2) then x else FFin (1#2) in
                Some (Hold button (if float_lt m 3 then m else FFin 3))
            end
          else None
    end.

(** ** The cog's use of one instance *)

(** [_save_main_state_file]. *)
Definition _save_main_state_file (lp : option string) (def_name : string) : M unit :=
  p <- path_m (state_save_path lp def_name "main") ;;
  saveState p.

(** [_load_main_state_file]: loads only when [os.path.exists] holds. *)
Definition _load_main_state_file (lp : option string) (def_name : string) : M unit :=
  p <- path_m (state_save_path lp def_name "main") ;;
  e <- get ;;
  if path_exists (files e) p then loadState p else ret tt.

(** [_send_screenshot], with [now] the text of [datetime.now()]; posting the
    file to the registered channels is not modelled. *)
Definition _send_screenshot (lp : option string) (def_name now : string) : M unit :=
  p <- path_m (screen_shots_save_path lp def_name (now ++ ".gif")) ;;
  makeGIF p.

(** [for n in range(num): pressButton(button)]. *)
Fixpoint press_loop (button : string) (k : nat) : M unit :=
  match k with
  | O => ret tt
  | S k' => pressButton button ;;; press_loop button k'
  end.

(** The end of a command in [on_message]. *)
Definition after_command (lp : option string) (def_name now : string) : M unit :=
  runForXSeconds (PInt 10) ;;;
  _save_main_state_file lp def_name ;;;
  _send_screenshot lp def_name now.

(** The critical section of [on_message] for [<button> p <num>] (an [int])
    and for [<button> h <num>] (a [float]). *)
Definition run_press (lp : option string) (def_name now button : string) (num : Z) : M unit :=
  press_loop button (Z.to_nat num) ;;;
  after_command lp def_name now.

Definition run_hold (lp : option string) (def_name now button : string) (num : PyFloat) : M unit :=
  holdButton button (PFloat num) ;;;
  after_command lp def_name now.

(** [_start_instance] from [if not self._instances[definition_name].isRunning]
    on, for the definition [info]. *)
Definition _start_instance_body (lp : option string) (def_name : string) (info : GameDef)
    (now : string) : M unit :=
  bp <- path_m (bootROM_path lp (bootROM info)) ;;
  gp <- path_m (gameROM_path lp (gameROM info)) ;;
  start gp (Some bp) None (PInt 0) ;;;
  _load_main_state_file lp def_name ;;;
  runForXSeconds (PInt 60) ;;;
  _send_screenshot lp def_name now.

(** ** The instances of the cog ([self._instances]) and the file system *)

Definition Insts := list (string * Emu).

Record World := mkWorld { instances : Insts; wfs : FS }.

Definition IM := St World.

Definition set_instances (is : Insts) (w : World) : World := mkWorld is (wfs w).
Definition set_wfs (fs : FS) (w : World) : World := mkWorld (instances w) fs.

(** [self._instances[def_name].<call>]: a missing key raises [KeyError]. The
    instance is one shared object, so its state after the call is kept, also
    when the call raises; during the call it works on the shared file system,
    whose new contents are kept (the [files] field of a stored instance is not
    used). *)
Definition on_instance {A} (def_name : string) (m : M A) : IM A :=
  fun w =>
    match dict_get String.eqb def_name (instances w) with
    | None => Raise KeyError w
    | Some e =>
        match m (set_files (wfs w) e) with
        | Ok a e' =>
            Ok a (mkWorld (dict_set String.eqb def_name (set_files (files e) e') (instances w))
                          (files e'))
        | Raise x e' =>
            Raise x (mkWorld (dict_set String.eqb def_name (set_files (files e) e') (instances w))
                             (files e'))
        end
    end.

(** [self._instances[def_name].isRunning]. *)
Definition instance_running (def_name : string) : IM bool :=
  fun w =>
    match dict_get String.eqb def_name (instances w) with
    | None => Raise KeyError w
    | Some e => Ok (isRunning e) w
    end.

(** [if not os.path.exists(r): os.mkdir(r)], the path [r] being computed
    twice. *)
Definition ensure_dir (r : Exn + string) : IM unit :=
  p <- path_m r ;;
  w <- get ;;
  if path_exists (wfs w) p then ret tt
  else
    p <- path_m r ;;
    match os_mkdir p (wfs w) with
    | inl x => raise x
    | inr fs => modify (set_wfs fs)
    end.

(** [_start_instance] (the lock is left out): the three folders are created
    when missing, a [GameBoy] is created when there is no instance, and a
    stopped instance is started from [game_defs]. *)
Definition _start_instance (lp : option string) (gd : list (string * GameDef))
    (now def_name : string) : IM unit :=
  ensure_dir (saves_definition_dir lp def_name) ;;;
  ensure_dir (state_save_dir lp def_name) ;;;
  ensure_dir (screen_shots_save_dir lp def_name) ;;;
  w <- get ;;
  (match dict_get String.eqb def_name (instances w) with
   | None => modify (set_instances (dict_set String.eqb def_name (gameBoy_init no_files) (instances w)))
   | Some _ => ret tt
   end) ;;;
  running <- instance_running def_name ;;
  if running then ret tt
  else
    match dict_get String.eqb def_name gd with
    | None => raise KeyError
    | Some info => on_instance def_name (_start_instance_body lp def_name info now)
    end.

(** The three folders [_start_instance] creates when they are missing. *)
Definition instance_dirs (lp : option string) (def_name : string) : list (Exn + string) :=
  [saves_definition_dir lp def_name; state_save_dir lp def_name;
   screen_shots_save_dir lp def_name].

(** [_stop_instance] (the lock, which exists whenever the instance does, and
    the message to the channels are not modelled). *)
Definition _stop_instance (lp : option string) (def_name : string) : IM unit :=
  running <- instance_running def_name ;;
  if running then
    on_instance def_name (_save_main_state_file lp def_name) ;;;
    on_instance def_name (stop None)
  else ret tt.

(** [_auto_load_instances] over the list [auto_loads]. *)
Definition _auto_load_instances (lp : option string) (gd : list (string * GameDef))
    (now : string) (auto_loads : list string) : IM unit :=
  fold_right (fun n k => _start_instance lp gd now n ;;; k) (ret tt) auto_loads.

(** [_stop_all_instances]: [_stop_instance] keeps the keys of the dict. *)
Definition _stop_all_instances (lp : option string) : IM unit :=
  w <- get ;;
  fold_right (fun n k => _stop_instance lp n ;;; k) (ret tt) (dict_keys (instances w)).

(** ** The auto-load list *)

(** [setup_add_auto_load]: an unknown name is refused, otherwise appended. *)
Definition setup_add_auto_load (gd : list (string * GameDef)) (definition_name : string)
    (auto_loads : list string) : list string :=
  if negb (in_keys definition_name gd) then auto_loads
  else auto_loads ++ [definition_name].

(** [setup_delete_auto_load]. *)
Definition setup_delete_auto_load (gd : list (string * GameDef)) (definition_name : string)
    (auto_loads : list string) : list string :=
  if negb (in_keys definition_name gd) then auto_loads
  else if negb (existsb (String.eqb definition_name) auto_loads) then auto_loads
  else filter (fun dn => negb (String.eqb dn definition_name)) auto_loads.

(** ** Consistency of the registration maps *)

(** [channels_to_defs] has distinct keys; a channel is mapped to [d] exactly
    when [d]'s channel list holds it; channels are mapped to defined games; and
    every defined game has a channel list. *)
Definition conf_ok (c : Conf) : Prop :=
  NoDup (dict_keys (channels_to_defs c))
  /\ (forall ch d, dict_get chankey_eqb (StrId ch) (channels_to_defs c) = Some d
        <-> exists l, dict_get String.eqb d (defs_to_channels c) = Some l /\ In ch l)
  /\ (forall ch d, dict_get chankey_eqb (StrId ch) (channels_to_defs c) = Some d ->
        in_keys d (game_defs c) = true)
  /\ (forall d, in_keys d (game_defs c) = true ->
        exists l, dict_get String.eqb d (defs_to_channels c) = Some l).

(** ** The [start] and [stop] commands *)

(** [setup_stop]: an undefined name, a missing instance and a stopped one get
    an error reply; otherwise [_stop_instance]. *)
Definition setup_stop (lp : option string) (gd : list (string * GameDef))
    (definition_name : string) : IM unit :=
  if negb (in_keys definition_name gd) then ret tt
  else
    w <- get ;;
    match dict_get String.eqb definition_name (instances w) with
    | None => ret tt
    | Some e => if negb (isRunning e) then ret tt else _stop_instance lp definition_name
    end.

(** [setup_start]: an undefined name and a running instance get an error
    reply; otherwise [_start_instance]. *)
Definition setup_start (lp : option string) (gd : list (string * GameDef))
    (now definition_name : string) : IM unit :=
  if negb (in_keys definition_name gd) then ret tt
  else
    w <- get ;;
    match dict_get String.eqb definition_name (instances w) with
    | Some e => if isRunning e then ret tt else _start_instance lp gd now definition_name
    | None => _start_instance lp gd now definition_name
    end.


(** * Proofs *)

Lemma py_round_div_1 (n : Z) : py_round_div n 1 = n.
Proof. unfold py_round_div. rewrite Z.div_1_r, Z.mod_1_r. reflexivity. Qed.

Lemma py_round_div_nonneg (n f : Z) : (0 <= n)%Z -> (0 < f)%Z -> (0 <= py_round_div n f)%Z.
Proof.
  intros Hn Hf. unfold py_round_div.
  assert (0 <= n / f)%Z by (apply Z.div_pos; lia).
  destruct (_ <? _)%Z; [lia|]. destruct (_ <? _)%Z; [lia|]. destruct (Z.even _); lia.
Qed.

Lemma py_round_div_le (n f : Z) : (0 < f)%Z -> (py_round_div n f <= n / f + 1)%Z.
Proof.
  intros Hf. unfold py_round_div.
  destruct (_ <? _)%Z; [lia|]. destruct (_ <? _)%Z; [lia|]. destruct (Z.even _); lia.
Qed.

Lemma Qred_int (z : Z) : Qred (inject_Z z) = inject_Z z.
Proof. apply Qcanon.Qred_identity. simpl. apply Z.gcd_1_r. Qed.

(** A double holds every integer of magnitude below [2 ^ 53] exactly. *)
Lemma round_double_int (z : Z) : (Z.abs z < 2 ^ 53)%Z -> round_double (inject_Z z) = FFin (inject_Z z).
Proof.
  intro Hz. unfold round_double. cbn [Qnum Qden inject_Z].
  destruct (Z.eqb_spec z 0) as [->|Hz0]; [reflexivity|].
  assert (Ha : (0 < Z.abs z)%Z) by lia.
  pose proof (Z.log2_spec _ Ha) as [L1 L2].
  assert (L3 : (Z.log2 (Z.abs z) < 53)%Z) by (apply Z.log2_lt_pow2; lia).
  assert (L0 : (0 <= Z.log2 (Z.abs z))%Z) by apply Z.log2_nonneg.
  change (Z.log2 1) with 0%Z. rewrite Z.sub_0_r.
  unfold pow2_le. replace (0 <=? Z.log2 (Z.abs z))%Z with true by (symmetry; apply Z.leb_le; lia).
  replace (1 * 2 ^ Z.log2 (Z.abs z) <=? Z.abs z)%Z with true by (symmetry; apply Z.leb_le; lia).
  rewrite Z.max_l by lia.
  rewrite <- (Qred_int z).
  destruct (Z.leb_spec 0 (Z.log2 (Z.abs z) - 52)) as [Hu|Hu].
  - replace (Z.log2 (Z.abs z) - 52)%Z with 0%Z by lia.
    rewrite Z.mul_1_l, Z.pow_0_r, py_round_div_1, Z.mul_1_r.
    replace (2 ^ 1024 <=? Z.abs z)%Z with false by (symmetry; apply Z.leb_gt; lia).
    simpl andb. cbv iota.
    f_equal. apply Qred_complete. destruct (Z.ltb_spec z 0); unfold Qeq; simpl; lia.
  - simpl andb. cbv iota.
    rewrite py_round_div_1.
    set (k := (- (Z.log2 (Z.abs z) - 52))%Z).
    assert (Hk : (0 < 2 ^ k)%Z) by (apply Z.pow_pos_nonneg; lia).
    f_equal. apply Qred_complete.
    destruct (Z.ltb_spec z 0); unfold Qeq; simpl; rewrite ?Z2Pos.id by exact Hk; lia.
Qed.

Ltac name_round_parts :=
  match goal with |- context [Z.max ?a ?b] => set (u := Z.max a b) end;
  match goal with
  | |- context [if (0 <=? ?v)%Z then py_round_div ?x ?y else py_round_div ?z ?w] =>
      set (m := if (0 <=? v)%Z then py_round_div x y else py_round_div z w)
  end.

(** A non-negative rational rounds to a non-negative double or to [inf]. *)
Lemma round_double_nonneg (x : Q) : (0 <= x)%Q ->
  round_double x = FPInf \/ exists q, round_double x = FFin q /\ (0 <= q)%Q.
Proof.
  destruct x as [n d]. unfold Qle. simpl. rewrite Z.mul_1_r. intro Hn.
  unfold round_double. cbn [Qnum Qden].
  destruct (Z.eqb_spec n 0) as [->|Hn0].
  { right. exists 0%Q. split; [reflexivity|unfold Qle; simpl; lia]. }
  replace (n <? 0)%Z with false by (symmetry; apply Z.ltb_ge; lia).
  name_round_parts.
  assert (Hm : (0 <= m)%Z).
  { unfold m. destruct (Z.leb_spec 0 u); apply py_round_div_nonneg;
    try apply Z.mul_pos_pos; try apply Z.mul_nonneg_nonneg; try apply Z.pow_pos_nonneg;
    try apply Z.pow_nonneg; lia. }
  destruct ((0 <=? u)%Z && (2 ^ 1024 <=? m * 2 ^ u)%Z); [left; reflexivity|].
  right. eexists; split; [reflexivity|].
  apply (proj2 (Qred_le 0 _)). destruct (Z.leb_spec 0 u).
  - unfold Qle; simpl. assert (0 <= 2 ^ u)%Z by (apply Z.pow_nonneg; lia). nia.
  - unfold Qle; simpl. lia.
Qed.

(** A rational of magnitude below [2 ^ 1023] rounds to a finite double. *)
Lemma round_double_finite (x : Q) :
  (Z.abs (Qnum x) < Zpos (Qden x) * 2 ^ 1023)%Z -> exists q, round_double x = FFin q.
Proof.
  destruct x as [n d]. cbn [Qnum Qden]. intro Hx.
  unfold round_double. cbn [Qnum Qden].
  destruct (Z.eqb_spec n 0) as [->|Hn0]; [eexists; reflexivity|].
  set (a := Z.abs n) in *.
  assert (Ha : (0 < a)%Z) by (unfold a; lia).
  set (e0 := (Z.log2 a - Z.log2 (Zpos d))%Z).
  assert (He0 : (e0 <= 1023)%Z).
  { unfold e0.
    assert (Z.log2 (Zpos d * 2 ^ 1023) = 1023 + Z.log2 (Zpos d))%Z
      by (apply Z.log2_mul_pow2; lia).
    assert (Z.log2 a <= Z.log2 (Zpos d * 2 ^ 1023))%Z by (apply Z.log2_le_mono; lia). lia. }
  set (e := if pow2_le e0 a (Zpos d) then e0 else (e0 - 1)%Z).
  name_round_parts.
  assert (Hover : ((0 <=? u)%Z && (2 ^ 1024 <=? m * 2 ^ u)%Z) = false).
  { destruct (Z.leb_spec 0 u) as [Hu|Hu]; [simpl|reflexivity].
    assert (Hu' : u = (e - 52)%Z) by (unfold u; lia).
    assert (He : (e <= 1022)%Z).
    { unfold e. destruct (pow2_le e0 a (Zpos d)) eqn:P; [|lia].
      unfold pow2_le in P. destruct (Z.leb_spec 0 e0); [|lia].
      apply Z.leb_le in P.
      assert (2 ^ e0 < 2 ^ 1023)%Z by nia.
      apply Z.pow_lt_mono_r_iff in H0; lia. }
    assert (Hp : (0 < 2 ^ u)%Z) by (apply Z.pow_pos_nonneg; lia).
    assert (Hq : (0 < 2 ^ (1023 - u))%Z) by (apply Z.pow_pos_nonneg; lia).
    assert (Hsplit : (2 ^ 1023 = 2 ^ (1023 - u) * 2 ^ u)%Z)
      by (rewrite <- Z.pow_add_r by lia; f_equal; lia).
    unfold m. replace (0 <=? u)%Z with true by (symmetry; apply Z.leb_le; lia).
    pose proof (py_round_div_le a (Zpos d * 2 ^ u) ltac:(nia)) as Hle.
    assert (Hdiv : (a / (Zpos d * 2 ^ u) < 2 ^ (1023 - u))%Z).
    { apply Z.div_lt_upper_bound; [nia|]. rewrite Hsplit in Hx. nia. }
    apply Z.leb_gt.
    assert (py_round_div a (Zpos d * 2 ^ u) <= 2 ^ (1023 - u))%Z by lia.
    assert (py_round_div a (Zpos d * 2 ^ u) * 2 ^ u <= 2 ^ 1023)%Z by nia.
    assert (2 ^ 1023 < 2 ^ 1024)%Z by (apply Z.pow_lt_mono_r; lia). lia. }
  rewrite Hover. eexists; reflexivity.
Qed.

Lemma int_to_float_exact (z : Z) : (Z.abs z < 2 ^ 53)%Z -> int_to_float z = inr (FFin (inject_Z z)).
Proof. intro H. unfold int_to_float. rewrite round_double_int by exact H. reflexivity. Qed.

Lemma Qltb_false (a b : Q) : Qltb a b = false <-> (b <= a)%Q.
Proof. unfold Qltb. rewrite negb_false_iff. apply Qle_bool_iff. Qed.

Lemma Qltb_true (a b : Q) : Qltb a b = true <-> (a < b)%Q.
Proof.
  unfold Qltb. split.
  - intro H. apply Qnot_le_lt. intro C. apply Qle_bool_iff in C. rewrite C in H. discriminate.
  - intro H. destruct (Qle_bool b a) eqn:E; [|reflexivity].
    apply Qle_bool_iff in E. exfalso. exact (Qlt_not_le _ _ H E).
Qed.

Lemma Qceiling_nonneg' (p : Q) : (0 <= p)%Q -> (0 <= Qceiling p)%Z.
Proof. intro H. apply Qceiling_resp_le in H. exact H. Qed.

Lemma py_ceil_float_nonneg (x : PyFloat) (n : Z) :
  (x = FPInf \/ exists q, x = FFin q /\ (0 <= q)%Q) -> py_ceil (PFloat x) = inr n -> (0 <= n)%Z.
Proof.
  intros [->|(q & -> & Hq)] H; simpl in H; [discriminate|].
  injection H as <-. apply Qceiling_nonneg'. exact Hq.
Qed.

(** The frame count of a non-negative duration at a non-negative rate is
    non-negative. *)
Lemma num_frames_nonneg (s : PyNum) (f n : Z) :
  py_lt0 s = false -> (0 <= f)%Z -> num_frames s f = inr n -> (0 <= n)%Z.
Proof.
  intros Hs Hf H. unfold num_frames, py_mul_int in H. destruct s as [z|x].
  - simpl in Hs. apply Z.ltb_ge in Hs. simpl in H. injection H as <-. lia.
  - unfold int_to_float in H.
    destruct (round_double_nonneg (inject_Z f)) as [G|(r & G & Hr)];
      [unfold Qle; simpl; lia| |]; rewrite G in H; [discriminate|].
    destruct x as [q| | |]; simpl in Hs; try discriminate; cbn [float_mul] in H.
    + apply Qltb_false in Hs.
      apply (py_ceil_float_nonneg (round_double (q * r))); [|exact H].
      apply round_double_nonneg. apply Qmult_le_0_compat; assumption.
    + destruct (Qeq_bool r 0); simpl in H; [discriminate|].
      destruct (Qltb 0 r); discriminate.
Qed.

(** [n / f] for [0 <= n < 2 ^ 1023] and [f > 0] is a finite float. *)
Lemma py_truediv_finite (n f : Z) :
  (0 <= n < 2 ^ 1023)%Z -> (0 < f)%Z -> exists q, py_truediv n f = inr (FFin q).
Proof.
  intros Hn Hf. unfold py_truediv.
  replace (f =? 0)%Z with false by (symmetry; apply Z.eqb_neq; lia).
  destruct (round_double_finite (inject_Z n / inject_Z f)) as [q Hq].
  - destruct f as [|p|p]; try lia. simpl. lia.
  - rewrite Hq. eexists; reflexivity.
Qed.

(** ** Helper lemmas on the monad and the emulator *)

Lemma bind_Ok {S A B} (m : St S A) (k : A -> St S B) (s : S) (a : A) (s1 : S) :
  m s = Ok a s1 -> bind m k s = k a s1.
Proof. intro H. unfold bind. rewrite H. reflexivity. Qed.

Lemma bind_Raise {S A B} (m : St S A) (k : A -> St S B) (s : S) (x : Exn) (s1 : S) :
  m s = Raise x s1 -> bind m k s = Raise x s1.
Proof. intro H. unfold bind. rewrite H. reflexivity. Qed.

Lemma bind_assoc {S A B C} (m : St S A) (k1 : A -> St S B) (k2 : B -> St S C) (s : S) :
  bind (bind m k1) k2 s = bind m (fun a => bind (k1 a) k2) s.
Proof. unfold bind. destruct (m s); reflexivity. Qed.

Lemma bind_ok_inv {S A B} (m : St S A) (k : A -> St S B) (s s' : S) (b : B) :
  bind m k s = Ok b s' -> exists a s1, m s = Ok a s1 /\ k a s1 = Ok b s'.
Proof.
  unfold bind. destruct (m s) as [a s1|x s1]; [|discriminate]. intro H. eauto.
Qed.

Lemma assert_ok (e : Emu) : isRunning e = true -> assertIsRunning e = Ok tt e.
Proof. intro H. unfold assertIsRunning. rewrite H. reflexivity. Qed.

Lemma send_input_ok (c : option WindowEvent) (e : Emu) :
  isRunning e = true -> send_input c e = Ok tt (emit (EInput c) e).
Proof.
  intro H. unfold send_input. unfold isRunning in H.
  destruct (pyboy e); [reflexivity|discriminate].
Qed.

Lemma getButton_ok (nm : string) (bc : ButtonCode) (e : Emu) :
  dict_get String.eqb (lower nm) (buttons e) = Some bc -> _getButton nm e = Ok bc e.
Proof. intro H. unfold _getButton. rewrite H. reflexivity. Qed.

Lemma shots_S (tr : list Event) (n : nat) :
  shots tr (S n) = Screen (tr ++ [ETick]) :: shots (tr ++ [ETick; EShot]) n.
Proof.
  unfold shots. cbn [seq map]. f_equal.
  rewrite <- seq_shift, map_map. apply map_ext. intro k.
  cbn [frame_events]. rewrite <- app_assoc. reflexivity.
Qed.

Lemma shots_length (tr : list Event) (n : nat) : List.length (shots tr n) = n.
Proof. unfold shots. rewrite length_map, length_seq. reflexivity. Qed.

Lemma after_frames_0 (e : Emu) : after_frames 0 e = e.
Proof. destruct e. unfold after_frames. simpl. rewrite !app_nil_r. reflexivity. Qed.

Lemma frames_loop_spec (n : nat) : forall e : Emu,
  isRunning e = true -> frames_loop n e = Ok tt (after_frames n e).
Proof.
  induction n as [|n IH]; intros e H.
  - rewrite after_frames_0. reflexivity.
  - destruct e as [f p ss bs fs tr]. unfold isRunning in H. simpl in H.
    destruct p as [pb|]; [|discriminate].
    cbn [frames_loop]. unfold bind, _runForOneFrame, _takeScreenShot, assertIsRunning,
      _abstractTakeScreenShot, modify, emit, set_screenShots, isRunning. simpl.
    rewrite IH by reflexivity. unfold after_frames. simpl.
    rewrite shots_S, <- !app_assoc. reflexivity.
Qed.

Lemma runForXFrames_spec (n : Z) (e : Emu) :
  isRunning e = true -> (0 <= n)%Z -> runForXFrames n e = Ok tt (after_frames (Z.to_nat n) e).
Proof.
  intros H Hn. unfold runForXFrames.
  replace (Z.ltb n 0) with false by (symmetry; apply Z.ltb_ge; lia).
  unfold bind, assertIsRunning. rewrite H.
  destruct (Z.eqb_spec n 0) as [->|Hn0].
  - rewrite after_frames_0. reflexivity.
  - apply frames_loop_spec. exact H.
Qed.

Lemma runForXFrames_ok_inv (n : Z) (e e' : Emu) :
  runForXFrames n e = Ok tt e' ->
  (0 <= n)%Z /\ isRunning e = true /\ e' = after_frames (Z.to_nat n) e.
Proof.
  intro H. destruct (Z.ltb_spec n 0) as [Hn|Hn].
  - unfold runForXFrames in H. apply Z.ltb_lt in Hn. rewrite Hn in H. discriminate.
  - destruct (isRunning e) eqn:R.
    + rewrite runForXFrames_spec in H by assumption. injection H as <-. auto.
    + unfold runForXFrames in H. replace (Z.ltb n 0) with false in H by (symmetry; apply Z.ltb_ge; lia).
      unfold bind, assertIsRunning in H. rewrite R in H. discriminate.
Qed.

Lemma runForXSeconds_frames (s : PyNum) (n : Z) (e : Emu) :
  isRunning e = true -> py_lt0 s = false -> num_frames s (fps e) = inr n ->
  runForXSeconds s e = runForXFrames n e.
Proof.
  intros H Hs Hn. unfold runForXSeconds. rewrite Hs.
  unfold bind, assertIsRunning, get. rewrite H. cbv beta iota. rewrite Hn. reflexivity.
Qed.

Lemma runForXSeconds_spec (s : PyNum) (n : Z) (e : Emu) :
  isRunning e = true -> py_lt0 s = false -> (0 <= fps e)%Z -> num_frames s (fps e) = inr n ->
  runForXSeconds s e = Ok tt (after_frames (Z.to_nat n) e).
Proof.
  intros H Hs Hf Hn. rewrite (runForXSeconds_frames s n e H Hs Hn).
  apply runForXFrames_spec; [exact H|]. exact (num_frames_nonneg s _ n Hs Hf Hn).
Qed.

Lemma runForXSeconds_int (z : Z) (e : Emu) :
  isRunning e = true -> (0 <= z)%Z -> (0 <= fps e)%Z ->
  runForXSeconds (PInt z) e = Ok tt (after_frames (Z.to_nat (z * fps e)) e).
Proof.
  intros H Hz Hf. apply runForXSeconds_spec; try assumption; [|reflexivity].
  simpl. apply Z.ltb_ge. exact Hz.
Qed.

Lemma runForXSeconds_ok_inv (s : PyNum) (e e' : Emu) :
  runForXSeconds s e = Ok tt e' ->
  exists n, num_frames s (fps e) = inr n /\ (0 <= n)%Z /\ isRunning e = true
            /\ e' = after_frames (Z.to_nat n) e.
Proof.
  unfold runForXSeconds. destruct (py_lt0 s); [discriminate|].
  unfold bind, assertIsRunning, get. destruct (isRunning e) eqn:R; [|discriminate].
  cbv beta iota. destruct (num_frames s (fps e)) as [x|n]; [discriminate|].
  intro H. apply runForXFrames_ok_inv in H as (Hn & _ & ->). exists n. auto.
Qed.

(** ** Claims about the lifecycle controller *)

(** C1 (counterexample): the float [0.1] (the double nearest to 1/10) times
    [fps = 60] is exactly above 6, so [ceil(s * fps)] with the exact product
    is 7; Python rounds the product to the double [6.0], and
    [runForXSeconds(0.1)] runs 6 frames, not the 7 frames of
    [runForXFrames(7)]. *)
Lemma runForXSeconds_rounds_product :
  round_double (1#10) = FFin (3602879701896397 # 36028797018963968)
  /\ Qceiling ((3602879701896397 # 36028797018963968) * inject_Z (fps started_gb)) = 7%Z
  /\ runForXSeconds (PFloat (round_double (1#10))) started_gb = Ok tt (after_frames 6 started_gb)
  /\ runForXSeconds (PFloat (round_double (1#10))) started_gb <> runForXFrames 7 started_gb.
Proof.
  assert (H : runForXSeconds (PFloat (round_double (1#10))) started_gb
              = Ok tt (after_frames 6 started_gb)) by (vm_compute; reflexivity).
  split; [vm_compute; reflexivity|]. split; [vm_compute; reflexivity|]. split; [exact H|].
  rewrite H, runForXFrames_spec by (reflexivity || lia). intro C.
  apply (f_equal (fun r : Res Emu unit =>
    match r with Ok _ e => List.length (trace e) | Raise _ _ => O end)) in C.
  vm_compute in C. discriminate.
Qed.

(** C1 (amended): on a running emulator with [0 <= fps < 2 ^ 53] and for a
    duration [s >= 0], [runForXSeconds s] behaves as [runForXFrames n] with
    [n = int(math.ceil(s * fps))] computed as Python does: exactly for an
    [int] [s], and for a [float] [s] as the ceiling of the double nearest to
    [s * fps] ([OverflowError] for an infinite product, [ValueError] for a
    NaN, raised without changing the state); [n >= 0]; a [GameBoy] has
    [fps = 60]. *)
Theorem runForXSeconds_python_product (e : Emu) :
  isRunning e = true -> (0 <= fps e < 2 ^ 53)%Z ->
  (forall s n, py_lt0 s = false -> num_frames s (fps e) = inr n ->
     (0 <= n)%Z /\ runForXSeconds s e = runForXFrames n e
     /\ runForXSeconds s e = Ok tt (after_frames (Z.to_nat n) e))
  /\ (forall s x, py_lt0 s = false -> num_frames s (fps e) = inl x ->
        runForXSeconds s e = Raise x e)
  /\ (forall z, num_frames (PInt z) (fps e) = inr (z * fps e)%Z)
  /\ (forall q, num_frames (PFloat (FFin q)) (fps e)
        = match round_double (q * inject_Z (fps e)) with
          | FFin p => inr (Qceiling p)
          | FNaN => inl (ValueError "cannot convert float NaN to integer")
          | _ => inl OverflowError
          end)
  /\ (forall d, fps (gameBoy_init d) = 60%Z).
Proof.
  intros H Hf. repeat apply conj.
  - intros s n Hs Hn. pose proof (num_frames_nonneg s _ n Hs (proj1 Hf) Hn) as Hn0.
    split; [exact Hn0|]. split.
    + apply runForXSeconds_frames; assumption.
    + apply runForXSeconds_spec; try assumption. exact (proj1 Hf).
  - intros s x Hs Hx. unfold runForXSeconds. rewrite Hs.
    unfold bind, assertIsRunning, get. rewrite H. cbv beta iota. rewrite Hx. reflexivity.
  - intro z. reflexivity.
  - intro q. unfold num_frames, py_mul_int.
    rewrite int_to_float_exact by lia. cbn [float_mul].
    destruct (round_double (q * inject_Z (fps e))); reflexivity.
  - intro d. reflexivity.
Qed.

Lemma runForXSeconds_python_product_witness :
  isRunning started_gb = true /\ (0 <= fps started_gb < 2 ^ 53)%Z /\
  ((forall s n, py_lt0 s = false -> num_frames s (fps started_gb) = inr n ->
     (0 <= n)%Z /\ runForXSeconds s started_gb = runForXFrames n started_gb
     /\ runForXSeconds s started_gb = Ok tt (after_frames (Z.to_nat n) started_gb))
  /\ (forall s x, py_lt0 s = false -> num_frames s (fps started_gb) = inl x ->
        runForXSeconds s started_gb = Raise x started_gb)
  /\ (forall z, num_frames (PInt z) (fps started_gb) = inr (z * fps started_gb)%Z)
  /\ (forall q, num_frames (PFloat (FFin q)) (fps started_gb)
        = match round_double (q * inject_Z (fps started_gb)) with
          | FFin p => inr (Qceiling p)
          | FNaN => inl (ValueError "cannot convert float NaN to integer")
          | _ => inl OverflowError
          end)
  /\ (forall d, fps (gameBoy_init d) = 60%Z)).
Proof.
  assert (H1 : isRunning started_gb = true) by reflexivity.
  assert (H2 : (0 <= fps started_gb < 2 ^ 53)%Z) 
    by (assert (F : fps started_gb = 60%Z) by (vm_compute; reflexivity); rewrite F; lia).
  split; [exact H1|]. split; [exact H2|].
  exact (runForXSeconds_python_product started_gb H1 H2).
Defined.

(** ** Helper lemmas on the file system *)

Lemma existsb_eqb_app_last (q : string) (l : list string) :
  existsb (String.eqb q) (l ++ [q]) = true.
Proof. rewrite existsb_app. simpl. rewrite String.eqb_refl, orb_true_r. reflexivity. Qed.

Lemma existsb_app_mono (q : string) (l r : list string) :
  existsb (String.eqb q) l = true -> existsb (String.eqb q) (l ++ r) = true.
Proof. intro H. rewrite existsb_app, H. reflexivity. Qed.


Lemma open_write_ok (p : string) (fs fs' : FS) :
  open_write p fs = inr fs' ->
  can_write fs p = true /\ is_file fs' p = true /\ fs_dirs fs' = fs_dirs fs
  /\ (forall q, is_file fs q = true -> is_file fs' q = true).
Proof.
  unfold open_write, can_write. destruct (is_dir fs p); [discriminate|].
  destruct (String.eqb (norm_path p) "") eqn:E1; [discriminate|].
  destruct (parent_is_dir fs p) eqn:E2; [|discriminate]. simpl.
  destruct (is_file fs p) eqn:E3; intro H; injection H as <-.
  - auto.
  - repeat split.
    + unfold is_file. simpl. apply existsb_eqb_app_last.
    + intros q Hq. unfold is_file in *. simpl. apply existsb_app_mono. exact Hq.
Qed.

Lemma open_write_can (p : string) (fs : FS) :
  can_write fs p = true -> exists fs', open_write p fs = inr fs'.
Proof.
  unfold can_write, open_write. intro H.
  apply andb_prop in H as [H H3]. apply andb_prop in H as [H1 H2].
  apply negb_true_iff in H1, H2. rewrite H1, H2, H3. simpl.
  destruct (is_file fs p); eexists; reflexivity.
Qed.


(** ** Helper lemmas on the numbers of [makeGIF] *)



Lemma py_truediv_fin (n f : Z) (q : PyFloat) :
  py_truediv n f = inr q -> exists r, q = FFin r.
Proof.
  unfold py_truediv. destruct (Z.eqb f 0); [discriminate|].
  destruct (round_double _); try discriminate. intro H. injection H as <-. eauto.
Qed.

(** The outcome of [makeGIF] on a running emulator with screenshots. *)
Lemma makeGIF_cases (e : Emu) (p : string) (first : Image) (rest : list Image) :
  isRunning e = true -> screenShots e = first :: rest ->
  makeGIF p e =
    match py_truediv (Z.of_nat (List.length (first :: rest))) (fps e) with
    | inl x => Raise x e
    | inr q =>
        match py_round q with
        | inl x => Raise x e
        | inr duration =>
            match open_write p (files e) with
            | inl x => Raise x e
            | inr fs =>
                Ok tt (set_screenShots []
                  (set_files fs (emit (EGif p (first :: rest) duration) e)))
            end
        end
    end.
Proof.
  intros H Hs. unfold makeGIF, bind, assertIsRunning, get. rewrite H. cbv beta iota.
  rewrite Hs. destruct (py_truediv _ _) as [x|q]; [reflexivity|].
  destruct (py_round q) as [x|d]; [reflexivity|].
  destruct (open_write p (files e)); reflexivity.
Qed.



(** C2: on an emulator that is not running, [pressButton], [holdButton]
    (seconds [>= 0]), [runForXFrames] and [runForXSeconds] (argument [>= 0]),
    [makeGIF] and [stop] raise [NotRunning] and leave the state unchanged; on a
    running one, [start] with [numberOfSecondsToRun >= 0] raises
    [AlreadyRunning] and leaves the state unchanged. *)
Theorem lifecycle_guards (e : Emu) :
  (isRunning e = false ->
     (forall b, pressButton b e = Raise NotRunning e) /\
     (forall b s, py_lt0 s = false -> holdButton b s e = Raise NotRunning e) /\
     (forall n, (0 <= n)%Z -> runForXFrames n e = Raise NotRunning e) /\
     (forall s, py_lt0 s = false -> runForXSeconds s e = Raise NotRunning e) /\
     (forall p, makeGIF p e = Raise NotRunning e) /\
     (forall p, stop p e = Raise NotRunning e))
  /\ (isRunning e = true ->
     forall g b p s, py_lt0 s = false -> start g b p s e = Raise AlreadyRunning e).
Proof.
  split.
  - intro H. unfold pressButton, holdButton, makeGIF, stop, bind, assertIsRunning.
    rewrite H. repeat split; try reflexivity.
    + intros n Hn. unfold runForXFrames.
      replace (Z.ltb n 0) with false by (symmetry; apply Z.ltb_ge; lia).
      unfold bind, assertIsRunning. rewrite H. reflexivity.
    + intros s Hs. unfold runForXSeconds. rewrite Hs.
      unfold bind, assertIsRunning. rewrite H. reflexivity.
  - intros H g b p s Hs. unfold start. rewrite Hs.
    unfold bind, assertNotRunning. rewrite H. reflexivity.
Qed.

Lemma lifecycle_guards_witness :
  (isRunning (gameBoy_init disk0) = false /\
   pressButton "a" (gameBoy_init disk0) = Raise NotRunning (gameBoy_init disk0)) /\
  (isRunning started_gb = true /\ py_lt0 (PInt 1) = false /\
   start "game.gb" None None (PInt 1) started_gb = Raise AlreadyRunning started_gb).
Proof.
  assert (H1 : isRunning (gameBoy_init disk0) = false) by reflexivity.
  assert (H2 : isRunning started_gb = true) by reflexivity.
  assert (H3 : py_lt0 (PInt 1) = false) by reflexivity.
  split.
  - split; [exact H1|]. apply (proj1 (proj1 (lifecycle_guards (gameBoy_init disk0)) H1)).
  - split; [exact H2|]. split; [exact H3|].
    apply (proj2 (lifecycle_guards started_gb) H2 "game.gb" None None (PInt 1) H3).
Defined.

(** C3: on a running emulator and for [n >= 0], [runForXFrames n] performs
    [n] ticks, each followed at once by a screenshot, and appends exactly those
    [n] screenshots ([after_frames]); for [n = 0] nothing changes. *)
Theorem runForXFrames_ticks_and_shots (e : Emu) (n : Z) :
  isRunning e = true -> (0 <= n)%Z ->
  runForXFrames n e = Ok tt (after_frames (Z.to_nat n) e)
  /\ List.length (shots (trace e) (Z.to_nat n)) = Z.to_nat n
  /\ (n = 0%Z -> runForXFrames n e = Ok tt e).
Proof.
  intros H Hn. split; [|split].
  - apply runForXFrames_spec; assumption.
  - apply shots_length.
  - intros ->. rewrite runForXFrames_spec by (assumption || lia).
    rewrite after_frames_0. reflexivity.
Qed.

Lemma runForXFrames_ticks_and_shots_witness :
  isRunning started_gb = true /\ (0 <= 3)%Z /\
  runForXFrames 3 started_gb = Ok tt (after_frames (Z.to_nat 3) started_gb)
  /\ List.length (shots (trace started_gb) (Z.to_nat 3)) = Z.to_nat 3
  /\ (3%Z = 0%Z -> runForXFrames 3 started_gb = Ok tt started_gb).
Proof.
  assert (H1 : isRunning started_gb = true) by reflexivity.
  assert (H2 : (0 <= 3)%Z) by lia.
  split; [exact H1|]. split; [exact H2|].
  apply (runForXFrames_ticks_and_shots started_gb 3 H1 H2).
Defined.



(** The state after a successful [start], before the run. *)
Lemma start_prefix_ok (e e' : Emu) (g : string) (b p : option string) (s : PyNum) :
  start g b p s e = Ok tt e' ->
  py_lt0 s = false /\ isRunning e = false /\ is_file (files e) g = true
  /\ runForXSeconds s (match p with
                        | Some q => emit (ELoad q) (emit (EStart g b) (set_pyboy (Some (mkPyBoy g b)) e))
                        | None => emit (EStart g b) (set_pyboy (Some (mkPyBoy g b)) e)
                        end) = Ok tt e'.
Proof.
  intro H. unfold start in H. destruct (py_lt0 s) eqn:Hs; [discriminate|].
  apply bind_ok_inv in H as ([] & e1 & H1 & H).
  unfold assertNotRunning in H1. destruct (isRunning e) eqn:R; [discriminate|].
  injection H1 as E1. subst e1.
  apply bind_ok_inv in H as ([] & e2 & H2 & H).
  unfold _abstractStart in H2. destruct (is_file (files e) g) eqn:G; [|discriminate].
  injection H2 as E2. subst e2.
  apply bind_ok_inv in H as ([] & e3 & H3 & H).
  split; [reflexivity|]. split; [reflexivity|]. split; [reflexivity|].
  destruct p as [q|].
  - unfold loadState in H3. destruct (open_read q _); [discriminate|].
    cbn in H3. injection H3 as E3. subst e3. exact H.
  - cbv [ret] in H3. injection H3 as E3. subst e3. exact H.
Qed.

(** The state after a successful [stop]. *)
Lemma stop_ok_inv (e e' : Emu) (p : option string) :
  stop p e = Ok tt e' ->
  isRunning e = true
  /\ trace e' = trace e ++ (match p with Some q => [ESave q] | None => [] end) ++ [EStop]
  /\ isRunning e' = false.
Proof.
  intro H. unfold stop in H.
  apply bind_ok_inv in H as ([] & e1 & H1 & H).
  unfold assertIsRunning in H1. destruct (isRunning e) eqn:R; [|discriminate].
  injection H1 as E1. subst e1.
  apply bind_ok_inv in H as ([] & e2 & H2 & H).
  unfold _abstractStop in H.
  destruct p as [q|].
  - unfold saveState in H2. destruct (open_write q (files e)) as [x|fs]; [discriminate|].
    cbn in H2. destruct (pyboy e) as [pb|] eqn:P; [|discriminate].
    injection H2 as E2. subst e2. cbn in H. rewrite P in H. injection H as E. subst e'.
    split; [reflexivity|]. split; [|reflexivity].
    cbn. rewrite <- app_assoc. reflexivity.
  - cbv [ret] in H2. injection H2 as E2. subst e2.
    destruct (pyboy e) as [pb|] eqn:P; [|discriminate]. injection H as E. subst e'.
    split; [reflexivity|]. split; reflexivity.
Qed.



(** ** Buttons *)

Lemma lower_ascii_idem (c : ascii) : lower_ascii (lower_ascii c) = lower_ascii c.
Proof.
  destruct c as [b0 b1 b2 b3 b4 b5 b6 b7].
  destruct b0, b1, b2, b3, b4, b5, b6, b7; reflexivity.
Qed.

Lemma lower_idem (s : string) : lower (lower s) = lower s.
Proof.
  induction s as [|c s IH]; [reflexivity|]. simpl. rewrite lower_ascii_idem, IH. reflexivity.
Qed.

Lemma dict_get_set_same {V} (k : string) (v : V) (d : list (string * V)) :
  dict_get String.eqb k (dict_set String.eqb k v d) = Some v.
Proof.
  induction d as [|[k' v'] d IH]; simpl.
  - rewrite String.eqb_refl. reflexivity.
  - destruct (String.eqb k k') eqn:E; simpl; rewrite E; [reflexivity|exact IH].
Qed.

(** C6 (evaluation at the failing input): on a running [GameBoy], pressing or
    holding the unregistered button ["X"] raises [NameError] for the
    misspelled [ButtonNotReconized], not [ButtonNotRecognized "X"]; the state
    is unchanged. *)
Theorem unknown_button_raises_NameError :
  pressButton "X" started_gb = Raise (NameError "ButtonNotReconized") started_gb
  /\ holdButton "X" (PInt 1) started_gb = Raise (NameError "ButtonNotReconized") started_gb
  /\ NameError "ButtonNotReconized" <> ButtonNotRecognized "X".
Proof. split; [reflexivity|]. split; [reflexivity|]. discriminate. Qed.

(** C10: [_registerButton] stores a button under its lowercased name,
    [buttonNames] returns lowercase names only, and for a registered button
    every capitalisation variant [c] of its name selects the same button as
    the lowercase name in [_getButton], [pressButton] and [holdButton]. *)
Theorem button_names_case_insensitive :
  (forall e b, dict_get String.eqb (lower (name b)) (buttons (_registerButton b e)) = Some b)
  /\ (forall e x, In x (buttonNames e) -> lower x = x)
  /\ (forall e nm c s,
        lower c = lower nm ->
        (exists b, dict_get String.eqb (lower nm) (buttons e) = Some b) ->
        _getButton c e = _getButton (lower nm) e
        /\ pressButton c e = pressButton (lower nm) e
        /\ holdButton c s e = holdButton (lower nm) s e).
Proof.
  split; [|split].
  - intros e b. apply dict_get_set_same.
  - intros e x Hx. unfold buttonNames in Hx. apply in_map_iff in Hx.
    destruct Hx as [y [<- _]]. apply lower_idem.
  - intros e nm c s Hc _.
    unfold pressButton, holdButton, bind, _getButton. rewrite Hc, lower_idem.
    split; [|split]; reflexivity.
Qed.

Lemma button_names_case_insensitive_witness :
  lower "sTaRt" = lower "Start" /\
  (exists b, dict_get String.eqb (lower "Start") (buttons started_gb) = Some b) /\
  (_getButton "sTaRt" started_gb = _getButton (lower "Start") started_gb
   /\ pressButton "sTaRt" started_gb = pressButton (lower "Start") started_gb
   /\ holdButton "sTaRt" (PInt 2) started_gb = holdButton (lower "Start") (PInt 2) started_gb).
Proof.
  assert (H1 : lower "sTaRt" = lower "Start") by reflexivity.
  assert (H2 : exists b, dict_get String.eqb (lower "Start") (buttons started_gb) = Some b).
  { eexists. reflexivity. }
  split; [exact H1|]. split; [exact H2|].
  apply (proj2 (proj2 button_names_case_insensitive) started_gb "Start" "sTaRt" (PInt 2) H1 H2).
Defined.

(** ** The run state *)

Definition res_state {S A} (r : Res S A) : S :=
  match r with Ok _ s => s | Raise _ s => s end.

(** [m] never changes whether the emulator is running. *)
Definition keeps_run {A} (m : M A) : Prop :=
  forall e, isRunning (res_state (m e)) = isRunning e.

Lemma keeps_run_bind {A B} (m : M A) (k : A -> M B) :
  keeps_run m -> (forall a, keeps_run (k a)) -> keeps_run (bind m k).
Proof.
  intros Hm Hk e. unfold bind. specialize (Hm e).
  destruct (m e) as [a e'|x e']; simpl in *; [rewrite Hk|]; exact Hm.
Qed.

Lemma keeps_run_ret {A} (a : A) : keeps_run (ret a).
Proof. intro e. reflexivity. Qed.

Lemma keeps_run_raise {A} (x : Exn) : keeps_run (@raise Emu A x).
Proof. intro e. reflexivity. Qed.

Create HintDb runstate.
#[local] Hint Resolve keeps_run_bind keeps_run_ret keeps_run_raise : runstate.

Lemma keeps_run_basic :
  keeps_run assertIsRunning /\ keeps_run assertNotRunning /\ keeps_run get
  /\ (forall n, keeps_run (_getButton n)) /\ (forall c, keeps_run (send_input c))
  /\ keeps_run _runForOneFrame /\ keeps_run _abstractTakeScreenShot.
Proof.
  repeat apply conj; intros; intro e; destruct e as [f [pb|] ss bs fs tr];
  unfold assertIsRunning, assertNotRunning, get, _getButton, send_input, _runForOneFrame,
    _abstractTakeScreenShot; simpl;
  try match goal with |- context [dict_get ?k ?x ?y] => destruct (dict_get k x y) end;
  reflexivity.
Qed.

Lemma keeps_run_takeScreenShot : keeps_run _takeScreenShot.
Proof.
  destruct keeps_run_basic as (H1 & _ & _ & _ & _ & _ & H7).
  unfold _takeScreenShot. apply keeps_run_bind; [exact H1|]. intros _.
  apply keeps_run_bind; [exact H7|]. intros img e. reflexivity.
Qed.

Lemma keeps_run_frames_loop (k : nat) : keeps_run (frames_loop k).
Proof.
  destruct keeps_run_basic as (_ & _ & _ & _ & _ & H6 & _).
  induction k as [|k IH]; simpl; auto using keeps_run_takeScreenShot with runstate.
Qed.

Lemma keeps_run_runForXFrames (n : Z) : keeps_run (runForXFrames n).
Proof.
  destruct keeps_run_basic as (H1 & _).
  unfold runForXFrames. destruct (Z.ltb n 0); [apply keeps_run_raise|].
  apply keeps_run_bind; [exact H1|]. intros _.
  destruct (Z.eqb n 0); [apply keeps_run_ret|apply keeps_run_frames_loop].
Qed.

Lemma keeps_run_runForXSeconds (s : PyNum) : keeps_run (runForXSeconds s).
Proof.
  destruct keeps_run_basic as (H1 & _ & H3 & _).
  unfold runForXSeconds. destruct (py_lt0 s); [apply keeps_run_raise|].
  apply keeps_run_bind; [exact H1|]. intros _.
  apply keeps_run_bind; [exact H3|]. intros e.
  destruct (num_frames s (fps e)); [apply keeps_run_raise|apply keeps_run_runForXFrames].
Qed.

#[local] Hint Resolve keeps_run_runForXFrames keeps_run_runForXSeconds
  keeps_run_takeScreenShot keeps_run_frames_loop : runstate.

(** Walk a [bind] chain, closing each step from the hint database. *)
Ltac keeps_steps :=
  repeat match goal with
         | |- keeps_run (bind _ _) => apply keeps_run_bind; [auto with runstate|intros ?]
         end; auto with runstate.

Lemma keeps_run_modify (f : Emu -> Emu) :
  (forall e, pyboy (f e) = pyboy e) -> keeps_run (modify f).
Proof. intros Hf e. unfold modify, isRunning. simpl. rewrite Hf. reflexivity. Qed.

Lemma keeps_run_makeGIF (p : string) : keeps_run (makeGIF p).
Proof.
  destruct keeps_run_basic as (H1 & _ & H3 & _).
  unfold makeGIF. apply keeps_run_bind; [exact H1|]. intros _.
  apply keeps_run_bind; [exact H3|]. intros e.
  destruct (screenShots e) as [|i rest]; [apply keeps_run_raise|].
  destruct (py_truediv _ _); [apply keeps_run_raise|].
  destruct (py_round _); [apply keeps_run_raise|].
  destruct (open_write _ _); [apply keeps_run_raise|].
  apply keeps_run_bind; [apply keeps_run_modify; reflexivity|]. intros _.
  apply keeps_run_modify; reflexivity.
Qed.

Lemma keeps_run_pressButton (n : string) : keeps_run (pressButton n).
Proof.
  destruct keeps_run_basic as (H1 & _ & H3 & H4 & H5 & _).
  unfold pressButton, _abstractPressButton. keeps_steps.
Qed.

Lemma keeps_run_holdButton (n : string) (s : PyNum) : keeps_run (holdButton n s).
Proof.
  destruct keeps_run_basic as (H1 & _ & H3 & H4 & H5 & _).
  unfold holdButton, _abstractHoldButton.
  apply keeps_run_bind; [exact H1|]. intros _.
  apply keeps_run_bind; [destruct (py_lt0 s); auto with runstate|]. intros _.
  keeps_steps.
Qed.

Lemma keeps_run_ok {A} (m : M A) (e e' : Emu) (a : A) :
  keeps_run m -> m e = Ok a e' -> isRunning e' = isRunning e.
Proof. intros Hm H. specialize (Hm e). rewrite H in Hm. exact Hm. Qed.

Lemma isRunning_after_frames (n : nat) (e : Emu) : isRunning (after_frames n e) = isRunning e.
Proof. reflexivity. Qed.

(** C9 (counterexample): the run state of the controller, [isRunning]
    ([self._pyboy is not None]), takes no four distinct values. *)
Lemma run_state_not_four_valued :
  ~ exists e1 e2 e3 e4 : Emu,
      NoDup [isRunning e1; isRunning e2; isRunning e3; isRunning e4].
Proof.
  intros (e1 & e2 & e3 & e4 & H).
  destruct (isRunning e1), (isRunning e2), (isRunning e3), (isRunning e4);
  repeat rewrite NoDup_cons_iff in H; simpl in H; intuition (try discriminate; auto).
Qed.

(** C9 (amended): the run state has the two values running / not running; a
    fresh [GameBoy] is not running, a successful [start] goes from not running
    to running, a successful [stop] from running to not running, and frame
    stepping, the button operations and [makeGIF] never change it. *)
Theorem run_state_two_valued_lifecycle :
  (forall d, isRunning (gameBoy_init d) = false)
  /\ (forall e g b p s e', start g b p s e = Ok tt e' ->
        isRunning e = false /\ isRunning e' = true)
  /\ (forall e p e', stop p e = Ok tt e' -> isRunning e = true /\ isRunning e' = false)
  /\ (forall e n, isRunning (res_state (runForXFrames n e)) = isRunning e)
  /\ (forall e s, isRunning (res_state (runForXSeconds s e)) = isRunning e)
  /\ (forall e n, isRunning (res_state (pressButton n e)) = isRunning e)
  /\ (forall e n s, isRunning (res_state (holdButton n s e)) = isRunning e)
  /\ (forall e p, isRunning (res_state (makeGIF p e)) = isRunning e).
Proof.
  repeat apply conj.
  - intro d. reflexivity.
  - intros e g b p s e' H. apply start_prefix_ok in H as (_ & R & _ & H).
    split; [exact R|].
    apply runForXSeconds_ok_inv in H as (n & _ & _ & H & ->).
    rewrite isRunning_after_frames. exact H.
  - intros e p e' H. apply stop_ok_inv in H as (H1 & _ & H2). split; assumption.
  - intros e n. apply keeps_run_runForXFrames.
  - intros e s. apply keeps_run_runForXSeconds.
  - intros e n. apply keeps_run_pressButton.
  - intros e n s. apply keeps_run_holdButton.
  - intros e p. apply keeps_run_makeGIF.
Qed.

Lemma run_state_two_valued_lifecycle_witness :
  start "game.gb" (Some "boot.bin") None (PInt 0) (gameBoy_init disk0) = Ok tt started_gb
  /\ isRunning (gameBoy_init disk0) = false /\ isRunning started_gb = true.
Proof.
  assert (H : start "game.gb" (Some "boot.bin") None (PInt 0) (gameBoy_init disk0)
              = Ok tt started_gb) by (vm_compute; reflexivity).
  split; [exact H|].
  apply (proj1 (proj2 run_state_two_valued_lifecycle) (gameBoy_init disk0) "game.gb"
           (Some "boot.bin") None (PInt 0) started_gb H).
Defined.

(** ** Channel registration bookkeeping *)

Definition then_cog (m : CM unit) (c : Cog) : Cog := res_state (m c).

(** A fresh configuration with the local path ["/srv"] holding a boot ROM
    and two game ROMs. *)
Definition cog_empty : Cog :=
  mkCog (mkConf [] [] [])
        (mkFS ["/srv/gb/boots/boot.bin"; "/srv/gb/games/a.gb"; "/srv/gb/games/b.gb"]
              ["/srv"; "/srv/gb"; "/srv/gb/boots"; "/srv/gb/games"; "/srv/gb/saves"])
        [].

(** Define two games and register channel 1 to ["g1"], channel 2 to ["g2"]. *)
Definition cog_two : Cog :=
  then_cog (setup_register 2 "g2")
    (then_cog (setup_register 1 "g1")
      (then_cog (setup_set_definition (Some "/srv") "g2" "boot.bin" "b.gb")
        (then_cog (setup_set_definition (Some "/srv") "g1" "boot.bin" "a.gb") cog_empty))).

(** C7 (evaluation at the failing input): with two games registered to one
    channel each, deleting ["g1"] (confirmed, no instance) removes ["g1"] from
    [game_defs] and then raises [RuntimeError] in the loop that deletes every
    key of [channels_to_defs] while iterating over it; channel 1 stays
    registered to the deleted ["g1"] in both maps. *)
Theorem delete_definition_leaves_stale_registration :
  conf cog_two =
    mkConf [("g1", mkGameDef "boot.bin" "a.gb"); ("g2", mkGameDef "boot.bin" "b.gb")]
           [(StrId 1, "g1"); (StrId 2, "g2")]
           [("g1", [1%Z]); ("g2", [2%Z])]
  /\ setup_delete_definition "g1" true cog_two =
     Raise RuntimeError
       (mkCog (mkConf [("g2", mkGameDef "boot.bin" "b.gb")]
                      [(StrId 1, "g1"); (StrId 2, "g2")]
                      [("g1", [1%Z]); ("g2", [2%Z])])
              (disk cog_two) []).
Proof. split; vm_compute; reflexivity. Qed.
(** ** The per-game lock *)

Open Scope nat_scope.

Lemma nth_error_set_nth_eq {A} (l : list A) (i : nat) (x y : A) :
  nth_error l i = Some y -> nth_error (set_nth i x l) i = Some x.
Proof.
  revert i. induction l as [|a l IH]; intros [|i] H; simpl in *; try discriminate; auto.
Qed.

Lemma nth_error_set_nth_neq {A} (l : list A) (i j : nat) (x : A) :
  j <> i -> nth_error (set_nth i x l) j = nth_error l j.
Proof.
  revert i j. induction l as [|a l IH]; intros [|i] [|j] H; simpl; auto; congruence.
Qed.

Lemma cnt_set_nth (f : Task -> bool) (l : list Task) (i : nat) (x y : Task) :
  nth_error l i = Some y ->
  cnt f (set_nth i x l) + Nat.b2n (f y) = cnt f l + Nat.b2n (f x).
Proof.
  unfold cnt. revert i. induction l as [|a l IH]; intros [|i] H; simpl in *; try discriminate.
  - injection H as ->. destruct (f y), (f x); simpl; lia.
  - specialize (IH i H). destruct (f a); simpl; lia.
Qed.

Lemma in_remove_first (i j : nat) (w : list nat) : j <> i -> In j w -> In j (remove_first i w).
Proof.
  induction w as [|k w IH]; simpl; [tauto|]. intros Hji [->|Hin].
  - destruct (Nat.eqb_spec i j); [congruence|]. left; reflexivity.
  - destruct (Nat.eqb_spec i k); [exact Hin|]. right. exact (IH Hji Hin).
Qed.

(** The invariant of a lock: at most one task holds it or has been handed it,
    [_locked] is set exactly when a task holds it, and a woken task is still
    in [_waiters]. *)
Definition lock_inv (s : Sys) : Prop :=
  cnt in_lock (tasks s) + cnt is_woken (tasks s) <= 1
  /\ (locked s = true <-> cnt in_lock (tasks s) = 1)
  /\ (forall j u, nth_error (tasks s) j = Some u -> phase u = Woken -> In j (waiters s)).

Lemma set_phase_other (i j : nat) (x u : Task) (ts : list Task) :
  nth_error (set_nth i x ts) j = Some u -> phase u <> phase x -> j <> i /\ nth_error ts j = Some u.
Proof.
  intros H Hp. destruct (Nat.eq_dec j i) as [->|Hne].
  - exfalso. revert i H. induction ts as [|a ts IH]; intros [|i] H; simpl in H;
      try discriminate; [congruence|exact (IH i H)].
  - split; [exact Hne|]. rewrite nth_error_set_nth_neq in H; auto.
Qed.

Lemma cnt_pos (f : Task -> bool) (l : list Task) :
  cnt f l <> 0 -> exists j u, nth_error l j = Some u /\ f u = true.
Proof.
  unfold cnt. induction l as [|a l IH]; simpl; [congruence|]. intro H.
  destruct (f a) eqn:E.
  - exists 0, a. auto.
  - destruct (IH H) as (j & u & Hj & Hu). exists (S j), u. auto.
Qed.

Lemma release_cases (ts : list Task) (w : list nat) :
  release ts w = ts
  \/ exists j0 u rest, w = j0 :: rest /\ nth_error ts j0 = Some u /\ phase u = Blocked
       /\ release ts w = set_phase j0 u Woken ts.
Proof.
  unfold release. destruct w as [|j0 rest]; [left; reflexivity|].
  destruct (nth_error ts j0) as [u|] eqn:E; [|left; reflexivity].
  destruct (phase u) eqn:P; try (left; reflexivity).
  right. exists j0, u, rest. auto.
Qed.

(** Counting facts for one phase change [p -> q] of task [i]. *)
Ltac count_change Ei kd ba p :=
  let C1 := fresh "C1" in let C2 := fresh "C2" in
  pose proof (cnt_set_nth in_lock _ _ (mkTask kd ba p) _ Ei) as C1;
  pose proof (cnt_set_nth is_woken _ _ (mkTask kd ba p) _ Ei) as C2;
  simpl in C1, C2.

Lemma step_inv (i : nat) (s : Sys) : lock_inv s -> lock_inv (step i s).
Proof.
  intros [Hc [Hl Hw]]. unfold step.
  destruct (nth_error (tasks s) i) as [[kd ba ph]|] eqn:Ei;
    [|exact (conj Hc (conj Hl Hw))].
  simpl. destruct ph as [ | | | [|k] | | ].
  - (* the lock statement *)
    destruct (is_button (mkTask kd ba AtLock) && locked s) eqn:B.
    + count_change Ei kd ba Dropped. unfold lock_inv, set_phase; simpl.
      split; [lia|split; [rewrite Hl; split; intro; lia|]].
      intros j u Hj Hu. apply set_phase_other in Hj as [_ Hj]; [|rewrite Hu; discriminate].
      exact (Hw j u Hj Hu).
    + destruct (negb (locked s) && match waiters s with [] => true | _ => false end) eqn:B2.
      * apply andb_prop in B2 as [B2 B3]. apply negb_true_iff in B2.
        destruct (waiters s) as [|w0 w] eqn:W; [|discriminate].
        assert (N0 : cnt is_woken (tasks s) = 0).
        { destruct (Nat.eq_dec (cnt is_woken (tasks s)) 0) as [Z0|Z0]; [exact Z0|].
          destruct (cnt_pos _ _ Z0) as (j & u & Hj & Hu). exfalso.
          destruct u as [ku bu pu]; destruct pu; try discriminate.
          exact (Hw j _ Hj eq_refl). }
        assert (N1 : cnt in_lock (tasks s) <> 1) by (intro H; apply Hl in H; congruence).
        count_change Ei kd ba (InLock ba). unfold enter, lock_inv, set_phase; simpl.
        split; [lia|split; [split; intro; [lia|reflexivity]|]].
        intros j u Hj Hu. apply set_phase_other in Hj as [_ Hj]; [|rewrite Hu; discriminate].
        exact (Hw j u Hj Hu).
      * count_change Ei kd ba Blocked. unfold lock_inv, set_phase; simpl.
        split; [lia|split; [rewrite Hl; split; intro; lia|]].
        intros j u Hj Hu. apply set_phase_other in Hj as [_ Hj]; [|rewrite Hu; discriminate].
        apply in_or_app. left. exact (Hw j u Hj Hu).
  - (* blocked: not runnable *)
    exact (conj Hc (conj Hl Hw)).
  - (* woken: takes the lock *)
    count_change Ei kd ba (InLock ba). unfold enter, lock_inv, set_phase; simpl.
    split; [lia|split; [split; intro; [lia|reflexivity]|]].
    intros j u Hj Hu. apply set_phase_other in Hj as [Hji Hj]; [|rewrite Hu; discriminate].
    apply in_remove_first; [exact Hji|]. exact (Hw j u Hj Hu).
  - (* release *)
    count_change Ei kd ba Finished.
    set (ts1 := set_phase i (mkTask kd ba (InLock 0)) Finished (tasks s)).
    assert (A1 : cnt in_lock ts1 = 0) by (unfold ts1, set_phase; simpl; lia).
    assert (A2 : cnt is_woken ts1 = 0) by (unfold ts1, set_phase; simpl; lia).
    unfold lock_inv, set_phase; simpl.
    destruct (release_cases ts1 (waiters s)) as [R | (j0 & u & rest & W & Hj0 & Pu & R)];
      rewrite R.
    + split; [lia|split; [split; intro; [discriminate|lia]|]].
      intros j u Hj Hu. apply set_phase_other in Hj as [_ Hj]; [|rewrite Hu; discriminate].
      exact (Hw j u Hj Hu).
    + pose proof (cnt_set_nth in_lock _ _ (mkTask (kind u) (body_awaits u) Woken) _ Hj0) as D1.
      pose proof (cnt_set_nth is_woken _ _ (mkTask (kind u) (body_awaits u) Woken) _ Hj0) as D2.
      destruct u as [ku bu pu]. simpl in Pu. subst pu. simpl in D1, D2.
      unfold set_phase at 1 2 3. simpl.
      split; [lia|split; [split; intro; [discriminate|lia]|]].
      intros j u Hj Hu. rewrite W.
      destruct (Nat.eq_dec j j0) as [->|Hne]; [left; reflexivity|right].
      unfold set_phase in Hj. simpl in Hj. rewrite nth_error_set_nth_neq in Hj by exact Hne.
      unfold ts1 in Hj.
      apply set_phase_other in Hj as [_ Hj]; [|rewrite Hu; discriminate].
      specialize (Hw j u Hj Hu). rewrite W in Hw. destruct Hw as [<-|Hw]; [congruence|exact Hw].
  - (* an await inside the critical section *)
    count_change Ei kd ba (InLock k). unfold lock_inv, set_phase; simpl.
    split; [lia|split; [rewrite Hl; split; intro; lia|]].
    intros j u Hj Hu. apply set_phase_other in Hj as [_ Hj]; [|rewrite Hu; discriminate].
    exact (Hw j u Hj Hu).
  - exact (conj Hc (conj Hl Hw)).
  - exact (conj Hc (conj Hl Hw)).
Qed.

Lemma init_inv (ts : list (Kind * nat)) : lock_inv (init_sys ts).
Proof.
  assert (Z : forall f, (forall k n, f (mkTask k n AtLock) = false) ->
             cnt f (map (fun '(k, n) => mkTask k n AtLock) ts) = 0).
  { intros f Hf. unfold cnt. induction ts as [|[k n] ts IH]; simpl; [reflexivity|].
    rewrite Hf. exact IH. }
  unfold lock_inv, init_sys; simpl.
  rewrite !Z by reflexivity. split; [lia|split; [split; intro H; discriminate H|]].
  intros j u Hj Hu. exfalso.
  apply nth_error_In, in_map_iff in Hj as ([k n] & <- & _). discriminate.
Qed.

Lemma run_inv (sched : list nat) : forall s, lock_inv s -> lock_inv (run sched s).
Proof.
  induction sched as [|i sched IH]; intros s H; simpl; [exact H|].
  apply IH, step_inv, H.
Qed.

Lemma in_lock_cnt (ts : list Task) (j : nat) (t : Task) :
  nth_error ts j = Some t -> in_lock t = true -> 1 <= cnt in_lock ts.
Proof.
  unfold cnt. revert j. induction ts as [|a ts IH]; intros [|j] H Ht; simpl in *; try discriminate.
  - injection H as ->. rewrite Ht. simpl. lia.
  - specialize (IH j H Ht). destruct (in_lock a); simpl; lia.
Qed.

Lemma cnt_button_le (ts : list Task) :
  cnt (fun t => is_button t && in_lock t) ts <= cnt in_lock ts.
Proof.
  unfold cnt. induction ts as [|a l IH]; simpl; [lia|].
  destruct (is_button a), (in_lock a); simpl; lia.
Qed.

(** C8: for one game's lock, in every interleaving of the commands and other
    lock users reachable from the start, at most one task (so at most one
    button command) is inside the critical section, and a button command
    reaching its [locked()] check while some task holds the lock is dropped:
    it presses nothing. *)
Theorem button_commands_single_flight (ts : list (Kind * nat)) (sched : list nat) :
  cnt (fun t => is_button t && in_lock t) (tasks (run sched (init_sys ts))) <= 1
  /\ cnt in_lock (tasks (run sched (init_sys ts))) <= 1
  /\ (forall i j ti tj,
        nth_error (tasks (run sched (init_sys ts))) j = Some tj -> in_lock tj = true ->
        nth_error (tasks (run sched (init_sys ts))) i = Some ti ->
        phase ti = AtLock -> is_button ti = true ->
        exists ti', nth_error (tasks (step i (run sched (init_sys ts)))) i = Some ti'
                    /\ phase ti' = Dropped
                    /\ presses (step i (run sched (init_sys ts)))
                       = presses (run sched (init_sys ts))).
Proof.
  pose proof (run_inv sched _ (init_inv ts)) as [Hc [Hl Hw]].
  set (s := run sched (init_sys ts)) in *.
  pose proof (cnt_button_le (tasks s)) as B.
  split; [lia|split; [lia|]].
  intros i j ti tj Hj Htj Hi Pi Bi.
  assert (L : locked s = true).
  { apply Hl. pose proof (in_lock_cnt _ _ _ Hj Htj). lia. }
  destruct ti as [ki bi pi]. simpl in Pi. subst pi.
  unfold step. rewrite Hi. simpl. simpl in Bi. rewrite Bi, L. simpl.
  exists (mkTask ki bi Dropped). split; [|split; reflexivity].
  exact (nth_error_set_nth_eq _ _ _ _ Hi).
Qed.

Lemma button_commands_single_flight_witness :
  nth_error (tasks (run [0] (init_sys [(ButtonCmd, 2); (ButtonCmd, 2)]))) 0
    = Some (mkTask ButtonCmd 2 (InLock 2))
  /\ exists ti', nth_error (tasks (step 1 (run [0] (init_sys [(ButtonCmd, 2); (ButtonCmd, 2)])))) 1
                  = Some ti'
     /\ phase ti' = Dropped
     /\ presses (step 1 (run [0] (init_sys [(ButtonCmd, 2); (ButtonCmd, 2)])))
        = presses (run [0] (init_sys [(ButtonCmd, 2); (ButtonCmd, 2)])).
Proof.
  assert (H0 : nth_error (tasks (run [0] (init_sys [(ButtonCmd, 2); (ButtonCmd, 2)]))) 0
                 = Some (mkTask ButtonCmd 2 (InLock 2))) by reflexivity.
  assert (H1 : nth_error (tasks (run [0] (init_sys [(ButtonCmd, 2); (ButtonCmd, 2)]))) 1
                 = Some (mkTask ButtonCmd 2 AtLock)) by reflexivity.
  split; [exact H0|].
  apply (proj2 (proj2 (button_commands_single_flight [(ButtonCmd, 2); (ButtonCmd, 2)] [0]))
           1 0 _ _ H0 eq_refl H1 eq_refl eq_refl).
Defined.


(** * Further properties of the code *)

(** ** Helper lemmas *)

(** The state after [pressButton] of the registered button [bc]. *)
Lemma pressButton_state (nm : string) (bc : ButtonCode) (e : Emu) :
  isRunning e = true -> (0 <= fps e)%Z ->
  dict_get String.eqb (lower nm) (buttons e) = Some bc ->
  pressButton nm e =
    Ok tt (after_frames (Z.to_nat (fps e))
             (emit (EInput (releaseCode bc))
                (after_frames 2 (emit (EInput (Some (pressCode bc))) e)))).
Proof.
  intros H Hf Hb. unfold pressButton.
  rewrite (bind_Ok _ _ _ _ _ (assert_ok e H)).
  rewrite (bind_Ok _ _ _ _ _ (getButton_ok nm bc e Hb)).
  unfold _abstractPressButton.
  rewrite (bind_Ok _ _ _ _ _ (send_input_ok _ e H)).
  set (e1 := emit (EInput (Some (pressCode bc))) e).
  rewrite (bind_Ok _ _ _ _ _ (runForXFrames_spec 2 e1 H ltac:(lia))).
  set (e2 := after_frames (Z.to_nat 2) e1).
  rewrite (bind_Ok _ _ _ _ _ (send_input_ok _ e2 H)).
  set (e3 := emit (EInput (releaseCode bc)) e2).
  rewrite (runForXSeconds_int 1 e3 H ltac:(lia) Hf).
  rewrite Z.mul_1_l. reflexivity.
Qed.

(** The state after [holdButton] of the registered button [bc], when
    [numberOfSeconds * fps] gives [n] frames. *)
Lemma holdButton_state (nm : string) (bc : ButtonCode) (s : PyNum) (n : Z) (e : Emu) :
  isRunning e = true -> (0 <= fps e)%Z -> py_lt0 s = false ->
  num_frames s (fps e) = inr n ->
  dict_get String.eqb (lower nm) (buttons e) = Some bc ->
  holdButton nm s e =
    Ok tt (after_frames (Z.to_nat (fps e))
             (emit (EInput (releaseCode bc))
                (after_frames (Z.to_nat n)
                   (emit (EInput (Some (pressCode bc))) e)))).
Proof.
  intros H Hf Hs Hn Hb. unfold holdButton.
  rewrite (bind_Ok _ _ _ _ _ (assert_ok e H)).
  rewrite Hs.
  rewrite (bind_Ok (ret tt) _ e tt e eq_refl).
  rewrite (bind_Ok _ _ _ _ _ (getButton_ok nm bc e Hb)).
  unfold _abstractHoldButton.
  rewrite (bind_Ok _ _ _ _ _ (send_input_ok _ e H)).
  set (e1 := emit (EInput (Some (pressCode bc))) e).
  rewrite (bind_Ok _ _ _ _ _ (runForXSeconds_spec s n e1 H Hs Hf Hn)).
  set (e2 := after_frames _ e1).
  rewrite (bind_Ok _ _ _ _ _ (send_input_ok _ e2 H)).
  set (e3 := emit (EInput (releaseCode bc)) e2).
  rewrite (runForXSeconds_int 1 e3 H ltac:(lia) Hf).
  rewrite Z.mul_1_l. reflexivity.
Qed.

(** [holdButton] when [numberOfSeconds * fps] gives no frame count: the
    button has been pressed and is not released. *)
Lemma holdButton_stuck (nm : string) (bc : ButtonCode) (s : PyNum) (x : Exn) (e : Emu) :
  isRunning e = true -> py_lt0 s = false ->
  num_frames s (fps e) = inl x ->
  dict_get String.eqb (lower nm) (buttons e) = Some bc ->
  holdButton nm s e = Raise x (emit (EInput (Some (pressCode bc))) e).
Proof.
  intros H Hs Hn Hb. unfold holdButton.
  rewrite (bind_Ok _ _ _ _ _ (assert_ok e H)).
  rewrite Hs.
  rewrite (bind_Ok (ret tt) _ e tt e eq_refl).
  rewrite (bind_Ok _ _ _ _ _ (getButton_ok nm bc e Hb)).
  unfold _abstractHoldButton.
  rewrite (bind_Ok _ _ _ _ _ (send_input_ok _ e H)).
  apply bind_Raise. unfold runForXSeconds. rewrite Hs.
  rewrite (bind_Ok _ _ _ _ _ (assert_ok (emit (EInput (Some (pressCode bc))) e) H)).
  unfold bind, get. cbv beta iota. change (fps (emit _ e)) with (fps e). rewrite Hn.
  reflexivity.
Qed.

(** ** Button commands on the emulator *)

(** X1: [pressButton] on a running emulator, for a registered button, sends
    its press code, runs 2 frames, sends its release code and runs one second
    ([fps] frames); it keeps one screenshot per frame, and changes neither the
    run state, the buttons nor the files. *)
Theorem pressButton_effect (nm : string) (bc : ButtonCode) (e : Emu) :
  isRunning e = true -> (0 <= fps e)%Z ->
  dict_get String.eqb (lower nm) (buttons e) = Some bc ->
  exists e', pressButton nm e = Ok tt e'
    /\ trace e' = trace e ++ [EInput (Some (pressCode bc))] ++ frame_events 2
                  ++ [EInput (releaseCode bc)] ++ frame_events (Z.to_nat (fps e))
    /\ List.length (screenShots e') = (List.length (screenShots e) + 2 + Z.to_nat (fps e))%nat
    /\ isRunning e' = true /\ fps e' = fps e /\ buttons e' = buttons e /\ files e' = files e.
Proof.
  intros H Hf Hb. eexists. split; [exact (pressButton_state nm bc e H Hf Hb)|].
  unfold after_frames, emit. simpl.
  rewrite !length_app, !shots_length, <- !app_assoc. simpl.
  repeat apply conj; try reflexivity; try exact H; lia.
Qed.

Lemma pressButton_effect_witness :
  isRunning started_gb = true /\ (0 <= fps started_gb)%Z /\
  dict_get String.eqb (lower "A") (buttons started_gb)
    = Some (mkButtonCode "A" PRESS_BUTTON_A (Some RELEASE_BUTTON_A)) /\
  exists e', pressButton "A" started_gb = Ok tt e'
    /\ trace e' = trace started_gb ++ [EInput (Some PRESS_BUTTON_A)] ++ frame_events 2
                  ++ [EInput (Some RELEASE_BUTTON_A)] ++ frame_events (Z.to_nat (fps started_gb))
    /\ List.length (screenShots e')
       = (List.length (screenShots started_gb) + 2 + Z.to_nat (fps started_gb))%nat
    /\ isRunning e' = true /\ fps e' = fps started_gb /\ buttons e' = buttons started_gb
    /\ files e' = files started_gb.
Proof.
  assert (H1 : isRunning started_gb = true) by reflexivity.
  assert (H2 : (0 <= fps started_gb)%Z) by (vm_compute; discriminate).
  assert (H3 : dict_get String.eqb (lower "A") (buttons started_gb)
                 = Some (mkButtonCode "A" PRESS_BUTTON_A (Some RELEASE_BUTTON_A))) by reflexivity.
  split; [exact H1|]. split; [exact H2|]. split; [exact H3|].
  exact (pressButton_effect "A" _ started_gb H1 H2 H3).
Defined.

(** X2: [holdButton nm s] on a running emulator, for a registered button and
    [s >= 0], sends the press code, runs [int(math.ceil(s * fps))] frames (the
    product taken as Python does), sends the release code and runs one second
    more, keeping one screenshot per frame. When that frame count raises
    ([OverflowError], [ValueError]), the exception leaves the button pressed:
    the press code was sent and no release follows. *)
Theorem holdButton_effect (nm : string) (bc : ButtonCode) (s : PyNum) (e : Emu) :
  isRunning e = true -> (0 <= fps e)%Z -> py_lt0 s = false ->
  dict_get String.eqb (lower nm) (buttons e) = Some bc ->
  (forall n, num_frames s (fps e) = inr n ->
   exists e', holdButton nm s e = Ok tt e'
    /\ trace e' = trace e ++ [EInput (Some (pressCode bc))]
                  ++ frame_events (Z.to_nat n)
                  ++ [EInput (releaseCode bc)] ++ frame_events (Z.to_nat (fps e))
    /\ List.length (screenShots e')
       = (List.length (screenShots e) + Z.to_nat n + Z.to_nat (fps e))%nat
    /\ isRunning e' = true /\ fps e' = fps e /\ buttons e' = buttons e /\ files e' = files e)
  /\ (forall x, num_frames s (fps e) = inl x ->
      holdButton nm s e = Raise x (emit (EInput (Some (pressCode bc))) e)).
Proof.
  intros H Hf Hs Hb. split.
  - intros n Hn. eexists. split; [exact (holdButton_state nm bc s n e H Hf Hs Hn Hb)|].
    unfold after_frames, emit. simpl.
    rewrite !length_app, !shots_length, <- !app_assoc. simpl.
    repeat apply conj; try reflexivity; try exact H; lia.
  - intros x Hx. apply holdButton_stuck; assumption.
Qed.

Lemma holdButton_effect_witness :
  isRunning started_gb = true /\ (0 <= fps started_gb)%Z /\ py_lt0 (PFloat (FFin (1#2))) = false /\
  dict_get String.eqb (lower "up") (buttons started_gb)
    = Some (mkButtonCode "Up" PRESS_ARROW_UP (Some RELEASE_ARROW_UP)) /\
  num_frames (PFloat (FFin (1#2))) (fps started_gb) = inr 30%Z /\
  exists e', holdButton "up" (PFloat (FFin (1#2))) started_gb = Ok tt e'
    /\ trace e' = trace started_gb ++ [EInput (Some PRESS_ARROW_UP)]
                  ++ frame_events (Z.to_nat 30)
                  ++ [EInput (Some RELEASE_ARROW_UP)] ++ frame_events (Z.to_nat (fps started_gb))
    /\ List.length (screenShots e')
       = (List.length (screenShots started_gb) + Z.to_nat 30 + Z.to_nat (fps started_gb))%nat
    /\ isRunning e' = true /\ fps e' = fps started_gb /\ buttons e' = buttons started_gb
    /\ files e' = files started_gb.
Proof.
  assert (H1 : isRunning started_gb = true) by reflexivity.
  assert (H2 : (0 <= fps started_gb)%Z) by (vm_compute; discriminate).
  assert (H3 : py_lt0 (PFloat (FFin (1#2))) = false) by (vm_compute; reflexivity).
  assert (H4 : dict_get String.eqb (lower "up") (buttons started_gb)
                 = Some (mkButtonCode "Up" PRESS_ARROW_UP (Some RELEASE_ARROW_UP))) by reflexivity.
  assert (H5 : num_frames (PFloat (FFin (1#2))) (fps started_gb) = inr 30%Z)
    by (vm_compute; reflexivity).
  do 5 (split; [assumption|]).
  exact (proj1 (holdButton_effect "up" _ (PFloat (FFin (1#2))) started_gb H1 H2 H3 H4) 30%Z H5).
Defined.

(** X3: a negative argument is refused with [ValueError] and no change of
    state by [runForXFrames], [runForXSeconds] and [start] before they look at
    the run state, so also on a stopped emulator; [holdButton] checks the run
    state first, and refuses a negative duration with [NotRunning] when the
    emulator is stopped. *)
Theorem negative_arguments_rejected (e : Emu) :
  (forall n, (n < 0)%Z -> runForXFrames n e = Raise (ValueError "numberOfFrames must 0 or more") e)
  /\ (forall s, py_lt0 s = true ->
        runForXSeconds s e = Raise (ValueError "numberOfSeconds must 0 or more") e)
  /\ (forall g b p s, py_lt0 s = true ->
        start g b p s e = Raise (ValueError "numberOfSecondsToRun must be 0 or more") e)
  /\ (forall nm s, py_lt0 s = true ->
        holdButton nm s e
        = Raise (if isRunning e then ValueError "numberOfSeconds must be greater than 0"
                 else NotRunning) e).
Proof.
  repeat apply conj.
  - intros n Hn. unfold runForXFrames.
    replace (Z.ltb n 0) with true by (symmetry; apply Z.ltb_lt; exact Hn). reflexivity.
  - intros s Hs. unfold runForXSeconds. rewrite Hs. reflexivity.
  - intros g b p s Hs. unfold start. rewrite Hs. reflexivity.
  - intros nm s Hs. unfold holdButton, bind, assertIsRunning.
    destruct (isRunning e); [|reflexivity]. rewrite Hs. reflexivity.
Qed.

Lemma negative_arguments_rejected_witness :
  (-1 < 0)%Z /\ py_lt0 (PInt (-1)) = true /\ py_lt0 (PFloat (FFin (-1#2))) = true /\
  runForXFrames (-1) (gameBoy_init disk0)
    = Raise (ValueError "numberOfFrames must 0 or more") (gameBoy_init disk0)
  /\ runForXSeconds (PInt (-1)) (gameBoy_init disk0)
    = Raise (ValueError "numberOfSeconds must 0 or more") (gameBoy_init disk0)
  /\ start "game.gb" None None (PInt (-1)) (gameBoy_init disk0)
    = Raise (ValueError "numberOfSecondsToRun must be 0 or more") (gameBoy_init disk0)
  /\ holdButton "a" (PFloat (FFin (-1#2))) started_gb
    = Raise (if isRunning started_gb then ValueError "numberOfSeconds must be greater than 0"
             else NotRunning) started_gb.
Proof.
  assert (H1 : (-1 < 0)%Z) by lia.
  assert (H2 : py_lt0 (PInt (-1)) = true) by reflexivity.
  assert (H3 : py_lt0 (PFloat (FFin (-1#2))) = true) by (vm_compute; reflexivity).
  destruct (negative_arguments_rejected (gameBoy_init disk0)) as (A & B & C & _).
  destruct (negative_arguments_rejected started_gb) as (_ & _ & _ & D).
  split; [exact H1|]. split; [exact H2|]. split; [exact H3|].
  split; [exact (A (-1)%Z H1)|]. split; [exact (B (PInt (-1)) H2)|].
  split; [exact (C "game.gb" None None (PInt (-1)) H2)|]. exact (D "a" _ H3).
Defined.

(** ** The command language *)

(** Case analysis on the tests of [on_message_command] in [H]; the clamping
    tests are left alone. *)
Ltac parse_cases H :=
  unfold on_message_command in H; cbv zeta in H;
  repeat match type of H with
         | context [if ?c then _ else _] =>
             lazymatch c with
             | Z.ltb _ _ => fail
             | float_lt _ _ => fail
             | float_gt _ _ => fail
             | _ => destruct c eqn:?
             end
         | context [match ?o with Some _ => _ | None => _ end] => destruct o eqn:?
         end;
  try discriminate H.

Lemma press_clamp (x : Z) :
  let m := if Z.ltb 1 x then x else 1%Z in
  (1 <= (if Z.ltb m 3 then m else 3%Z) <= 3)%Z.
Proof.
  intro m. assert (Hm : (1 <= m)%Z) by (unfold m; destruct (Z.ltb_spec 1 x); lia).
  destruct (Z.ltb_spec m 3); lia.
Qed.

Lemma hold_clamp (x : PyFloat) :
  let m := if float_gt x (1#2) then x else FFin (1#2) in
  exists q, (if float_lt m 3 then m else FFin 3) = FFin q /\ (1#2 <= q)%Q /\ (q <= 3)%Q.
Proof.
  intro m. unfold m. clear m.
  destruct x as [a| | |]; cbn [float_gt float_lt].
  - destruct (Qltb (1#2) a) eqn:E1; cbn [float_lt].
    + destruct (Qltb a 3) eqn:E2.
      * exists a. apply Qltb_true in E1, E2.
        split; [reflexivity|]. split; apply Qlt_le_weak; assumption.
      * exists 3%Q. split; [reflexivity|]. split; unfold Qle; simpl; lia.
    + exists (1#2). split; [reflexivity|]. split; unfold Qle; simpl; lia.
  - exists 3%Q. split; [reflexivity|]. split; unfold Qle; simpl; lia.
  - exists (1#2). split; [reflexivity|]. split; unfold Qle; simpl; lia.
  - exists (1#2). split; [reflexivity|]. split; unfold Qle; simpl; lia.
Qed.

(** X4: whatever [int(...)] and [float(...)] return, a press command presses
    between 1 and 3 times, and a hold command holds for a finite number of
    seconds between 0.5 and 3 (an infinite value becomes 3, a NaN 0.5). *)
Theorem on_message_clamps (py_int : string -> option Z) (py_float : string -> option PyFloat)
    (names : option (list string)) (content : string) :
  (forall b n, on_message_command py_int py_float names content = Some (Press b n) ->
     (1 <= n <= 3)%Z)
  /\ (forall b x, on_message_command py_int py_float names content = Some (Hold b x) ->
     exists q, x = FFin q /\ (1#2 <= q)%Q /\ (q <= 3)%Q).
Proof.
  split.
  - intros b n H. parse_cases H.
    injection H as _ <-. apply press_clamp.
  - intros b x H. parse_cases H.
    injection H as _ <-. apply hold_clamp.
Qed.

Lemma on_message_clamps_witness :
  on_message_command (fun _ => Some 7%Z) (fun _ => None) (Some ["a"]) "A p 7"
    = Some (Press "a" 3)
  /\ on_message_command (fun _ => None) (fun _ => Some FNaN) (Some ["a"]) "a h nan"
    = Some (Hold "a" (FFin (1#2)))
  /\ (forall b n, on_message_command (fun _ => Some 7%Z) (fun _ => None) (Some ["a"]) "A p 7"
                  = Some (Press b n) -> (1 <= n <= 3)%Z).
Proof.
  split; [reflexivity|]. split; [reflexivity|].
  exact (proj1 (on_message_clamps (fun _ => Some 7%Z) (fun _ => None) (Some ["a"]) "A p 7")).
Defined.

Lemma split_nospace (s : string) :
  (forall c, In c (list_ascii_of_string s) -> c <> " "%char) -> py_split_space s = [s].
Proof.
  induction s as [|a s IH]; intro H; [reflexivity|].
  simpl. replace (Ascii.eqb a " ") with false.
  - rewrite IH; [reflexivity|]. intros c Hc. apply H. simpl. right. exact Hc.
  - symmetry. apply Ascii.eqb_neq. apply H. simpl. left. reflexivity.
Qed.

(** X5: [on_message] acts only on messages of exactly three space-separated
    words; in particular a message without a space, such as a bare button
    name (advertised as "press <button> once" by the usage message), is
    ignored. *)
Theorem on_message_needs_three_words (py_int : string -> option Z)
    (py_float : string -> option PyFloat) (names : option (list string)) (content : string) :
  (forall cmd, on_message_command py_int py_float names content = Some cmd ->
     List.length (py_split_space content) = 3%nat)
  /\ ((forall c, In c (list_ascii_of_string content) -> c <> " "%char) ->
      on_message_command py_int py_float names content = None).
Proof.
  split.
  - intros cmd H. parse_cases H;
    match goal with
    | Hq : negb (Nat.eqb _ 3) = false |- _ => apply negb_false_iff, Nat.eqb_eq in Hq; exact Hq
    end.
  - intro Hs. unfold on_message_command. rewrite (split_nospace content Hs).
    cbv zeta. cbn [List.length Nat.ltb Nat.leb Nat.eqb negb].
    destruct names; [|reflexivity].
    destruct (existsb _ _); reflexivity.
Qed.

Lemma on_message_needs_three_words_witness :
  (forall c, In c (list_ascii_of_string "start") -> c <> " "%char) /\
  on_message_command (fun _ => Some 1%Z) (fun _ => None) (Some ["start"]) "start" = None.
Proof.
  assert (H : forall c, In c (list_ascii_of_string "start") -> c <> " "%char).
  { intros c Hc. simpl in Hc.
    repeat (destruct Hc as [<-|Hc]; [discriminate|]). destruct Hc. }
  split; [exact H|].
  exact (proj2 (on_message_needs_three_words (fun _ => Some 1%Z) (fun _ => None)
                  (Some ["start"]) "start") H).
Defined.

Lemma dict_get_in_keys {V} (k : string) (d : list (string * V)) :
  In k (dict_keys d) -> exists v, dict_get String.eqb k d = Some v.
Proof.
  induction d as [|[k' v'] d IH]; simpl; [intros []|].
  intros [<-|H].
  - rewrite String.eqb_refl. eauto.
  - destruct (String.eqb k k'); eauto.
Qed.

Lemma gameBoy_keys_lower (disk : FS) :
  Forall (fun k => lower k = k) (dict_keys (buttons (gameBoy_init disk))).
Proof. repeat constructor. Qed.

(** X6: the button of every command [on_message] accepts is found by
    [_getButton] on the instance, so the [NameError] of an unknown button is
    never reached from a chat command: [buttonNames] and [_getButton] both
    lowercase, and the keys of a [GameBoy]'s buttons are lowercase. *)
Theorem on_message_button_registered (py_int : string -> option Z)
    (py_float : string -> option PyFloat) :
  (forall disk, Forall (fun k => lower k = k) (dict_keys (buttons (gameBoy_init disk))))
  /\ (forall e content cmd,
        Forall (fun k => lower k = k) (dict_keys (buttons e)) ->
        on_message_command py_int py_float (Some (buttonNames e)) content = Some cmd ->
        exists bc, _getButton (match cmd with Press b _ => b | Hold b _ => b end) e = Ok bc e).
Proof.
  split; [exact gameBoy_keys_lower|].
  intros e content cmd Hl H.
  assert (K : forall w, existsb (String.eqb (lower w)) (buttonNames e) = true ->
                exists bc, _getButton (lower w) e = Ok bc e).
  { intros w Hw. apply existsb_exists in Hw. destruct Hw as [x [Hx Ex]].
    apply String.eqb_eq in Ex. subst x.
    unfold buttonNames in Hx. apply in_map_iff in Hx. destruct Hx as [k [Ek Hk]].
    rewrite Forall_forall in Hl. rewrite (Hl k Hk) in Ek. subst k.
    destruct (dict_get_in_keys _ _ Hk) as [bc Hbc].
    exists bc. unfold _getButton. rewrite lower_idem, Hbc. reflexivity. }
  parse_cases H; injection H as <-;
  match goal with
  | Hq : negb (existsb (String.eqb (lower ?w)) _) = false |- _ =>
      apply negb_false_iff in Hq; exact (K w Hq)
  end.
Qed.

Lemma on_message_button_registered_witness :
  Forall (fun k => lower k = k) (dict_keys (buttons started_gb)) /\
  on_message_command (fun _ => Some 2%Z) (fun _ => None) (Some (buttonNames started_gb)) "LEFT p 2"
    = Some (Press "left" 2) /\
  exists bc, _getButton "left" started_gb = Ok bc started_gb.
Proof.
  assert (H1 : Forall (fun k => lower k = k) (dict_keys (buttons started_gb))) by (repeat constructor).
  assert (H2 : on_message_command (fun _ => Some 2%Z) (fun _ => None)
                 (Some (buttonNames started_gb)) "LEFT p 2" = Some (Press "left" 2)) by reflexivity.
  split; [exact H1|]. split; [exact H2|].
  exact (proj2 (on_message_button_registered (fun _ => Some 2%Z) (fun _ => None))
           started_gb "LEFT p 2" _ H1 H2).
Defined.

(** ** Running a command *)

Lemma path_ok {S} (r : Exn + string) (p : string) (s : S) : r = inr p -> path_m r s = Ok p s.
Proof. intros ->. reflexivity. Qed.

Lemma firstn_prefix {A} (l m : list A) : firstn (List.length l) (l ++ m) = l.
Proof. induction l as [|x l IH]; simpl; [reflexivity|]. rewrite IH. reflexivity. Qed.

(** Whether [open(p, "wb")] succeeds depends on the folders only. *)
Lemma can_write_dirs (fs fs' : FS) (p : string) :
  fs_dirs fs' = fs_dirs fs -> can_write fs' p = can_write fs p.
Proof. intro H. unfold can_write, parent_is_dir, is_dir. rewrite H. reflexivity. Qed.

Lemma saveState_ok (p : string) (e : Emu) :
  isRunning e = true -> can_write (files e) p = true ->
  exists fs, open_write p (files e) = inr fs
             /\ saveState p e = Ok tt (emit (ESave p) (set_files fs e)).
Proof.
  intros H Hw. destruct (open_write_can p (files e) Hw) as [fs W].
  exists fs. split; [exact W|]. unfold saveState. rewrite W. cbn.
  unfold isRunning in H. destruct (pyboy e); [reflexivity|discriminate].
Qed.

Lemma makeGIF_ok (p : string) (e : Emu) :
  isRunning e = true -> screenShots e <> [] -> (0 < fps e)%Z ->
  (Z.of_nat (List.length (screenShots e)) < 2 ^ 1023)%Z ->
  can_write (files e) p = true ->
  exists q dur fs,
    py_truediv (Z.of_nat (List.length (screenShots e))) (fps e) = inr q
    /\ py_round q = inr dur /\ open_write p (files e) = inr fs
    /\ makeGIF p e = Ok tt (set_screenShots [] (set_files fs (emit (EGif p (screenShots e) dur) e))).
Proof.
  intros H Hne Hf Hl Hw. destruct (screenShots e) as [|i r] eqn:Hs; [contradiction|].
  destruct (py_truediv_finite (Z.of_nat (List.length (i :: r))) (fps e)) as [q Hq];
    [split; [lia|exact Hl]|exact Hf|].
  destruct (open_write_can p (files e) Hw) as [fs W].
  exists (FFin q), (py_round_div (Qnum q) (Zpos (Qden q))), fs.
  split; [exact Hq|]. split; [reflexivity|]. split; [exact W|].
  rewrite (makeGIF_cases e p i r H Hs), Hq. cbn [py_round]. rewrite W. reflexivity.
Qed.

(** [runForXSeconds(10)], saving the main state and sending the screenshot. *)
Lemma after_command_effect (lp : option string) (d now mainp gifp : string) (e : Emu) :
  isRunning e = true -> (0 < fps e)%Z ->
  state_save_path lp d "main" = inr mainp ->
  screen_shots_save_path lp d (now ++ ".gif") = inr gifp ->
  can_write (files e) mainp = true -> can_write (files e) gifp = true ->
  (Z.of_nat (List.length (screenShots e)) + 10 * fps e < 2 ^ 1023)%Z ->
  exists e' dur,
    after_command lp d now e = Ok tt e'
    /\ trace e' = trace e ++ frame_events (Z.to_nat (10 * fps e))
                  ++ [ESave mainp;
                      EGif gifp (screenShots e ++ shots (trace e) (Z.to_nat (10 * fps e))) dur]
    /\ (exists q, py_truediv (Z.of_nat (List.length (screenShots e) + Z.to_nat (10 * fps e)))
                             (fps e) = inr q /\ py_round q = inr dur)
    /\ screenShots e' = [] /\ is_file (files e') mainp = true /\ is_file (files e') gifp = true
    /\ isRunning e' = true /\ fps e' = fps e /\ buttons e' = buttons e
    /\ fs_dirs (files e') = fs_dirs (files e)
    /\ (forall q, is_file (files e) q = true -> is_file (files e') q = true).
Proof.
  intros H Hf Hm Hg Wm Wg Hl.
  set (n := Z.to_nat (10 * fps e)).
  set (e1 := after_frames n e).
  destruct (saveState_ok mainp e1 H Wm) as (fs1 & W1 & S1).
  set (e2 := emit (ESave mainp) (set_files fs1 e1)) in S1.
  destruct (open_write_ok _ _ _ W1) as (_ & F1 & D1 & M1).
  assert (L : screenShots e2 = screenShots e ++ shots (trace e) n) by reflexivity.
  assert (Ln : List.length (screenShots e2) = (List.length (screenShots e) + n)%nat).
  { rewrite L, length_app, shots_length. reflexivity. }
  assert (Wg2 : can_write (files e2) gifp = true)
    by (rewrite (can_write_dirs (files e) (files e2)); [exact Wg|exact D1]).
  assert (Ne : screenShots e2 <> []).
  { intro C. rewrite C in Ln. simpl in Ln. unfold n in Ln. lia. }
  destruct (makeGIF_ok gifp e2 H Ne Hf ltac:(rewrite Ln; unfold n; lia) Wg2)
    as (q & dur & fs2 & Q1 & R1 & W2 & G).
  destruct (open_write_ok _ _ _ W2) as (_ & F2 & D2 & M2).
  exists (set_screenShots [] (set_files fs2 (emit (EGif gifp (screenShots e2) dur) e2))), dur.
  split.
  - unfold after_command.
    rewrite (bind_Ok _ _ _ _ _ (runForXSeconds_int 10 e H ltac:(lia) ltac:(lia))).
    fold n. fold e1.
    assert (S1' : _save_main_state_file lp d e1 = Ok tt e2).
    { unfold _save_main_state_file. rewrite (bind_Ok _ _ _ _ _ (path_ok _ _ e1 Hm)).
      exact S1. }
    rewrite (bind_Ok _ _ _ _ _ S1').
    unfold _send_screenshot. rewrite (bind_Ok _ _ _ _ _ (path_ok _ _ e2 Hg)). exact G.
  - repeat apply conj.
    + change (((trace e ++ frame_events n) ++ [ESave mainp]) ++ [EGif gifp (screenShots e2) dur]
              = trace e ++ frame_events n ++ [ESave mainp; EGif gifp (screenShots e ++ shots (trace e) n) dur]).
      rewrite L, <- !app_assoc. reflexivity.
    + exists q. rewrite <- Ln. split; [exact Q1|exact R1].
    + reflexivity.
    + exact (M2 _ F1).
    + exact F2.
    + exact H.
    + reflexivity.
    + reflexivity.
    + cbn. rewrite D2. exact D1.
    + intros q' Hq'. apply M2. apply M1. exact Hq'.
Qed.

Lemma press_loop_effect (b : string) (bc : ButtonCode) (k : nat) : forall e,
  isRunning e = true -> (0 <= fps e)%Z ->
  dict_get String.eqb (lower b) (buttons e) = Some bc ->
  exists e' new, press_loop b k e = Ok tt e'
    /\ screenShots e' = screenShots e ++ new
    /\ List.length new = (k * (2 + Z.to_nat (fps e)))%nat
    /\ trace e' = trace e
                  ++ List.concat (List.repeat ([EInput (Some (pressCode bc))] ++ frame_events 2
                                     ++ [EInput (releaseCode bc)] ++ frame_events (Z.to_nat (fps e)))
                               k)
    /\ isRunning e' = true /\ fps e' = fps e /\ buttons e' = buttons e /\ files e' = files e.
Proof.
  induction k as [|k IH]; intros e H Hf Hb.
  - exists e, []. rewrite !app_nil_r. repeat apply conj; auto.
  - pose proof (pressButton_state b bc e H Hf Hb) as P.
    set (e1 := after_frames _ _) in P.
    assert (R1 : isRunning e1 = true) by exact H.
    assert (F1 : fps e1 = fps e) by reflexivity.
    assert (B1 : buttons e1 = buttons e) by reflexivity.
    rewrite <- F1 in Hf. rewrite <- B1 in Hb.
    destruct (IH e1 R1 Hf Hb) as (e' & n2 & P2 & S2 & L2 & T2 & R2 & F2 & B2 & Fi2).
    exists e', (shots (trace e ++ [EInput (Some (pressCode bc))]) 2
                ++ shots (trace e ++ [EInput (Some (pressCode bc))] ++ frame_events 2
                          ++ [EInput (releaseCode bc)]) (Z.to_nat (fps e)) ++ n2).
    cbn [press_loop]. rewrite (bind_Ok _ _ _ _ _ P).
    repeat apply conj.
    + exact P2.
    + rewrite S2. unfold e1, after_frames, emit. cbn [screenShots trace].
      rewrite <- !app_assoc. reflexivity.
    + rewrite !length_app, !shots_length, L2, F1. lia.
    + rewrite T2, F1. unfold e1, after_frames, emit. cbn [trace List.repeat List.concat].
      rewrite <- !app_assoc. reflexivity.
    + exact R2.
    + rewrite F2, F1. reflexivity.
    + rewrite B2, B1. reflexivity.
    + rewrite Fi2. reflexivity.
Qed.

(** X7: a press command [<button> p <num>] on a running instance with
    [fps > 0], when the main state file and the GIF can be opened for writing
    and the GIF duration is a finite float, presses the button [num] times
    (none when [num <= 0], as [range(num)] is empty), runs 10 seconds, saves
    the main state file and writes one GIF. The events are the press and
    release of each press with their frames, then [10 * fps] frames, the save
    and the GIF. The GIF holds the screenshots stored before, then one per
    frame run: [2 + fps] per press and [10 * fps] after; its duration is
    [int(round(len / fps))] as Python computes it. The stored list is empty
    afterwards. *)
Theorem run_press_effect (lp : option string) (d now b mainp gifp : string) (num : Z)
    (bc : ButtonCode) (e : Emu) :
  isRunning e = true -> (0 < fps e)%Z ->
  dict_get String.eqb (lower b) (buttons e) = Some bc ->
  state_save_path lp d "main" = inr mainp ->
  screen_shots_save_path lp d (now ++ ".gif") = inr gifp ->
  can_write (files e) mainp = true -> can_write (files e) gifp = true ->
  (Z.of_nat (List.length (screenShots e)) + Z.of_nat (Z.to_nat num) * (2 + fps e) + 10 * fps e
     < 2 ^ 1023)%Z ->
  exists e' frames dur,
    run_press lp d now b num e = Ok tt e'
    /\ trace e' = trace e
                  ++ List.concat (List.repeat ([EInput (Some (pressCode bc))] ++ frame_events 2
                                     ++ [EInput (releaseCode bc)] ++ frame_events (Z.to_nat (fps e)))
                               (Z.to_nat num))
                  ++ frame_events (Z.to_nat (10 * fps e))
                  ++ [ESave mainp; EGif gifp frames dur]
    /\ firstn (List.length (screenShots e)) frames = screenShots e
    /\ List.length frames = (List.length (screenShots e) + Z.to_nat num * (2 + Z.to_nat (fps e))
                             + Z.to_nat (10 * fps e))%nat
    /\ (exists q, py_truediv (Z.of_nat (List.length frames)) (fps e) = inr q
                  /\ py_round q = inr dur)
    /\ screenShots e' = [] /\ is_file (files e') mainp = true /\ is_file (files e') gifp = true
    /\ isRunning e' = true.
Proof.
  intros H Hf Hb Hm Hg Wm Wg Hl.
  destruct (press_loop_effect b bc (Z.to_nat num) e H ltac:(lia) Hb)
    as (e1 & n1 & P1 & S1 & L1 & T1 & R1 & F1 & _ & Fi1).
  assert (L1' : List.length (screenShots e1)
                = (List.length (screenShots e) + Z.to_nat num * (2 + Z.to_nat (fps e)))%nat)
    by (rewrite S1, length_app, L1; reflexivity).
  destruct (after_command_effect lp d now mainp gifp e1 R1 ltac:(lia) Hm Hg
              ltac:(rewrite Fi1; exact Wm) ltac:(rewrite Fi1; exact Wg)
              ltac:(rewrite L1', F1; lia))
    as (e' & dur & A & T & Q & Se & Im & Ig & R & _).
  exists e', (screenShots e1 ++ shots (trace e1) (Z.to_nat (10 * fps e1))), dur.
  assert (Lf : List.length (screenShots e1 ++ shots (trace e1) (Z.to_nat (10 * fps e1)))
               = (List.length (screenShots e1) + Z.to_nat (10 * fps e1))%nat).
  { rewrite length_app, shots_length. reflexivity. }
  repeat apply conj.
  - unfold run_press. rewrite (bind_Ok _ _ _ _ _ P1). exact A.
  - rewrite T, T1, F1, <- !app_assoc. reflexivity.
  - rewrite S1, <- app_assoc. apply firstn_prefix.
  - rewrite Lf, L1', F1. lia.
  - rewrite Lf, <- F1. exact Q.
  - exact Se.
  - exact Im.
  - exact Ig.
  - exact R.
Qed.

(** The files of an instance with its folders under ["/srv"] for ["pkmn"]. *)
Definition srv_fs : FS :=
  mkFS [] ["/srv"; "/srv/gb"; "/srv/gb/saves"; "/srv/gb/saves/pkmn";
           "/srv/gb/saves/pkmn/states"; "/srv/gb/saves/pkmn/screen_shots"].

Lemma run_press_effect_witness :
  isRunning (set_files srv_fs started_gb) = true /\ (0 < fps (set_files srv_fs started_gb))%Z /\
  dict_get String.eqb (lower "A") (buttons (set_files srv_fs started_gb))
    = Some (mkButtonCode "A" PRESS_BUTTON_A (Some RELEASE_BUTTON_A)) /\
  state_save_path (Some "/srv") "pkmn" "main" = inr "/srv/gb/saves/pkmn/states/main" /\
  screen_shots_save_path (Some "/srv") "pkmn" ("t0" ++ ".gif")
    = inr "/srv/gb/saves/pkmn/screen_shots/t0.gif" /\
  can_write (files (set_files srv_fs started_gb)) "/srv/gb/saves/pkmn/states/main" = true /\
  can_write (files (set_files srv_fs started_gb)) "/srv/gb/saves/pkmn/screen_shots/t0.gif" = true /\
  (Z.of_nat (List.length (screenShots (set_files srv_fs started_gb)))
   + Z.of_nat (Z.to_nat 3) * (2 + fps (set_files srv_fs started_gb))
   + 10 * fps (set_files srv_fs started_gb) < 2 ^ 1023)%Z /\
  exists e' frames dur,
    run_press (Some "/srv") "pkmn" "t0" "A" 3 (set_files srv_fs started_gb) = Ok tt e'
    /\ trace e' = trace (set_files srv_fs started_gb)
                  ++ List.concat (List.repeat ([EInput (Some PRESS_BUTTON_A)] ++ frame_events 2
                                     ++ [EInput (Some RELEASE_BUTTON_A)]
                                     ++ frame_events (Z.to_nat (fps (set_files srv_fs started_gb))))
                               (Z.to_nat 3))
                  ++ frame_events (Z.to_nat (10 * fps (set_files srv_fs started_gb)))
                  ++ [ESave "/srv/gb/saves/pkmn/states/main";
                      EGif "/srv/gb/saves/pkmn/screen_shots/t0.gif" frames dur]
    /\ firstn (List.length (screenShots (set_files srv_fs started_gb))) frames
       = screenShots (set_files srv_fs started_gb)
    /\ List.length frames = (List.length (screenShots (set_files srv_fs started_gb))
                             + Z.to_nat 3 * (2 + Z.to_nat (fps (set_files srv_fs started_gb)))
                             + Z.to_nat (10 * fps (set_files srv_fs started_gb)))%nat
    /\ (exists q, py_truediv (Z.of_nat (List.length frames)) (fps (set_files srv_fs started_gb))
                  = inr q /\ py_round q = inr dur)
    /\ screenShots e' = [] /\ is_file (files e') "/srv/gb/saves/pkmn/states/main" = true
    /\ is_file (files e') "/srv/gb/saves/pkmn/screen_shots/t0.gif" = true
    /\ isRunning e' = true.
Proof.
  assert (H1 : isRunning (set_files srv_fs started_gb) = true) by reflexivity.
  assert (H2 : (0 < fps (set_files srv_fs started_gb))%Z) by (vm_compute; reflexivity).
  assert (H3 : dict_get String.eqb (lower "A") (buttons (set_files srv_fs started_gb))
                 = Some (mkButtonCode "A" PRESS_BUTTON_A (Some RELEASE_BUTTON_A))) by reflexivity.
  assert (H4 : state_save_path (Some "/srv") "pkmn" "main" = inr "/srv/gb/saves/pkmn/states/main")
    by reflexivity.
  assert (H5 : screen_shots_save_path (Some "/srv") "pkmn" ("t0" ++ ".gif")
                 = inr "/srv/gb/saves/pkmn/screen_shots/t0.gif") by reflexivity.
  assert (H6 : can_write (files (set_files srv_fs started_gb)) "/srv/gb/saves/pkmn/states/main"
                 = true) by (vm_compute; reflexivity).
  assert (H7 : can_write (files (set_files srv_fs started_gb))
                 "/srv/gb/saves/pkmn/screen_shots/t0.gif" = true) by (vm_compute; reflexivity).
  assert (H8 : (Z.of_nat (List.length (screenShots (set_files srv_fs started_gb)))
                + Z.of_nat (Z.to_nat 3) * (2 + fps (set_files srv_fs started_gb))
                + 10 * fps (set_files srv_fs started_gb) < 2 ^ 1023)%Z)
    by (vm_compute; reflexivity).
  do 8 (split; [assumption|]).
  exact (run_press_effect (Some "/srv") "pkmn" "t0" "A" _ _ 3 _ (set_files srv_fs started_gb)
           H1 H2 H3 H4 H5 H6 H7 H8).
Defined.

(** X8: a hold command [<button> h <num>] (a float [num >= 0]) on a running
    instance with [fps > 0], when [num * fps] gives [n] frames as Python
    computes [int(math.ceil(num * fps))], the main state file and the GIF can
    be opened for writing and the GIF duration is a finite float, holds the
    button for [n] frames, releases it for [fps] frames, runs 10 seconds,
    saves the main state file and writes one GIF of the stored screenshots
    followed by one per frame run; the stored list is empty afterwards. *)
Theorem run_hold_effect (lp : option string) (d now b mainp gifp : string) (num : PyFloat)
    (n : Z) (bc : ButtonCode) (e : Emu) :
  isRunning e = true -> (0 < fps e)%Z -> py_lt0 (PFloat num) = false ->
  num_frames (PFloat num) (fps e) = inr n ->
  dict_get String.eqb (lower b) (buttons e) = Some bc ->
  state_save_path lp d "main" = inr mainp ->
  screen_shots_save_path lp d (now ++ ".gif") = inr gifp ->
  can_write (files e) mainp = true -> can_write (files e) gifp = true ->
  (Z.of_nat (List.length (screenShots e)) + n + fps e + 10 * fps e < 2 ^ 1023)%Z ->
  exists e' frames dur,
    run_hold lp d now b num e = Ok tt e'
    /\ trace e' = trace e ++ [EInput (Some (pressCode bc))] ++ frame_events (Z.to_nat n)
                  ++ [EInput (releaseCode bc)] ++ frame_events (Z.to_nat (fps e))
                  ++ frame_events (Z.to_nat (10 * fps e))
                  ++ [ESave mainp; EGif gifp frames dur]
    /\ firstn (List.length (screenShots e)) frames = screenShots e
    /\ List.length frames = (List.length (screenShots e) + Z.to_nat n
                             + Z.to_nat (fps e) + Z.to_nat (10 * fps e))%nat
    /\ (exists q, py_truediv (Z.of_nat (List.length frames)) (fps e) = inr q
                  /\ py_round q = inr dur)
    /\ screenShots e' = [] /\ is_file (files e') mainp = true /\ is_file (files e') gifp = true
    /\ isRunning e' = true.
Proof.
  intros H Hf Hs Hn Hb Hm Hg Wm Wg Hl.
  pose proof (num_frames_nonneg (PFloat num) (fps e) n Hs ltac:(lia) Hn) as Hn0.
  pose proof (holdButton_state b bc (PFloat num) n e H ltac:(lia) Hs Hn Hb) as P1.
  set (e1 := after_frames _ _) in P1.
  assert (R1 : isRunning e1 = true) by exact H.
  assert (L1 : List.length (screenShots e1)
               = (List.length (screenShots e) + Z.to_nat n + Z.to_nat (fps e))%nat).
  { unfold e1, after_frames, emit. cbn [screenShots].
    rewrite !length_app, !shots_length. lia. }
  destruct (after_command_effect lp d now mainp gifp e1 R1 Hf Hm Hg Wm Wg
              ltac:(rewrite L1; change (fps e1) with (fps e); lia))
    as (e' & dur & A & T & Q & Se & Im & Ig & R & _).
  exists e', (screenShots e1 ++ shots (trace e1) (Z.to_nat (10 * fps e1))), dur.
  assert (Lf : List.length (screenShots e1 ++ shots (trace e1) (Z.to_nat (10 * fps e1)))
               = (List.length (screenShots e1) + Z.to_nat (10 * fps e1))%nat).
  { rewrite length_app, shots_length. reflexivity. }
  repeat apply conj.
  - unfold run_hold. rewrite (bind_Ok _ _ _ _ _ P1). exact A.
  - rewrite T. change (fps e1) with (fps e).
    unfold e1, after_frames, emit. cbn [trace].
    rewrite <- !app_assoc. reflexivity.
  - unfold e1, after_frames, emit. cbn [screenShots].
    rewrite <- ?app_assoc. apply firstn_prefix.
  - rewrite Lf, L1. change (fps e1) with (fps e). lia.
  - rewrite Lf. exact Q.
  - exact Se.
  - exact Im.
  - exact Ig.
  - exact R.
Qed.

Lemma run_hold_effect_witness :
  isRunning (set_files srv_fs started_gb) = true /\ (0 < fps (set_files srv_fs started_gb))%Z /\
  py_lt0 (PFloat (FFin 3)) = false /\
  num_frames (PFloat (FFin 3)) (fps (set_files srv_fs started_gb)) = inr 180%Z /\
  dict_get String.eqb (lower "b") (buttons (set_files srv_fs started_gb))
    = Some (mkButtonCode "B" PRESS_BUTTON_B (Some RELEASE_BUTTON_B)) /\
  state_save_path (Some "/srv") "pkmn" "main" = inr "/srv/gb/saves/pkmn/states/main" /\
  screen_shots_save_path (Some "/srv") "pkmn" ("t0" ++ ".gif")
    = inr "/srv/gb/saves/pkmn/screen_shots/t0.gif" /\
  can_write (files (set_files srv_fs started_gb)) "/srv/gb/saves/pkmn/states/main" = true /\
  can_write (files (set_files srv_fs started_gb)) "/srv/gb/saves/pkmn/screen_shots/t0.gif" = true /\
  (Z.of_nat (List.length (screenShots (set_files srv_fs started_gb))) + 180
   + fps (set_files srv_fs started_gb) + 10 * fps (set_files srv_fs started_gb) < 2 ^ 1023)%Z /\
  exists e' frames dur,
    run_hold (Some "/srv") "pkmn" "t0" "b" (FFin 3) (set_files srv_fs started_gb) = Ok tt e'
    /\ trace e' = trace (set_files srv_fs started_gb) ++ [EInput (Some PRESS_BUTTON_B)]
                  ++ frame_events (Z.to_nat 180)
                  ++ [EInput (Some RELEASE_BUTTON_B)]
                  ++ frame_events (Z.to_nat (fps (set_files srv_fs started_gb)))
                  ++ frame_events (Z.to_nat (10 * fps (set_files srv_fs started_gb)))
                  ++ [ESave "/srv/gb/saves/pkmn/states/main";
                      EGif "/srv/gb/saves/pkmn/screen_shots/t0.gif" frames dur]
    /\ firstn (List.length (screenShots (set_files srv_fs started_gb))) frames
       = screenShots (set_files srv_fs started_gb)
    /\ List.length frames = (List.length (screenShots (set_files srv_fs started_gb)) + Z.to_nat 180
                             + Z.to_nat (fps (set_files srv_fs started_gb))
                             + Z.to_nat (10 * fps (set_files srv_fs started_gb)))%nat
    /\ (exists q, py_truediv (Z.of_nat (List.length frames)) (fps (set_files srv_fs started_gb))
                  = inr q /\ py_round q = inr dur)
    /\ screenShots e' = [] /\ is_file (files e') "/srv/gb/saves/pkmn/states/main" = true
    /\ is_file (files e') "/srv/gb/saves/pkmn/screen_shots/t0.gif" = true
    /\ isRunning e' = true.
Proof.
  assert (H1 : isRunning (set_files srv_fs started_gb) = true) by reflexivity.
  assert (H2 : (0 < fps (set_files srv_fs started_gb))%Z) by (vm_compute; reflexivity).
  assert (H3 : py_lt0 (PFloat (FFin 3)) = false) by (vm_compute; reflexivity).
  assert (H4 : num_frames (PFloat (FFin 3)) (fps (set_files srv_fs started_gb)) = inr 180%Z)
    by (vm_compute; reflexivity).
  assert (H5 : dict_get String.eqb (lower "b") (buttons (set_files srv_fs started_gb))
                 = Some (mkButtonCode "B" PRESS_BUTTON_B (Some RELEASE_BUTTON_B))) by reflexivity.
  assert (H6 : state_save_path (Some "/srv") "pkmn" "main" = inr "/srv/gb/saves/pkmn/states/main")
    by reflexivity.
  assert (H7 : screen_shots_save_path (Some "/srv") "pkmn" ("t0" ++ ".gif")
                 = inr "/srv/gb/saves/pkmn/screen_shots/t0.gif") by reflexivity.
  assert (H8 : can_write (files (set_files srv_fs started_gb)) "/srv/gb/saves/pkmn/states/main"
                 = true) by (vm_compute; reflexivity).
  assert (H9 : can_write (files (set_files srv_fs started_gb))
                 "/srv/gb/saves/pkmn/screen_shots/t0.gif" = true) by (vm_compute; reflexivity).
  assert (H10 : (Z.of_nat (List.length (screenShots (set_files srv_fs started_gb))) + 180
                 + fps (set_files srv_fs started_gb) + 10 * fps (set_files srv_fs started_gb)
                 < 2 ^ 1023)%Z) by (vm_compute; reflexivity).
  do 10 (split; [assumption|]).
  exact (run_hold_effect (Some "/srv") "pkmn" "t0" "b" _ _ (FFin 3) 180 _
           (set_files srv_fs started_gb) H1 H2 H3 H4 H5 H6 H7 H8 H9 H10).
Defined.

(** X9: a command sent to an instance that exists but is stopped (after
    [setup stop]) raises [NotRunning] before any input, whatever its count or
    duration, and changes nothing. *)
Theorem command_on_stopped_instance (lp : option string) (d now b : string) (e : Emu) :
  isRunning e = false ->
  (forall num, run_press lp d now b num e = Raise NotRunning e)
  /\ (forall q, run_hold lp d now b q e = Raise NotRunning e).
Proof.
  intro H.
  assert (As : assertIsRunning e = Raise NotRunning e)
    by (unfold assertIsRunning; rewrite H; reflexivity).
  assert (Ac : after_command lp d now e = Raise NotRunning e).
  { unfold after_command. apply bind_Raise. unfold runForXSeconds.
    replace (py_lt0 (PInt 10)) with false by reflexivity. apply bind_Raise. exact As. }
  split.
  - intro num. unfold run_press. destruct (Z.to_nat num) as [|k].
    + cbn [press_loop]. rewrite (bind_Ok (ret tt) _ e tt e eq_refl). exact Ac.
    + cbn [press_loop]. apply bind_Raise. apply bind_Raise.
      unfold pressButton. apply bind_Raise. exact As.
  - intro q. unfold run_hold. apply bind_Raise. unfold holdButton. apply bind_Raise. exact As.
Qed.

Lemma command_on_stopped_instance_witness :
  isRunning (gameBoy_init disk0) = false /\
  run_press (Some "/srv") "pkmn" "t0" "a" 2 (gameBoy_init disk0)
    = Raise NotRunning (gameBoy_init disk0) /\
  run_hold (Some "/srv") "pkmn" "t0" "a" (FFin 1) (gameBoy_init disk0)
    = Raise NotRunning (gameBoy_init disk0).
Proof.
  assert (H : isRunning (gameBoy_init disk0) = false) by reflexivity.
  destruct (command_on_stopped_instance (Some "/srv") "pkmn" "t0" "a" _ H) as [A B].
  split; [exact H|]. split; [exact (A 2%Z)|exact (B (FFin 1))].
Defined.

(** ** Dicts *)

Lemma in_files_existsb (q : string) (l : list string) : In q l -> existsb (String.eqb q) l = true.
Proof.
  intro H. apply existsb_exists. exists q. split; [exact H|]. apply String.eqb_refl.
Qed.

Section DictFacts.
Context {K V : Type} (eqk : K -> K -> bool).
Hypothesis eqk_spec : forall a b, eqk a b = true <-> a = b.

Lemma eqk_refl (k : K) : eqk k k = true.
Proof. apply eqk_spec. reflexivity. Qed.

Lemma eqk_neq (a b : K) : a <> b -> eqk a b = false.
Proof.
  intro H. destruct (eqk a b) eqn:E; [|reflexivity]. apply eqk_spec in E. contradiction.
Qed.

Lemma dict_get_set_eq (k : K) (v : V) (d : list (K * V)) :
  dict_get eqk k (dict_set eqk k v d) = Some v.
Proof.
  induction d as [|[k' v'] d IH]; simpl.
  - rewrite eqk_refl. reflexivity.
  - destruct (eqk k k') eqn:E; simpl; rewrite E; [reflexivity|exact IH].
Qed.

Lemma dict_get_set_neq (k k' : K) (v : V) (d : list (K * V)) :
  k' <> k -> dict_get eqk k' (dict_set eqk k v d) = dict_get eqk k' d.
Proof.
  intro Hne. induction d as [|[k0 v0] d IH]; simpl.
  - rewrite (eqk_neq k' k Hne). reflexivity.
  - destruct (eqk k k0) eqn:E; simpl.
    + apply eqk_spec in E. subst k0. rewrite (eqk_neq k' k Hne). reflexivity.
    + destruct (eqk k' k0); [reflexivity|exact IH].
Qed.

Lemma dict_set_get_same (k : K) (v : V) (d : list (K * V)) :
  dict_get eqk k d = Some v -> dict_set eqk k v d = d.
Proof using eqk_spec.
  induction d as [|[k0 v0] d IH]; simpl; [discriminate|].
  destruct (eqk k k0) eqn:E.
  - intro H. injection H as ->. reflexivity.
  - intro H. rewrite (IH H). reflexivity.
Qed.

Lemma dict_set_set (k : K) (v1 v2 : V) (d : list (K * V)) :
  dict_set eqk k v2 (dict_set eqk k v1 d) = dict_set eqk k v2 d.
Proof.
  induction d as [|[k0 v0] d IH]; simpl.
  - rewrite eqk_refl. reflexivity.
  - destruct (eqk k k0) eqn:E; simpl; rewrite E; [reflexivity|]. rewrite IH. reflexivity.
Qed.

Lemma dict_get_del_neq (k k' : K) (d : list (K * V)) :
  k' <> k -> dict_get eqk k' (dict_del eqk k d) = dict_get eqk k' d.
Proof.
  intro Hne. induction d as [|[k0 v0] d IH]; simpl; [reflexivity|].
  destruct (eqk k k0) eqn:E.
  - apply eqk_spec in E. subst k0. rewrite (eqk_neq k' k Hne). reflexivity.
  - simpl. destruct (eqk k' k0); [reflexivity|exact IH].
Qed.

Lemma dict_get_none (k : K) (d : list (K * V)) :
  dict_get eqk k d = None <-> ~ In k (dict_keys d).
Proof.
  induction d as [|[k0 v0] d IH]; simpl; [tauto|].
  destruct (eqk k k0) eqn:E.
  - apply eqk_spec in E. subst k0. split; [discriminate|]. intro C. exfalso. apply C. left. reflexivity.
  - rewrite IH. split.
    + intros H [C|C]; [|exact (H C)]. subst k0. rewrite eqk_refl in E. discriminate.
    + intros H C. apply H. right. exact C.
Qed.

Lemma dict_get_del_eq (k : K) (d : list (K * V)) :
  NoDup (dict_keys d) -> dict_get eqk k (dict_del eqk k d) = None.
Proof.
  induction d as [|[k0 v0] d IH]; simpl; [reflexivity|].
  intro Hn. inversion Hn as [|? ? Hn1 Hn2]. subst.
  destruct (eqk k k0) eqn:E.
  - apply eqk_spec in E. subst k0. apply dict_get_none. exact Hn1.
  - simpl. rewrite E. exact (IH Hn2).
Qed.

Lemma dict_keys_set_new (k : K) (v : V) (d : list (K * V)) :
  dict_get eqk k d = None -> dict_keys (dict_set eqk k v d) = dict_keys d ++ [k].
Proof using eqk_spec.
  induction d as [|[k0 v0] d IH]; simpl; [reflexivity|].
  destruct (eqk k k0); [discriminate|]. intro H. simpl. rewrite (IH H). reflexivity.
Qed.

Lemma dict_keys_set_old (k : K) (v : V) (d : list (K * V)) :
  In k (dict_keys d) -> dict_keys (dict_set eqk k v d) = dict_keys d.
Proof.
  induction d as [|[k0 v0] d IH]; simpl; [intros []|].
  intro H. destruct (eqk k k0) eqn:E; simpl; [reflexivity|].
  f_equal. apply IH. destruct H as [H|H]; [|exact H].
  subst k0. rewrite eqk_refl in E. discriminate.
Qed.

Lemma NoDup_dict_del (k : K) (d : list (K * V)) :
  NoDup (dict_keys d) -> NoDup (dict_keys (dict_del eqk k d)).
Proof using eqk_spec.
  induction d as [|[k0 v0] d IH]; simpl; [tauto|].
  intro Hn. inversion Hn as [|? ? Hn1 Hn2]. subst.
  destruct (eqk k k0); [exact Hn2|]. simpl. constructor; [|exact (IH Hn2)].
  intro C. apply Hn1. clear -C. induction d as [|[k1 v1] d IH']; simpl in *; [exact C|].
  destruct (eqk k k1); [right; exact C|]. simpl in C. destruct C as [C|C]; [left; exact C|].
  right. exact (IH' C).
Qed.

Lemma dict_del_set_new (k : K) (v : V) (d : list (K * V)) :
  dict_get eqk k d = None -> dict_del eqk k (dict_set eqk k v d) = d.
Proof.
  induction d as [|[k0 v0] d IH]; simpl.
  - rewrite eqk_refl. reflexivity.
  - destruct (eqk k k0) eqn:E; [discriminate|]. intro H. simpl. rewrite E, (IH H). reflexivity.
Qed.
End DictFacts.

Lemma chankey_eqb_spec (a b : ChanKey) : chankey_eqb a b = true <-> a = b.
Proof.
  destruct a as [x], b as [y]. simpl. rewrite Z.eqb_eq. split; [intros ->|intro H; injection H]; auto.
Qed.

Lemma in_keys_get {V} (k : string) (d : list (string * V)) :
  in_keys k d = false <-> dict_get String.eqb k d = None.
Proof.
  unfold in_keys. rewrite (dict_get_none String.eqb String.eqb_eq).
  split.
  - intros H C. apply in_files_existsb in C. rewrite C in H. discriminate.
  - intro H. destruct (existsb _ _) eqn:E; [|reflexivity]. exfalso. apply H.
    apply existsb_exists in E. destruct E as [x [Hx Ex]]. apply String.eqb_eq in Ex. subst. exact Hx.
Qed.

(** ** Starting and stopping an instance *)
Open Scope nat_scope.

(** ** Growth of the file system *)

(** [b] holds every file and every folder of [a]. *)
Definition fs_le (a b : FS) : Prop :=
  (forall q, is_file a q = true -> is_file b q = true)
  /\ (forall q, is_dir a q = true -> is_dir b q = true).

Lemma fs_le_refl (a : FS) : fs_le a a.
Proof. split; auto. Qed.

Lemma fs_le_trans (a b c : FS) : fs_le a b -> fs_le b c -> fs_le a c.
Proof. intros [F1 D1] [F2 D2]. split; auto. Qed.

Lemma path_exists_mono (a b : FS) (p : string) :
  fs_le a b -> path_exists a p = true -> path_exists b p = true.
Proof.
  intros [F D]. unfold path_exists. intro H. apply orb_prop in H as [H|H].
  - rewrite (F _ H). reflexivity.
  - rewrite (D _ H). apply orb_true_r.
Qed.

Lemma open_write_le (p : string) (fs fs' : FS) : open_write p fs = inr fs' -> fs_le fs fs'.
Proof.
  intro W. destruct (open_write_ok _ _ _ W) as (_ & _ & D & M). split; [exact M|].
  intros q. unfold is_dir. rewrite D. auto.
Qed.

Lemma os_mkdir_ok (p : string) (fs fs' : FS) :
  os_mkdir p fs = inr fs' -> fs_le fs fs' /\ is_dir fs' p = true.
Proof.
  unfold os_mkdir. destruct (path_exists fs p); [discriminate|].
  destruct (_ || _); [discriminate|]. intro H. injection H as <-.
  split; [split|].
  - intros q. unfold is_file. simpl. auto.
  - intros q. unfold is_dir. simpl. intro H. apply orb_prop in H as [H|H].
    + rewrite H. reflexivity.
    + rewrite existsb_app, H. simpl. apply orb_true_r.
  - unfold is_dir. simpl. rewrite existsb_app. simpl. rewrite String.eqb_refl. simpl.
    rewrite !orb_true_r. reflexivity.
Qed.

(** [m] keeps every file and folder of the emulator's file system. *)
Definition grows {A} (m : M A) : Prop :=
  forall e, fs_le (files e) (files (res_state (m e))).

Lemma grows_bind {A B} (m : M A) (k : A -> M B) :
  grows m -> (forall a, grows (k a)) -> grows (bind m k).
Proof.
  intros Hm Hk e. unfold bind. specialize (Hm e).
  destruct (m e) as [a e'|x e']; simpl in *; [|exact Hm].
  exact (fs_le_trans _ _ _ Hm (Hk a e')).
Qed.

Lemma grows_same {A} (m : M A) : (forall e, files (res_state (m e)) = files e) -> grows m.
Proof. intros H e. rewrite H. apply fs_le_refl. Qed.

Lemma grows_ret {A} (a : A) : grows (ret a).
Proof. apply grows_same. reflexivity. Qed.

Lemma grows_raise {A} (x : Exn) : grows (@raise Emu A x).
Proof. apply grows_same. reflexivity. Qed.

Lemma grows_basic :
  grows assertIsRunning /\ grows assertNotRunning /\ grows get
  /\ (forall r, grows (@path_m Emu r)) /\ grows _runForOneFrame /\ grows _abstractTakeScreenShot.
Proof.
  repeat apply conj; intros; apply grows_same; intro e;
  unfold assertIsRunning, assertNotRunning, get, path_m, _runForOneFrame,
    _abstractTakeScreenShot;
  try destruct r; destruct e as [f [pb|] ss bs fs tr]; simpl;
  try destruct (isRunning _); reflexivity.
Qed.

Lemma grows_takeScreenShot : grows _takeScreenShot.
Proof.
  destruct grows_basic as (H1 & _ & _ & _ & _ & H6).
  unfold _takeScreenShot. apply grows_bind; [exact H1|]. intros _.
  apply grows_bind; [exact H6|]. intros img. apply grows_same. reflexivity.
Qed.

Lemma grows_frames_loop (k : nat) : grows (frames_loop k).
Proof.
  destruct grows_basic as (_ & _ & _ & _ & H5 & _).
  induction k as [|k IH]; simpl; [apply grows_ret|].
  apply grows_bind; [exact H5|]. intros _.
  apply grows_bind; [exact grows_takeScreenShot|]. intros _. exact IH.
Qed.

Lemma grows_runForXSeconds (s : PyNum) : grows (runForXSeconds s).
Proof.
  destruct grows_basic as (H1 & _ & H3 & _).
  unfold runForXSeconds. destruct (py_lt0 s); [apply grows_raise|].
  apply grows_bind; [exact H1|]. intros _.
  apply grows_bind; [exact H3|]. intros e.
  destruct (num_frames s (fps e)); [apply grows_raise|].
  unfold runForXFrames. destruct (Z.ltb _ 0); [apply grows_raise|].
  apply grows_bind; [exact H1|]. intros _.
  destruct (Z.eqb _ 0); [apply grows_ret|apply grows_frames_loop].
Qed.

Lemma grows_makeGIF (p : string) : grows (makeGIF p).
Proof.
  destruct grows_basic as (H1 & _ & H3 & _).
  unfold makeGIF. apply grows_bind; [exact H1|]. intros _.
  intro e. unfold bind, get. cbv beta iota.
  destruct (screenShots e) as [|i rest]; [apply fs_le_refl|].
  destruct (py_truediv _ _); [apply fs_le_refl|].
  destruct (py_round _); [apply fs_le_refl|].
  destruct (open_write p (files e)) as [x|fs] eqn:W; [apply fs_le_refl|].
  exact (open_write_le _ _ _ W).
Qed.

Lemma grows_start (g : string) (b p : option string) (s : PyNum) : grows (start g b p s).
Proof.
  destruct grows_basic as (_ & H2 & _).
  unfold start. destruct (py_lt0 s); [apply grows_raise|].
  apply grows_bind; [exact H2|]. intros _.
  apply grows_bind; [|intros _; apply grows_bind; [|intros _; apply grows_runForXSeconds]].
  - apply grows_same. intro e. unfold _abstractStart. destruct (is_file _ _); reflexivity.
  - destruct p as [q|]; [|apply grows_ret].
    apply grows_same. intro e. unfold loadState.
    destruct (open_read _ _); [reflexivity|]. destruct (pyboy e); reflexivity.
Qed.

Lemma grows_start_instance_body (lp : option string) (d : string) (info : GameDef) (now : string) :
  grows (_start_instance_body lp d info now).
Proof.
  destruct grows_basic as (_ & _ & H3 & H4 & _).
  unfold _start_instance_body.
  apply grows_bind; [apply H4|]. intros bp.
  apply grows_bind; [apply H4|]. intros gp.
  apply grows_bind; [apply grows_start|]. intros _.
  apply grows_bind; [|intros _; apply grows_bind; [apply grows_runForXSeconds|]].
  - unfold _load_main_state_file. apply grows_bind; [apply H4|]. intros p.
    apply grows_bind; [exact H3|]. intros e. destruct (path_exists _ _); [|apply grows_ret].
    apply grows_same. intro e'. unfold loadState.
    destruct (open_read _ _); [reflexivity|]. destruct (pyboy e'); reflexivity.
  - intros _. unfold _send_screenshot. apply grows_bind; [apply H4|]. intros p.
    apply grows_makeGIF.
Qed.

(** The same for the cog's world. *)
Definition wgrows {A} (m : IM A) : Prop :=
  forall w, fs_le (wfs w) (wfs (res_state (m w))).

Lemma wgrows_bind {A B} (m : IM A) (k : A -> IM B) :
  wgrows m -> (forall a, wgrows (k a)) -> wgrows (bind m k).
Proof.
  intros Hm Hk w. unfold bind. specialize (Hm w).
  destruct (m w) as [a w'|x w']; simpl in *; [|exact Hm].
  exact (fs_le_trans _ _ _ Hm (Hk a w')).
Qed.

Lemma wgrows_same {A} (m : IM A) : (forall w, wfs (res_state (m w)) = wfs w) -> wgrows m.
Proof. intros H w. rewrite H. apply fs_le_refl. Qed.

Lemma wgrows_ok {A} (m : IM A) (w w' : World) (a : A) :
  wgrows m -> m w = Ok a w' -> fs_le (wfs w) (wfs w').
Proof. intros Hm H. specialize (Hm w). rewrite H in Hm. exact Hm. Qed.

Lemma wgrows_on_instance {A} (d : string) (m : M A) : grows m -> wgrows (on_instance d m).
Proof.
  intros Hm w. unfold on_instance.
  destruct (dict_get String.eqb d (instances w)) as [e|]; [|apply fs_le_refl].
  specialize (Hm (set_files (wfs w) e)).
  destruct (m (set_files (wfs w) e)); exact Hm.
Qed.

Lemma wgrows_start_tail (lp : option string) (gd : list (string * GameDef)) (now d : string) :
  wgrows (w <- get ;;
          (match dict_get String.eqb d (instances w) with
           | None => modify (set_instances (dict_set String.eqb d (gameBoy_init no_files) (instances w)))
           | Some _ => ret tt
           end) ;;;
          running <- instance_running d ;;
          if running then ret tt
          else
            match dict_get String.eqb d gd with
            | None => raise KeyError
            | Some info => on_instance d (_start_instance_body lp d info now)
            end).
Proof.
  apply wgrows_bind; [apply wgrows_same; reflexivity|]. intros w.
  apply wgrows_bind; [apply wgrows_same; intro w'; destruct (dict_get _ _ _); reflexivity|].
  intros _. apply wgrows_bind.
  - apply wgrows_same. intro w'. unfold instance_running. destruct (dict_get _ _ _); reflexivity.
  - intros [|]; [apply wgrows_same; reflexivity|].
    destruct (dict_get String.eqb d gd); [|apply wgrows_same; reflexivity].
    apply wgrows_on_instance, grows_start_instance_body.
Qed.

(** ** The folders of an instance *)

Lemma ensure_dir_ok_inv (r : Exn + string) (w w' : World) :
  ensure_dir r w = Ok tt w' ->
  exists p, r = inr p /\ path_exists (wfs w') p = true /\ fs_le (wfs w) (wfs w')
            /\ instances w' = instances w.
Proof.
  unfold ensure_dir, bind, path_m, get. destruct r as [x|p]; [discriminate|]. cbv beta iota.
  destruct (path_exists (wfs w) p) eqn:E.
  - intro H. injection H as <-. exists p. split; [reflexivity|split; [exact E|split; [apply fs_le_refl|reflexivity]]].
  - destruct (os_mkdir p (wfs w)) as [x|fs] eqn:Mk; [discriminate|].
    intro H. injection H as <-. destruct (os_mkdir_ok _ _ _ Mk) as (L & D).
    exists p. split; [reflexivity|split; [|split; [exact L|reflexivity]]].
    unfold path_exists. simpl. rewrite D. apply orb_true_r.
Qed.

Lemma ensure_dir_exists (r : Exn + string) (p : string) (w : World) :
  r = inr p -> path_exists (wfs w) p = true -> ensure_dir r w = Ok tt w.
Proof. intros -> E. unfold ensure_dir, bind, path_m, get. cbv beta iota. rewrite E. reflexivity. Qed.

(** The folders of [instance_dirs lp d] all exist in [fs]. *)
Definition dirs_exist (fs : FS) (rs : list (Exn + string)) : Prop :=
  Forall (fun r => exists p, r = inr p /\ path_exists fs p = true) rs.


(** With the three folders there, [_start_instance] goes straight to the
    instance. *)
Lemma start_instance_dirs_ok (lp : option string) gd now (d : string) (w : World) :
  dirs_exist (wfs w) (instance_dirs lp d) ->
  _start_instance lp gd now d w
  = (w0 <- get ;;
     (match dict_get String.eqb d (instances w0) with
      | None => modify (set_instances (dict_set String.eqb d (gameBoy_init no_files) (instances w0)))
      | Some _ => ret tt
      end) ;;;
     running <- instance_running d ;;
     if running then ret tt
     else
       match dict_get String.eqb d gd with
       | None => raise KeyError
       | Some info => on_instance d (_start_instance_body lp d info now)
       end) w.
Proof.
  intro H. inversion H as [|r1 rs1 [p1 [E1 P1]] H1]; subst.
  inversion H1 as [|r2 rs2 [p2 [E2 P2]] H2]; subst.
  inversion H2 as [|r3 rs3 [p3 [E3 P3]] _]; subst.
  unfold _start_instance.
  rewrite (bind_Ok _ _ _ _ _ (ensure_dir_exists _ _ _ E1 P1)).
  rewrite (bind_Ok _ _ _ _ _ (ensure_dir_exists _ _ _ E2 P2)).
  rewrite (bind_Ok _ _ _ _ _ (ensure_dir_exists _ _ _ E3 P3)).
  reflexivity.
Qed.

Lemma isRunning_set_files (fs : FS) (e : Emu) : isRunning (set_files fs e) = isRunning e.
Proof. reflexivity. Qed.

Lemma keeps_run_loadState (p : string) : keeps_run (loadState p).
Proof.
  intro e. unfold loadState. destruct (open_read _ _); [reflexivity|].
  destruct (pyboy e) eqn:P; [|reflexivity]. simpl. unfold isRunning. simpl. rewrite P. reflexivity.
Qed.

Lemma keeps_run_path (r : Exn + string) : keeps_run (@path_m Emu r).
Proof. intro e. destruct r; reflexivity. Qed.

Lemma start_ok_running (g : string) (b p : option string) (s : PyNum) (e e' : Emu) :
  start g b p s e = Ok tt e' -> isRunning e' = true.
Proof.
  intro H. destruct (start_prefix_ok _ _ _ _ _ _ H) as (_ & _ & _ & R).
  rewrite (keeps_run_ok _ _ _ _ (keeps_run_runForXSeconds s) R).
  destruct p; reflexivity.
Qed.

Lemma start_instance_body_running (lp : option string) (d : string) (info : GameDef) (now : string)
    (e e' : Emu) :
  _start_instance_body lp d info now e = Ok tt e' -> isRunning e' = true.
Proof.
  unfold _start_instance_body. intro H.
  apply bind_ok_inv in H as (bp & e1 & _ & H).
  apply bind_ok_inv in H as (gp & e2 & _ & H).
  apply bind_ok_inv in H as ([] & e3 & S & H).
  rewrite <- (start_ok_running _ _ _ _ _ _ S).
  eapply keeps_run_ok; [|exact H].
  apply keeps_run_bind; [|intros _; apply keeps_run_bind; [apply keeps_run_runForXSeconds|]].
  - unfold _load_main_state_file. apply keeps_run_bind; [apply keeps_run_path|]. intros p.
    apply keeps_run_bind; [exact (proj1 (proj2 (proj2 keeps_run_basic)))|]. intros e0.
    destruct (path_exists _ _); [apply keeps_run_loadState|apply keeps_run_ret].
  - intros _. unfold _send_screenshot. apply keeps_run_bind; [apply keeps_run_path|]. intros p.
    apply keeps_run_makeGIF.
Qed.

(** After a successful [_start_instance], its folders exist and the instance
    runs. *)
Lemma start_instance_ok_inv (lp : option string) gd now (d : string) (w w' : World) :
  _start_instance lp gd now d w = Ok tt w' ->
  dirs_exist (wfs w') (instance_dirs lp d)
  /\ exists e, dict_get String.eqb d (instances w') = Some e /\ isRunning e = true.
Proof.
  unfold _start_instance. intro H.
  apply bind_ok_inv in H as ([] & w1 & S1 & H).
  apply bind_ok_inv in H as ([] & w2 & S2 & H).
  apply bind_ok_inv in H as ([] & w3 & S3 & H).
  destruct (ensure_dir_ok_inv _ _ _ S1) as (p1 & E1 & P1 & L1 & _).
  destruct (ensure_dir_ok_inv _ _ _ S2) as (p2 & E2 & P2 & L2 & _).
  destruct (ensure_dir_ok_inv _ _ _ S3) as (p3 & E3 & P3 & L3 & _).
  pose proof (wgrows_ok _ _ _ _ (wgrows_start_tail lp gd now d) H) as L4.
  split.
  - unfold dirs_exist, instance_dirs. repeat constructor.
    + exists p1. split; [exact E1|].
      apply (path_exists_mono (wfs w1)); [|exact P1].
      exact (fs_le_trans _ _ _ L2 (fs_le_trans _ _ _ L3 L4)).
    + exists p2. split; [exact E2|].
      apply (path_exists_mono (wfs w2)); [exact (fs_le_trans _ _ _ L3 L4)|exact P2].
    + exists p3. split; [exact E3|]. exact (path_exists_mono _ _ _ L4 P3).
  - clear -H. apply bind_ok_inv in H as (w0 & w4 & G & H). unfold get in G.
    injection G as <- <-.
    apply bind_ok_inv in H as ([] & w5 & C & H).
    assert (G5 : exists e, dict_get String.eqb d (instances w5) = Some e).
    { destruct (dict_get String.eqb d (instances w3)) as [e|] eqn:G3.
      - injection C as <-. exists e. exact G3.
      - injection C as <-. exists (gameBoy_init no_files). simpl.
        apply (dict_get_set_eq _ String.eqb_eq). }
    destruct G5 as [e G5].
    apply bind_ok_inv in H as (r & w6 & IR & H). unfold instance_running in IR.
    rewrite G5 in IR. injection IR as <- <-.
    destruct (isRunning e) eqn:R.
    + injection H as <-. exists e. split; [exact G5|exact R].
    + destruct (dict_get String.eqb d gd) as [info|]; [|discriminate].
      unfold on_instance in H. rewrite G5 in H.
      destruct (_start_instance_body lp d info now (set_files (wfs w5) e)) as [[] e'|x e'] eqn:B;
        [|discriminate].
      injection H as <-. exists (set_files (files e) e'). simpl.
      split; [apply (dict_get_set_eq _ String.eqb_eq)|].
      exact (start_instance_body_running _ _ _ _ _ _ B).
Qed.

Lemma start_instance_running (lp : option string) gd now (d : string) (w : World) (e : Emu) :
  dirs_exist (wfs w) (instance_dirs lp d) ->
  dict_get String.eqb d (instances w) = Some e -> isRunning e = true ->
  _start_instance lp gd now d w = Ok tt w.
Proof.
  intros H G R. rewrite (start_instance_dirs_ok _ _ _ _ _ H).
  unfold bind, get, ret, instance_running. rewrite G. cbv beta iota. rewrite G, R. reflexivity.
Qed.





Definition pkmn_defs : list (string * GameDef) := [("pkmn", mkGameDef "boot.bin" "red.gb")].


(** X11: [_start_instance] leaves the world as it is when the three folders of
    the game exist and its instance is running; so, after a first successful
    start (which makes the folders exist and leaves the instance running), an
    auto-load list naming a game twice behaves as the list naming it once. *)
Theorem start_instance_idempotent (lp : option string) (gd : list (string * GameDef))
    (now d : string) (w : World) :
  (forall e, dirs_exist (wfs w) (instance_dirs lp d) ->
     dict_get String.eqb d (instances w) = Some e -> isRunning e = true ->
     _start_instance lp gd now d w = Ok tt w)
  /\ _auto_load_instances lp gd now [d; d] w = _auto_load_instances lp gd now [d] w.
Proof.
  split.
  - intros e H G R. exact (start_instance_running _ _ _ _ _ _ H G R).
  - unfold _auto_load_instances. simpl.
    destruct (_start_instance lp gd now d w) as [[] w1|x w1] eqn:S.
    + rewrite (bind_Ok _ _ _ _ _ S), (bind_Ok _ _ _ _ _ S).
      destruct (start_instance_ok_inv _ _ _ _ _ _ S) as (H & e & G & R).
      rewrite (bind_Ok _ _ _ _ _ (start_instance_running _ gd now _ _ _ H G R)). reflexivity.
    + rewrite (bind_Raise _ _ _ _ _ S), (bind_Raise _ _ _ _ _ S). reflexivity.
Qed.

Lemma start_instance_idempotent_witness :
  _start_instance (Some "/srv") [] "t0" "pkmn" (mkWorld [("pkmn", started_gb)] srv_fs)
  = Ok tt (mkWorld [("pkmn", started_gb)] srv_fs).
Proof.
  exact (proj1 (start_instance_idempotent (Some "/srv") [] "t0" "pkmn"
                  (mkWorld [("pkmn", started_gb)] srv_fs))
           started_gb
           ltac:(repeat (apply Forall_cons; [eexists; split; [reflexivity|vm_compute; reflexivity]|]);
                 apply Forall_nil)
           eq_refl eq_refl).
Defined.

(** ** Stopping an instance *)

Lemma mkWorld_eta (w : World) : mkWorld (instances w) (wfs w) = w.
Proof. destruct w. reflexivity. Qed.

(** A running instance whose main state file can be opened is saved and
    stopped. *)
Lemma stop_instance_running (lp : option string) (d : string) (w : World) (e : Emu)
    (mainp : string) (fs : FS) :
  dict_get String.eqb d (instances w) = Some e -> isRunning e = true ->
  state_save_path lp d "main" = inr mainp -> open_write mainp (wfs w) = inr fs ->
  _stop_instance lp d w
  = Ok tt (mkWorld (dict_set String.eqb d (set_pyboy None (emit EStop (emit (ESave mainp) e)))
                      (instances w)) fs).
Proof.
  intros G R P W.
  unfold _stop_instance, bind at 1, instance_running. rewrite G. cbv beta iota. rewrite R.
  unfold bind at 1, on_instance at 1. rewrite G.
  unfold _save_main_state_file. rewrite (bind_Ok _ _ _ _ _ (path_ok _ _ _ P)).
  unfold saveState. simpl. rewrite W. simpl.
  unfold isRunning in R. destruct (pyboy e) eqn:Pb; [|discriminate]. cbv beta iota.
  unfold on_instance. simpl. rewrite (dict_get_set_eq _ String.eqb_eq).
  destruct e as [f pb0 ss bs fs0 tr]. simpl in Pb. subst pb0.
  unfold stop, bind, assertIsRunning, ret, _abstractStop. simpl.
  rewrite (dict_set_set _ String.eqb_eq). reflexivity.
Qed.

(** A running instance whose main state file cannot be opened: the error of
    [open] is raised and nothing changes. *)
Lemma stop_instance_save_fails (lp : option string) (d : string) (w : World) (e : Emu)
    (mainp : string) (x : Exn) :
  dict_get String.eqb d (instances w) = Some e -> isRunning e = true ->
  state_save_path lp d "main" = inr mainp -> open_write mainp (wfs w) = inl x ->
  _stop_instance lp d w = Raise x w.
Proof.
  intros G R P W.
  unfold _stop_instance, bind at 1, instance_running. rewrite G. cbv beta iota. rewrite R.
  unfold bind at 1, on_instance at 1. rewrite G.
  unfold _save_main_state_file. rewrite (bind_Ok _ _ _ _ _ (path_ok _ _ _ P)).
  unfold saveState. simpl. rewrite W.
  replace (set_files (files e) (set_files (wfs w) e)) with e by (destruct e; reflexivity).
  rewrite (dict_set_get_same _ String.eqb_eq _ _ _ G). destruct w. reflexivity.
Qed.





(** ** The auto-load list *)

Lemma auto_load_app (lp : option string) gd now (pre post : list string) (w : World) :
  _auto_load_instances lp gd now (pre ++ post) w
  = bind (_auto_load_instances lp gd now pre) (fun _ => _auto_load_instances lp gd now post) w.
Proof.
  revert w. induction pre as [|n pre IH]; intro w; simpl.
  - reflexivity.
  - unfold _auto_load_instances. simpl. rewrite bind_assoc.
    destruct (_start_instance lp gd now n w) as [u w1|x w1] eqn:S.
    + do 2 rewrite (bind_Ok _ _ _ _ _ S). exact (IH w1).
    + do 2 rewrite (bind_Raise _ _ _ _ _ S). reflexivity.
Qed.

(** With the folders there, a name that is not defined raises [KeyError] once
    a stopped instance (a new one when there was none) is stored under it. *)
Lemma start_instance_undefined (lp : option string) gd now (d : string) (w : World) :
  dirs_exist (wfs w) (instance_dirs lp d) ->
  dict_get String.eqb d gd = None ->
  (forall e, dict_get String.eqb d (instances w) = Some e -> isRunning e = false) ->
  _start_instance lp gd now d w
  = Raise KeyError (set_instances (dict_set String.eqb d
      (match dict_get String.eqb d (instances w) with Some e => e | None => gameBoy_init no_files end)
      (instances w)) w).
Proof.
  intros H Hgd Hr. rewrite (start_instance_dirs_ok _ _ _ _ _ H).
  unfold bind at 1, get. cbv beta iota.
  destruct (dict_get String.eqb d (instances w)) as [e|] eqn:G.
  - rewrite (dict_set_get_same _ String.eqb_eq _ _ _ G).
    unfold bind, ret, instance_running. rewrite G. cbv beta iota. rewrite (Hr e eq_refl), Hgd.
    destruct w. reflexivity.
  - unfold bind at 1, modify. cbv beta iota.
    unfold bind, instance_running. simpl. rewrite (dict_get_set_eq _ String.eqb_eq).
    change (isRunning (gameBoy_init no_files)) with false. rewrite Hgd. reflexivity.
Qed.

(** X14: [_auto_load_instances] stops at the first name that is not a defined
    game: once the names before it have been started, and when the folders of
    that name exist (they are created first, which can fail) and no running
    instance is stored under it, it raises [KeyError], leaving a stopped
    instance under the name (a new [GameBoy] when there was none) and starting
    none of the names after it. *)
Theorem auto_load_stops_at_undefined (lp : option string) (gd : list (string * GameDef))
    (now : string) (pre : list string) (bad : string) (post : list string) (w w1 : World) :
  _auto_load_instances lp gd now pre w = Ok tt w1 ->
  in_keys bad gd = false ->
  dirs_exist (wfs w1) (instance_dirs lp bad) ->
  (forall e, dict_get String.eqb bad (instances w1) = Some e -> isRunning e = false) ->
  _auto_load_instances lp gd now (pre ++ bad :: post) w
  = Raise KeyError (set_instances (dict_set String.eqb bad
      (match dict_get String.eqb bad (instances w1) with Some e => e | None => gameBoy_init no_files end)
      (instances w1)) w1).
Proof.
  intros Hpre Hk H Hr. apply in_keys_get in Hk.
  rewrite auto_load_app, (bind_Ok _ _ _ _ _ Hpre).
  unfold _auto_load_instances. simpl.
  rewrite (bind_Raise _ _ _ _ _ (start_instance_undefined lp gd now bad w1 H Hk Hr)).
  reflexivity.
Qed.

(** The folders of the games [pkmn] and [zelda]. *)
Definition srv_two_fs : FS :=
  mkFS [] (fs_dirs srv_fs ++ ["/srv/gb/saves/zelda"; "/srv/gb/saves/zelda/states";
                              "/srv/gb/saves/zelda/screen_shots"]).

Lemma auto_load_stops_at_undefined_witness :
  _auto_load_instances (Some "/srv") pkmn_defs "t0" ["pkmn"; "zelda"; "pkmn"]
    (mkWorld [("pkmn", started_gb)] srv_two_fs)
  = Raise KeyError (mkWorld [("pkmn", started_gb); ("zelda", gameBoy_init no_files)] srv_two_fs).
Proof.
  exact (auto_load_stops_at_undefined (Some "/srv") pkmn_defs "t0" ["pkmn"] "zelda" ["pkmn"]
           (mkWorld [("pkmn", started_gb)] srv_two_fs) (mkWorld [("pkmn", started_gb)] srv_two_fs)
           ltac:(vm_compute; reflexivity) eq_refl
           ltac:(repeat (apply Forall_cons; [eexists; split; [reflexivity|vm_compute; reflexivity]|]);
                 apply Forall_nil)
           ltac:(intros e E; discriminate E)).
Defined.

(** ** Stopping every instance *)

(** The instance stored under [d] once [_stop_instance] has run on it. *)
Definition stopped_instance (lp : option string) (d : string) (e : Emu) : Emu :=
  if isRunning e then
    match state_save_path lp d "main" with
    | inr mainp => set_pyboy None (emit EStop (emit (ESave mainp) e))
    | inl _ => e
    end
  else e.

Lemma stop_instance_step (lp : option string) (d : string) (w : World) (e : Emu) :
  dict_get String.eqb d (instances w) = Some e ->
  (isRunning e = true ->
   exists mainp, state_save_path lp d "main" = inr mainp /\ can_write (wfs w) mainp = true) ->
  exists fs, _stop_instance lp d w
             = Ok tt (mkWorld (dict_set String.eqb d (stopped_instance lp d e) (instances w)) fs)
             /\ fs_dirs fs = fs_dirs (wfs w).
Proof.
  intros G Hw. unfold stopped_instance. destruct (isRunning e) eqn:R.
  - destruct (Hw eq_refl) as (mainp & P & W). rewrite P.
    destruct (open_write_can _ _ W) as [fs O].
    exists fs. split; [exact (stop_instance_running _ _ _ _ _ _ G R P O)|].
    exact (proj1 (proj2 (proj2 (open_write_ok _ _ _ O)))).
  - exists (wfs w). split; [|reflexivity].
    unfold _stop_instance, bind, instance_running. rewrite G. cbv beta iota. rewrite R.
    rewrite (dict_set_get_same _ String.eqb_eq _ _ _ G). destruct w. reflexivity.
Qed.

Lemma stop_fold (lp : option string) (w0 : World) (ks : list string) :
  (forall d e, dict_get String.eqb d (instances w0) = Some e -> isRunning e = true ->
     exists mainp, state_save_path lp d "main" = inr mainp /\ can_write (wfs w0) mainp = true) ->
  forall w : World, NoDup ks -> (forall k, In k ks -> In k (dict_keys (instances w))) ->
  (forall k, In k ks -> dict_get String.eqb k (instances w) = dict_get String.eqb k (instances w0)) ->
  fs_dirs (wfs w) = fs_dirs (wfs w0) ->
  exists w',
    fold_right (fun n k => _stop_instance lp n ;;; k) (ret tt) ks w = Ok tt w'
    /\ dict_keys (instances w') = dict_keys (instances w)
    /\ (forall d e, In d ks -> dict_get String.eqb d (instances w) = Some e ->
          dict_get String.eqb d (instances w') = Some (stopped_instance lp d e))
    /\ (forall d, ~ In d ks -> dict_get String.eqb d (instances w') = dict_get String.eqb d (instances w))
    /\ fs_dirs (wfs w') = fs_dirs (wfs w0).
Proof.
  intro Hw0. induction ks as [|k ks IH]; intros w Hn Hin Heq Hd.
  - exists w. repeat split; [intros d e []|exact Hd].
  - inversion Hn as [|? ? Hk Hn']. subst.
    assert (Hki : In k (dict_keys (instances w))) by (apply Hin; left; reflexivity).
    destruct (dict_get String.eqb k (instances w)) as [e|] eqn:E.
    2: { exfalso. apply (proj1 (dict_get_none String.eqb String.eqb_eq k _) E). exact Hki. }
    assert (E0 : dict_get String.eqb k (instances w0) = Some e)
      by (rewrite <- (Heq k (or_introl eq_refl)); exact E).
    destruct (stop_instance_step lp k w e E) as (fs & S & Dfs).
    { intro R. destruct (Hw0 k e E0 R) as (mainp & P & W). exists mainp. split; [exact P|].
      rewrite (can_write_dirs (wfs w0) (wfs w)); [exact W|exact Hd]. }
    set (w1 := mkWorld (dict_set String.eqb k (stopped_instance lp k e) (instances w)) fs).
    assert (K1 : dict_keys (instances w1) = dict_keys (instances w))
      by exact (dict_keys_set_old _ String.eqb_eq k _ _ Hki).
    assert (N1 : forall d, d <> k -> dict_get String.eqb d (instances w1) = dict_get String.eqb d (instances w))
      by (intros d Hdk; exact (dict_get_set_neq _ String.eqb_eq _ _ _ _ Hdk)).
    destruct (IH w1 Hn'
                ltac:(intros k' H'; rewrite K1; apply Hin; right; exact H')
                ltac:(intros k' H'; rewrite N1; [apply Heq; right; exact H'|intros ->; exact (Hk H')])
                ltac:(simpl; rewrite Dfs; exact Hd))
      as (w' & F & K & Hin' & Hout & Hd').
    exists w'. repeat apply conj.
    + simpl. rewrite (bind_Ok _ _ _ _ _ S). exact F.
    + rewrite K. exact K1.
    + intros d e' [Hkd|Hdin] Ed.
      * subst d. rewrite E in Ed. injection Ed as <-. rewrite (Hout k Hk).
        apply (dict_get_set_eq _ String.eqb_eq).
      * apply Hin'; [exact Hdin|]. rewrite N1; [exact Ed|]. intros ->. exact (Hk Hdin).
    + intros d Hd2. rewrite (Hout d (fun H => Hd2 (or_intror H))).
      apply N1. intros ->. apply Hd2. left. reflexivity.
    + exact Hd'.
Qed.

(** X15: [_stop_all_instances], when the main state file of every running
    instance can be written: it succeeds, keeps the keys of the dict, leaves
    the stopped instances as they are, saves every running one to its main
    state file and stops it, so that no instance is left running, and it
    creates no folder. *)
Theorem stop_all_instances_effect (lp : option string) (w : World) :
  NoDup (dict_keys (instances w)) ->
  (forall d e, dict_get String.eqb d (instances w) = Some e -> isRunning e = true ->
     exists mainp, state_save_path lp d "main" = inr mainp /\ can_write (wfs w) mainp = true) ->
  exists w',
    _stop_all_instances lp w = Ok tt w'
    /\ dict_keys (instances w') = dict_keys (instances w)
    /\ (forall d e, dict_get String.eqb d (instances w) = Some e -> isRunning e = false ->
          dict_get String.eqb d (instances w') = Some e)
    /\ (forall d e mainp, dict_get String.eqb d (instances w) = Some e -> isRunning e = true ->
          state_save_path lp d "main" = inr mainp ->
          dict_get String.eqb d (instances w')
          = Some (set_pyboy None (emit EStop (emit (ESave mainp) e))))
    /\ (forall d e', dict_get String.eqb d (instances w') = Some e' -> isRunning e' = false)
    /\ fs_dirs (wfs w') = fs_dirs (wfs w).
Proof.
  intros Hn Hw.
  destruct (stop_fold lp w (dict_keys (instances w)) Hw w Hn (fun k H => H) (fun k _ => eq_refl)
              eq_refl) as (w' & F & K & Hin & _ & Hd).
  assert (Get : forall (is : Insts) d e, dict_get String.eqb d is = Some e -> In d (dict_keys is)).
  { intros is d e E. destruct (in_dec string_dec d (dict_keys is)) as [C|C]; [exact C|].
    apply (dict_get_none String.eqb String.eqb_eq) in C. rewrite C in E. discriminate. }
  exists w'. repeat apply conj.
  - unfold _stop_all_instances, bind, get. exact F.
  - exact K.
  - intros d e E R. rewrite (Hin d e (Get _ d e E) E). unfold stopped_instance. rewrite R. reflexivity.
  - intros d e mainp E R P. rewrite (Hin d e (Get _ d e E) E). unfold stopped_instance.
    rewrite R, P. reflexivity.
  - intros d e' E'.
    assert (Hk : In d (dict_keys (instances w))) by (rewrite <- K; exact (Get _ d e' E')).
    destruct (dict_get String.eqb d (instances w)) as [e|] eqn:E.
    + rewrite (Hin d e Hk E) in E'. injection E' as <-. unfold stopped_instance.
      destruct (isRunning e) eqn:R; [|exact R].
      destruct (Hw d e E R) as (mainp & P & _). rewrite P. reflexivity.
    + exfalso. apply (proj1 (dict_get_none String.eqb String.eqb_eq d _) E). exact Hk.
  - exact Hd.
Qed.

Lemma stop_all_instances_effect_witness :
  exists w', _stop_all_instances (Some "/srv")
               (mkWorld [("pkmn", started_gb); ("zelda", gameBoy_init no_files)] srv_fs) = Ok tt w'
             /\ forall d e', dict_get String.eqb d (instances w') = Some e' -> isRunning e' = false.
Proof.
  destruct (stop_all_instances_effect (Some "/srv")
              (mkWorld [("pkmn", started_gb); ("zelda", gameBoy_init no_files)] srv_fs))
    as (w' & S & _ & _ & _ & R & _).
  - simpl. constructor; [simpl; intros [C|[]]; discriminate C|].
    constructor; [intros []|constructor].
  - intros d e E R. simpl in E.
    destruct (String.eqb d "pkmn") eqn:Ed.
    + apply String.eqb_eq in Ed. subst d. eexists. split; [reflexivity|vm_compute; reflexivity].
    + destruct (String.eqb d "zelda"); [injection E as <-; discriminate R|discriminate E].
  - exists w'. split; [exact S|exact R].
Defined.
(** ** Path layout *)

Lemma str_app_assoc (a b c : string) : ((a ++ b) ++ c)%string = (a ++ b ++ c)%string.
Proof. induction a as [|x a IH]; simpl; [reflexivity|]. rewrite IH. reflexivity. Qed.

Lemma str_app_nonempty (a b : string) : b <> ""%string -> (a ++ b)%string <> ""%string.
Proof. intro H. destruct a; simpl; [exact H|discriminate]. Qed.

Lemma ends_slash_app (a b : string) : b <> ""%string -> ends_slash (a ++ b) = ends_slash b.
Proof.
  intro Hb. induction a as [|c a IH]; simpl; [reflexivity|].
  destruct (a ++ b)%string eqn:E.
  - exfalso. exact (str_app_nonempty a b Hb E).
  - exact IH.
Qed.

(** [py_join (x ++ y) b] for a relative [b] and a non-empty [y] without a
    final slash. *)
Lemma join_app (x y b : string) :
  y <> ""%string -> ends_slash y = false -> starts_slash b = false ->
  py_join (x ++ y) b = (x ++ y ++ "/" ++ b)%string.
Proof.
  intros Hy He Hb. unfold py_join. rewrite Hb.
  destruct (String.eqb (x ++ y) "") eqn:E.
  - apply String.eqb_eq in E. exfalso. exact (str_app_nonempty x y Hy E).
  - rewrite ends_slash_app by exact Hy. rewrite He. simpl. apply str_app_assoc.
Qed.

Lemma join_abs (a b : string) : starts_slash b = true -> py_join a b = b.
Proof. intro H. unfold py_join. rewrite H. reflexivity. Qed.

Lemma join_rel (a b : string) :
  a <> ""%string -> ends_slash a = false -> starts_slash b = false ->
  py_join a b = (a ++ "/" ++ b)%string.
Proof. intros Ha He Hb. exact (join_app "" a b Ha He Hb). Qed.

Lemma gb_path_root (l : string) :
  gb_path (Some l)
  = inr ((if String.eqb l "" || ends_slash l then l else l ++ "/") ++ "gb")%string.
Proof.
  unfold gb_path, py_join. simpl starts_slash. cbv iota.
  destruct (String.eqb l "" || ends_slash l); [reflexivity|]. rewrite str_app_assoc. reflexivity.
Qed.

(** X16: With a local path [l], the files of the cog are laid out as documented,
    under [l] followed by one slash: ROMs in [gb/boots] and [gb/games], the
    saves of a game in [gb/saves/<def_name>], with its state files in
    [states] and its screenshots in [screen_shots]; the game's name must be
    non-empty and relative without a final slash, and the file names
    relative. Without a local path, every path raises [TypeError]. *)
Theorem path_layout (l d n : string) :
  d <> ""%string -> starts_slash d = false -> ends_slash d = false -> starts_slash n = false ->
  let root := (if String.eqb l "" || ends_slash l then l else l ++ "/")%string in
  bootROM_path (Some l) n = inr (root ++ "gb/boots/" ++ n)%string
  /\ gameROM_path (Some l) n = inr (root ++ "gb/games/" ++ n)%string
  /\ saves_definition_dir (Some l) d = inr (root ++ "gb/saves/" ++ d)%string
  /\ state_save_path (Some l) d n = inr (root ++ "gb/saves/" ++ d ++ "/states/" ++ n)%string
  /\ screen_shots_save_path (Some l) d n
     = inr (root ++ "gb/saves/" ++ d ++ "/screen_shots/" ++ n)%string
  /\ bootROM_path None n = inl TypeError /\ gameROM_path None n = inl TypeError
  /\ state_save_path None d n = inl TypeError /\ screen_shots_save_path None d n = inl TypeError.
Proof.
  intros Hd Hds Hde Hn root.
  assert (G : gb_path (Some l) = inr (root ++ "gb")%string) by exact (gb_path_root l).
  assert (J : forall y b, y <> ""%string -> ends_slash y = false -> starts_slash b = false ->
                join_r (inr (root ++ y)%string) b = inr (root ++ y ++ "/" ++ b)%string).
  { intros y b Hy He Hb. simpl. rewrite join_app by assumption. reflexivity. }
  assert (SD : saves_definition_dir (Some l) d = inr (root ++ "gb/saves/" ++ d)%string).
  { unfold saves_definition_dir, saves_dir. rewrite G.
    rewrite (J "gb" "saves") by (discriminate || reflexivity).
    exact (J "gb/saves" d ltac:(discriminate) eq_refl Hds). }
  assert (Ey : ends_slash ("gb/saves/" ++ d)%string = false)
    by (rewrite ends_slash_app by exact Hd; exact Hde).
  repeat apply conj.
  - unfold bootROM_path, boots_dir. rewrite G.
    rewrite (J "gb" "boots") by (discriminate || reflexivity).
    exact (J "gb/boots" n ltac:(discriminate) eq_refl Hn).
  - unfold gameROM_path, games_dir. rewrite G.
    rewrite (J "gb" "games") by (discriminate || reflexivity).
    exact (J "gb/games" n ltac:(discriminate) eq_refl Hn).
  - exact SD.
  - unfold state_save_path, state_save_dir. rewrite SD.
    rewrite (J ("gb/saves/" ++ d)%string "states") by (discriminate || reflexivity || exact Ey).
    change (("gb/saves/" ++ d) ++ "/" ++ "states")%string with (("gb/saves/" ++ d) ++ "/states")%string.
    rewrite (J (("gb/saves/" ++ d) ++ "/states")%string n).
    + rewrite !str_app_assoc. reflexivity.
    + apply str_app_nonempty. discriminate.
    + rewrite ends_slash_app by discriminate. reflexivity.
    + exact Hn.
  - unfold screen_shots_save_path, screen_shots_save_dir. rewrite SD.
    rewrite (J ("gb/saves/" ++ d)%string "screen_shots") by (discriminate || reflexivity || exact Ey).
    change (("gb/saves/" ++ d) ++ "/" ++ "screen_shots")%string with (("gb/saves/" ++ d) ++ "/screen_shots")%string.
    rewrite (J (("gb/saves/" ++ d) ++ "/screen_shots")%string n).
    + rewrite !str_app_assoc. reflexivity.
    + apply str_app_nonempty. discriminate.
    + rewrite ends_slash_app by discriminate. reflexivity.
    + exact Hn.
  - reflexivity.
  - reflexivity.
  - reflexivity.
  - reflexivity.
Qed.

Lemma path_layout_witness :
  state_save_path (Some "/srv/") "pkmn" "main" = inr "/srv/gb/saves/pkmn/states/main"
  /\ bootROM_path (Some "roms") "dmg.bin" = inr "roms/gb/boots/dmg.bin".
Proof.
  split.
  - exact (proj1 (proj2 (proj2 (proj2 (path_layout "/srv/" "pkmn" "main"
             ltac:(discriminate) eq_refl eq_refl eq_refl))))).
  - exact (proj1 (path_layout "roms" "pkmn" "dmg.bin" ltac:(discriminate) eq_refl eq_refl eq_refl)).
Defined.

(** X17: An absolute ROM name is used as it is, and an absolute game name puts its
    state files and screenshots under that name, outside the local path. *)
Theorem absolute_names_override (l b d n : string) :
  (starts_slash b = true ->
     bootROM_path (Some l) b = inr b /\ gameROM_path (Some l) b = inr b)
  /\ (starts_slash d = true -> ends_slash d = false -> starts_slash n = false ->
        state_save_path (Some l) d n = inr (d ++ "/states/" ++ n)%string
        /\ screen_shots_save_path (Some l) d n = inr (d ++ "/screen_shots/" ++ n)%string).
Proof.
  split.
  - intro Hb. unfold bootROM_path, gameROM_path, boots_dir, games_dir, gb_path, join_r.
    simpl. repeat rewrite (join_abs _ _ Hb). split; reflexivity.
  - intros Hd He Hn.
    assert (SD : saves_definition_dir (Some l) d = inr d).
    { unfold saves_definition_dir, saves_dir, gb_path, join_r. rewrite (join_abs _ _ Hd).
      reflexivity. }
    assert (Dn : d <> ""%string) by (intros ->; discriminate Hd).
    split.
    + unfold state_save_path, state_save_dir, join_r. rewrite SD. cbv beta iota.
      rewrite (join_rel d "states") by (exact Dn || exact He || reflexivity).
      change (d ++ "/" ++ "states")%string with (d ++ "/states")%string.
      rewrite (join_rel (d ++ "/states") n).
      * rewrite str_app_assoc. reflexivity.
      * apply str_app_nonempty. discriminate.
      * rewrite ends_slash_app by discriminate. reflexivity.
      * exact Hn.
    + unfold screen_shots_save_path, screen_shots_save_dir, join_r. rewrite SD. cbv beta iota.
      rewrite (join_rel d "screen_shots") by (exact Dn || exact He || reflexivity).
      change (d ++ "/" ++ "screen_shots")%string with (d ++ "/screen_shots")%string.
      rewrite (join_rel (d ++ "/screen_shots") n).
      * rewrite str_app_assoc. reflexivity.
      * apply str_app_nonempty. discriminate.
      * rewrite ends_slash_app by discriminate. reflexivity.
      * exact Hn.
Qed.

Lemma absolute_names_override_witness :
  bootROM_path (Some "/srv") "/opt/dmg.bin" = inr "/opt/dmg.bin"
  /\ state_save_path (Some "/srv") "/data/pkmn" "main" = inr "/data/pkmn/states/main".
Proof.
  destruct (absolute_names_override "/srv" "/opt/dmg.bin" "/data/pkmn" "main") as [H1 H2].
  split.
  - exact (proj1 (H1 eq_refl)).
  - exact (proj1 (H2 eq_refl eq_refl eq_refl)).
Defined.

(** ** Registration edits *)

Section DictKeys.
Context {K V : Type} (eqk : K -> K -> bool).

Lemma existsb_keys_get (k : K) (d : list (K * V)) :
  existsb (eqk k) (dict_keys d) = true <-> exists v, dict_get eqk k d = Some v.
Proof.
  induction d as [|[k0 v0] d IH]; simpl.
  - split; [discriminate|intros (v & H); discriminate].
  - destruct (eqk k k0); simpl; [split; [eauto|reflexivity]|exact IH].
Qed.
End DictKeys.

Lemma existsb_keys_none {V} (k : ChanKey) (d : list (ChanKey * V)) :
  existsb (chankey_eqb k) (dict_keys d) = false <-> dict_get chankey_eqb k d = None.
Proof.
  split.
  - intro H. destruct (dict_get chankey_eqb k d) eqn:E; [|reflexivity].
    assert (C : existsb (chankey_eqb k) (dict_keys d) = true)
      by (apply existsb_keys_get; eauto). congruence.
  - intro H. destruct (existsb (chankey_eqb k) (dict_keys d)) eqn:E; [|reflexivity].
    apply existsb_keys_get in E. destruct E as (v & E). congruence.
Qed.

Lemma in_keys_some {V} (k : string) (d : list (string * V)) :
  in_keys k d = true <-> exists v, dict_get String.eqb k d = Some v.
Proof. exact (existsb_keys_get String.eqb k d). Qed.

Lemma NoDup_app_single {A} (l : list A) (x : A) : NoDup l -> ~ In x l -> NoDup (l ++ [x]).
Proof.
  induction l as [|y l IH]; simpl; intros Hn Hx.
  - constructor; [intros []|constructor].
  - inversion Hn as [|? ? Hy Hn']. subst. constructor.
    + intro C. apply in_app_or in C. destruct C as [C|[C|[]]]; [exact (Hy C)|].
      apply Hx. left. exact (eq_sym C).
    + apply IH; [exact Hn'|]. intro C. apply Hx. right. exact C.
Qed.

Lemma filter_keep_all {A} (f : A -> bool) (l : list A) :
  (forall x, In x l -> f x = true) -> filter f l = l.
Proof.
  induction l as [|x l IH]; simpl; intro H; [reflexivity|].
  rewrite (H x (or_introl eq_refl)), IH; [reflexivity|]. intros y Hy. apply H. right. exact Hy.
Qed.

Lemma StrId_neq (a b : Z) : a <> b -> StrId a <> StrId b.
Proof. intros H C. injection C as C. exact (H C). Qed.

Lemma conf_ok_register (gd : list (string * GameDef)) c2d d2c (ch : Z) (name : string) (l : list Z) :
  conf_ok (mkConf gd c2d d2c) -> in_keys name gd = true ->
  dict_get chankey_eqb (StrId ch) c2d = None -> dict_get String.eqb name d2c = Some l ->
  conf_ok (mkConf gd (dict_set chankey_eqb (StrId ch) name c2d)
                     (dict_set String.eqb name (l ++ [ch]) d2c)).
Proof.
  intros (N & I & D & E) Gn Cn Ln. simpl in N, I, D, E.
  repeat split; simpl.
  - rewrite (dict_keys_set_new _ chankey_eqb_spec _ _ _ Cn).
    apply NoDup_app_single; [exact N|].
    exact (proj1 (dict_get_none _ chankey_eqb_spec _ _) Cn).
  - intro H. destruct (Z.eq_dec ch0 ch) as [->|Hne].
    + rewrite (dict_get_set_eq _ chankey_eqb_spec) in H. injection H as <-.
      exists (l ++ [ch]). rewrite (dict_get_set_eq _ String.eqb_eq).
      split; [reflexivity|]. apply in_or_app. right. left. reflexivity.
    + rewrite (dict_get_set_neq _ chankey_eqb_spec) in H by exact (StrId_neq _ _ Hne).
      destruct (proj1 (I ch0 d) H) as (l' & H1 & H2).
      destruct (string_dec d name) as [->|Hd].
      * rewrite Ln in H1. injection H1 as <-. exists (l ++ [ch]).
        rewrite (dict_get_set_eq _ String.eqb_eq). split; [reflexivity|].
        apply in_or_app. left. exact H2.
      * exists l'. rewrite (dict_get_set_neq _ String.eqb_eq) by exact Hd. split; assumption.
  - intros (l' & H1 & H2). destruct (Z.eq_dec ch0 ch) as [->|Hne].
    + rewrite (dict_get_set_eq _ chankey_eqb_spec).
      destruct (string_dec d name) as [->|Hd]; [reflexivity|].
      rewrite (dict_get_set_neq _ String.eqb_eq) in H1 by exact Hd.
      assert (C : dict_get chankey_eqb (StrId ch) c2d = Some d)
        by (apply I; exists l'; split; assumption). congruence.
    + rewrite (dict_get_set_neq _ chankey_eqb_spec) by exact (StrId_neq _ _ Hne).
      apply I. destruct (string_dec d name) as [->|Hd].
      * rewrite (dict_get_set_eq _ String.eqb_eq) in H1. injection H1 as <-.
        exists l. split; [exact Ln|]. apply in_app_or in H2.
        destruct H2 as [H2|[H2|[]]]; [exact H2|]. congruence.
      * rewrite (dict_get_set_neq _ String.eqb_eq) in H1 by exact Hd. eauto.
  - intros ch0 d H. destruct (Z.eq_dec ch0 ch) as [->|Hne].
    + rewrite (dict_get_set_eq _ chankey_eqb_spec) in H. injection H as <-. exact Gn.
    + rewrite (dict_get_set_neq _ chankey_eqb_spec) in H by exact (StrId_neq _ _ Hne).
      exact (D _ _ H).
  - intros d Hd. destruct (string_dec d name) as [->|Hne].
    + eexists. apply (dict_get_set_eq _ String.eqb_eq).
    + rewrite (dict_get_set_neq _ String.eqb_eq) by exact Hne. exact (E d Hd).
Qed.

Lemma conf_ok_unregister (gd : list (string * GameDef)) c2d d2c (ch : Z) (dn : string) (l : list Z) :
  conf_ok (mkConf gd c2d d2c) ->
  dict_get chankey_eqb (StrId ch) c2d = Some dn -> dict_get String.eqb dn d2c = Some l ->
  conf_ok (mkConf gd (dict_del chankey_eqb (StrId ch) c2d)
                     (dict_set String.eqb dn (filter (fun c_id => negb (Z.eqb c_id ch)) l) d2c)).
Proof.
  intros (N & I & D & E) Cd Ld. simpl in N, I, D, E.
  repeat split; simpl.
  - exact (NoDup_dict_del _ chankey_eqb_spec _ _ N).
  - intro H. destruct (Z.eq_dec ch0 ch) as [->|Hne].
    + rewrite (dict_get_del_eq _ chankey_eqb_spec _ _ N) in H. discriminate.
    + rewrite (dict_get_del_neq _ chankey_eqb_spec) in H by exact (StrId_neq _ _ Hne).
      destruct (proj1 (I ch0 d) H) as (l' & H1 & H2).
      destruct (string_dec d dn) as [->|Hd].
      * rewrite Ld in H1. injection H1 as <-. eexists.
        rewrite (dict_get_set_eq _ String.eqb_eq). split; [reflexivity|].
        apply filter_In. split; [exact H2|]. rewrite (proj2 (Z.eqb_neq _ _) Hne). reflexivity.
      * exists l'. rewrite (dict_get_set_neq _ String.eqb_eq) by exact Hd. split; assumption.
  - intros (l' & H1 & H2). destruct (Z.eq_dec ch0 ch) as [->|Hne].
    + exfalso. destruct (string_dec d dn) as [->|Hd].
      * rewrite (dict_get_set_eq _ String.eqb_eq) in H1. injection H1 as <-.
        apply filter_In in H2. destruct H2 as [_ H2]. rewrite Z.eqb_refl in H2. discriminate.
      * rewrite (dict_get_set_neq _ String.eqb_eq) in H1 by exact Hd.
        assert (C : dict_get chankey_eqb (StrId ch) c2d = Some d)
          by (apply I; exists l'; split; assumption).
        rewrite Cd in C. injection C as C. exact (Hd (eq_sym C)).
    + rewrite (dict_get_del_neq _ chankey_eqb_spec) by exact (StrId_neq _ _ Hne).
      apply I. destruct (string_dec d dn) as [->|Hd].
      * rewrite (dict_get_set_eq _ String.eqb_eq) in H1. injection H1 as <-.
        exists l. split; [exact Ld|]. apply filter_In in H2. exact (proj1 H2).
      * rewrite (dict_get_set_neq _ String.eqb_eq) in H1 by exact Hd. eauto.
  - intros ch0 d H. destruct (Z.eq_dec ch0 ch) as [->|Hne].
    + rewrite (dict_get_del_eq _ chankey_eqb_spec _ _ N) in H. discriminate.
    + rewrite (dict_get_del_neq _ chankey_eqb_spec) in H by exact (StrId_neq _ _ Hne).
      exact (D _ _ H).
  - intros d Hd. destruct (string_dec d dn) as [->|Hne].
    + eexists. apply (dict_get_set_eq _ String.eqb_eq).
    + rewrite (dict_get_set_neq _ String.eqb_eq) by exact Hne. exact (E d Hd).
Qed.

Lemma register_ok_state (gd : list (string * GameDef)) c2d d2c dk st (ch : Z) (name : string)
    (gdef : GameDef) (l : list Z) :
  dict_get String.eqb name gd = Some gdef ->
  dict_get chankey_eqb (StrId ch) c2d = None ->
  dict_get String.eqb name d2c = Some l ->
  setup_register ch name (mkCog (mkConf gd c2d d2c) dk st)
  = Ok tt (mkCog (mkConf gd (dict_set chankey_eqb (StrId ch) name c2d)
                            (dict_set String.eqb name (l ++ [ch]) d2c)) dk st).
Proof.
  intros G C L. unfold setup_register.
  cbv [bind get modify ret raise set_channels_to_defs set_defs_to_channels
       conf game_defs channels_to_defs defs_to_channels disk started].
  rewrite G, (proj2 (existsb_keys_none _ _) C), L. reflexivity.
Qed.

Lemma unregister_ok_state (gd : list (string * GameDef)) c2d d2c dk st (ch : Z) (dn : string)
    (l : list Z) :
  dict_get chankey_eqb (StrId ch) c2d = Some dn ->
  dict_get String.eqb dn d2c = Some l ->
  setup_unregister ch (mkCog (mkConf gd c2d d2c) dk st)
  = Ok tt (mkCog (mkConf gd (dict_del chankey_eqb (StrId ch) c2d)
             (dict_set String.eqb dn (filter (fun c_id => negb (Z.eqb c_id ch)) l) d2c)) dk st).
Proof.
  intros C L. unfold setup_unregister.
  cbv [bind get modify ret raise set_channels_to_defs set_defs_to_channels
       conf game_defs channels_to_defs defs_to_channels disk started].
  rewrite C, L. reflexivity.
Qed.

(** X18: [setup_register] keeps the registration maps consistent ([conf_ok]): an
    undefined game name changes nothing; the only exception raised is the
    [NameError] of the "already registered" reply, with nothing changed (so
    [defs_to_channels[definition_name]] never raises [KeyError]); a success
    on a defined game leaves the channel registered to it. *)
Theorem register_keeps_consistency (c : Cog) (ch : Z) (name : string) :
  conf_ok (conf c) ->
  (in_keys name (game_defs (conf c)) = false -> setup_register ch name c = Ok tt c)
  /\ (forall x c', setup_register ch name c = Raise x c' ->
        x = NameError "def_name" /\ c' = c
        /\ dict_get chankey_eqb (StrId ch) (channels_to_defs (conf c)) <> None)
  /\ (forall c', setup_register ch name c = Ok tt c' ->
        conf_ok (conf c') /\ disk c' = disk c /\ started c' = started c
        /\ game_defs (conf c') = game_defs (conf c)
        /\ (in_keys name (game_defs (conf c)) = true ->
              dict_get chankey_eqb (StrId ch) (channels_to_defs (conf c')) = Some name)).
Proof.
  destruct c as [[gd c2d d2c] dk st]. simpl. intro Hok.
  assert (Hok' := Hok). destruct Hok' as (N & I & D & E). simpl in N, I, D, E.
  destruct (dict_get String.eqb name gd) as [gdef|] eqn:G.
  - assert (Gk : in_keys name gd = true) by (apply in_keys_some; eauto).
    split; [intro H; rewrite Gk in H; discriminate|].
    destruct (dict_get chankey_eqb (StrId ch) c2d) as [dn|] eqn:C.
    + assert (R : setup_register ch name (mkCog (mkConf gd c2d d2c) dk st)
                  = Raise (NameError "def_name") (mkCog (mkConf gd c2d d2c) dk st)).
      { unfold setup_register.
        cbv [bind get modify ret raise conf game_defs channels_to_defs defs_to_channels].
        rewrite G.
        replace (existsb (chankey_eqb (StrId ch)) (dict_keys c2d)) with true; [reflexivity|].
        symmetry. apply existsb_keys_get. eauto. }
      split.
      * intros x c' H. rewrite R in H. injection H as <- <-.
        split; [reflexivity|split; [reflexivity|discriminate]].
      * intros c' H. rewrite R in H. discriminate.
    + destruct (E name Gk) as (l & L).
      pose proof (register_ok_state gd c2d d2c dk st ch name gdef l G C L) as R.
      split.
      * intros x c' H. rewrite R in H. discriminate.
      * intros c' H. rewrite R in H. injection H as <-. simpl.
        split; [exact (conf_ok_register gd c2d d2c ch name l Hok Gk C L)|].
        split; [reflexivity|split; [reflexivity|split; [reflexivity|]]].
        intros _. apply (dict_get_set_eq _ chankey_eqb_spec).
  - assert (Gk : in_keys name gd = false) by (apply in_keys_get; exact G).
    assert (R : setup_register ch name (mkCog (mkConf gd c2d d2c) dk st)
                = Ok tt (mkCog (mkConf gd c2d d2c) dk st)).
    { unfold setup_register. cbv [bind get ret conf game_defs]. rewrite G. reflexivity. }
    split; [intros _; exact R|]. split.
    + intros x c' H. rewrite R in H. discriminate.
    + intros c' H. rewrite R in H. injection H as <-. simpl.
      split; [exact Hok|].
      split; [reflexivity|split; [reflexivity|split; [reflexivity|]]].
      intro H. rewrite Gk in H. discriminate.
Qed.

Lemma conf_ok_unregistered (cf : Conf) (ch : Z) :
  conf_ok cf -> dict_get chankey_eqb (StrId ch) (channels_to_defs cf) = None ->
  forall d l, dict_get String.eqb d (defs_to_channels cf) = Some l -> ~ In ch l.
Proof.
  intros (_ & I & _) C d l L Hin.
  assert (C' : dict_get chankey_eqb (StrId ch) (channels_to_defs cf) = Some d)
    by (apply I; eauto). congruence.
Qed.

Lemma conf_ok_no_channels (gd : list (string * GameDef)) (d2c : list (string * list Z)) :
  (forall d, in_keys d gd = true -> exists l, dict_get String.eqb d d2c = Some l) ->
  (forall d l, dict_get String.eqb d d2c = Some l -> l = []) ->
  conf_ok (mkConf gd [] d2c).
Proof.
  intros Hd Hl. repeat split; simpl.
  - constructor.
  - discriminate.
  - intros (l & L & Hin). rewrite (Hl d l L) in Hin. destruct Hin.
  - discriminate.
  - exact Hd.
Qed.

(** X19: [setup_unregister] always succeeds and keeps the registration maps
    consistent; afterwards the channel is registered to nothing and is in no
    game's channel list, and an unregistered channel changes nothing. *)
Theorem unregister_keeps_consistency (c : Cog) (ch : Z) :
  conf_ok (conf c) ->
  exists c', setup_unregister ch c = Ok tt c' /\ conf_ok (conf c')
    /\ disk c' = disk c /\ started c' = started c /\ game_defs (conf c') = game_defs (conf c)
    /\ dict_get chankey_eqb (StrId ch) (channels_to_defs (conf c')) = None
    /\ (forall d l, dict_get String.eqb d (defs_to_channels (conf c')) = Some l -> ~ In ch l)
    /\ (dict_get chankey_eqb (StrId ch) (channels_to_defs (conf c)) = None -> c' = c).
Proof.
  destruct c as [[gd c2d d2c] dk st]. simpl. intro Hok.
  assert (Hok' := Hok). destruct Hok' as (N & I & D & E). simpl in N, I, D, E.
  destruct (dict_get chankey_eqb (StrId ch) c2d) as [dn|] eqn:C.
  - destruct (proj1 (I ch dn) C) as (l & L & _).
    pose proof (conf_ok_unregister gd c2d d2c ch dn l Hok C L) as Hok2.
    eexists. split; [exact (unregister_ok_state gd c2d d2c dk st ch dn l C L)|].
    split; [exact Hok2|]. simpl.
    split; [reflexivity|split; [reflexivity|split; [reflexivity|]]].
    assert (Cn : dict_get chankey_eqb (StrId ch) (dict_del chankey_eqb (StrId ch) c2d) = None)
      by exact (dict_get_del_eq _ chankey_eqb_spec _ _ N).
    split; [exact Cn|]. split; [|discriminate].
    exact (conf_ok_unregistered _ ch Hok2 Cn).
  - exists (mkCog (mkConf gd c2d d2c) dk st). split.
    + unfold setup_unregister. cbv [bind get ret conf channels_to_defs]. rewrite C. reflexivity.
    + split; [exact Hok|]. simpl.
      split; [reflexivity|split; [reflexivity|split; [reflexivity|]]].
      split; [exact C|]. split; [|reflexivity].
      exact (conf_ok_unregistered _ ch Hok C).
Qed.

Lemma conf_ok_g1 :
  conf_ok (mkConf [("g1", mkGameDef "boot.bin" "a.gb")] [] [("g1", [])]).
Proof.
  apply conf_ok_no_channels.
  - intros d Hd. unfold in_keys in Hd. simpl in Hd. rewrite orb_false_r in Hd.
    apply String.eqb_eq in Hd. subst d. eexists. reflexivity.
  - intros d l L. simpl in L. destruct (String.eqb d "g1"); [|discriminate].
    injection L as <-. reflexivity.
Qed.

Lemma unregister_keeps_consistency_witness :
  conf_ok (conf (mkCog (mkConf [("g1", mkGameDef "boot.bin" "a.gb")] [] [("g1", [])]) disk0 []))
  /\ setup_unregister 1 (mkCog (mkConf [("g1", mkGameDef "boot.bin" "a.gb")] [] [("g1", [])]) disk0 [])
     = Ok tt (mkCog (mkConf [("g1", mkGameDef "boot.bin" "a.gb")] [] [("g1", [])]) disk0 []).
Proof.
  split; [exact conf_ok_g1|].
  destruct (unregister_keeps_consistency
              (mkCog (mkConf [("g1", mkGameDef "boot.bin" "a.gb")] [] [("g1", [])]) disk0 []) 1
              conf_ok_g1) as (c' & U & _ & _ & _ & _ & _ & _ & Last).
  rewrite U, (Last eq_refl). reflexivity.
Defined.

Lemma register_keeps_consistency_witness :
  conf_ok (conf (mkCog (mkConf [("g1", mkGameDef "boot.bin" "a.gb")] [] [("g1", [])]) disk0 []))
  /\ conf_ok (mkConf [("g1", mkGameDef "boot.bin" "a.gb")] [(StrId 1, "g1")] [("g1", [1%Z])]).
Proof.
  split; [exact conf_ok_g1|].
  exact (proj1 (proj2 (proj2 (register_keeps_consistency
           (mkCog (mkConf [("g1", mkGameDef "boot.bin" "a.gb")] [] [("g1", [])]) disk0 []) 1 "g1"
           conf_ok_g1))
           (mkCog (mkConf [("g1", mkGameDef "boot.bin" "a.gb")] [(StrId 1, "g1")] [("g1", [1%Z])])
              disk0 [])
           ltac:(vm_compute; reflexivity))).
Defined.

(** X20: Registering a channel that is registered to nothing to a defined game,
    then unregistering it, gives back the cog exactly as it was. *)
Theorem register_unregister_roundtrip (c : Cog) (ch : Z) (name : string) :
  conf_ok (conf c) -> in_keys name (game_defs (conf c)) = true ->
  dict_get chankey_eqb (StrId ch) (channels_to_defs (conf c)) = None ->
  (setup_register ch name ;;; setup_unregister ch) c = Ok tt c.
Proof.
  destruct c as [[gd c2d d2c] dk st]. simpl. intros Hok Gk C.
  assert (Hok' := Hok). destruct Hok' as (N & I & D & E). simpl in N, I, D, E.
  destruct (E name Gk) as (l & L).
  destruct (proj1 (in_keys_some name gd) Gk) as (gdef & G).
  rewrite (bind_Ok _ _ _ _ _ (register_ok_state gd c2d d2c dk st ch name gdef l G C L)).
  rewrite (unregister_ok_state gd _ _ dk st ch name (l ++ [ch])
             (dict_get_set_eq _ chankey_eqb_spec _ _ _) (dict_get_set_eq _ String.eqb_eq _ _ _)).
  rewrite (dict_del_set_new _ chankey_eqb_spec _ _ _ C), (dict_set_set _ String.eqb_eq).
  rewrite filter_app. simpl filter at 2. rewrite Z.eqb_refl. simpl negb. cbv iota.
  rewrite app_nil_r, filter_keep_all.
  - rewrite (dict_set_get_same _ String.eqb_eq _ _ _ L). reflexivity.
  - intros x Hx. apply negb_true_iff, Z.eqb_neq. intros ->.
    exact (conf_ok_unregistered (mkConf gd c2d d2c) ch Hok C name l L Hx).
Qed.

Lemma register_unregister_roundtrip_witness :
  conf_ok (conf (mkCog (mkConf [("g1", mkGameDef "boot.bin" "a.gb")] [] [("g1", [])]) disk0 []))
  /\ (setup_register 7 "g1" ;;; setup_unregister 7)
       (mkCog (mkConf [("g1", mkGameDef "boot.bin" "a.gb")] [] [("g1", [])]) disk0 [])
     = Ok tt (mkCog (mkConf [("g1", mkGameDef "boot.bin" "a.gb")] [] [("g1", [])]) disk0 []).
Proof.
  split; [exact conf_ok_g1|].
  exact (register_unregister_roundtrip
           (mkCog (mkConf [("g1", mkGameDef "boot.bin" "a.gb")] [] [("g1", [])]) disk0 []) 7 "g1"
           conf_ok_g1 eq_refl eq_refl).
Defined.





(** ** Editing the auto-load list *)

(** X22: Editing the auto-load list: an undefined name is refused by both
    commands; for a defined name [add] appends it, [delete] removes every
    occurrence and keeps all other names, and deleting a name just added to a
    list that did not hold it gives back the list. *)
Theorem auto_load_list_edits (gd : list (string * GameDef)) (name : string) (al : list string) :
  (in_keys name gd = false ->
     setup_add_auto_load gd name al = al /\ setup_delete_auto_load gd name al = al)
  /\ (in_keys name gd = true ->
        setup_add_auto_load gd name al = al ++ [name]
        /\ ~ In name (setup_delete_auto_load gd name al)
        /\ (forall x, x <> name -> (In x (setup_delete_auto_load gd name al) <-> In x al))
        /\ (~ In name al -> setup_delete_auto_load gd name (setup_add_auto_load gd name al) = al)).
Proof.
  unfold setup_add_auto_load, setup_delete_auto_load. split.
  - intro H. rewrite H. split; reflexivity.
  - intro H. rewrite H. simpl negb. cbv iota.
    assert (F : ~ In name (filter (fun dn => negb (String.eqb dn name)) al)).
    { intro C. apply filter_In in C. destruct C as [_ C].
      rewrite String.eqb_refl in C. discriminate. }
    split; [reflexivity|]. split; [|split].
    + destruct (existsb (String.eqb name) al) eqn:E; simpl; [exact F|].
      intro C. apply in_files_existsb in C. congruence.
    + intros x Hx. destruct (existsb (String.eqb name) al) eqn:E; simpl; [|tauto].
      rewrite filter_In. split; [tauto|]. intro Hin. split; [exact Hin|].
      apply negb_true_iff, String.eqb_neq. exact Hx.
    + intro Hn. rewrite existsb_app. simpl. rewrite String.eqb_refl, orb_true_r. simpl.
      rewrite filter_app. simpl. rewrite String.eqb_refl. simpl. rewrite app_nil_r.
      apply filter_keep_all. intros x Hx. apply negb_true_iff, String.eqb_neq.
      intros ->. exact (Hn Hx).
Qed.

Lemma auto_load_list_edits_witness :
  setup_delete_auto_load [("g1", mkGameDef "boot.bin" "a.gb")] "g1"
    (setup_add_auto_load [("g1", mkGameDef "boot.bin" "a.gb")] "g1" ["g0"]) = ["g0"]
  /\ setup_add_auto_load [("g1", mkGameDef "boot.bin" "a.gb")] "zz" ["g0"] = ["g0"].
Proof.
  split.
  - refine (proj2 (proj2 (proj2 (proj2 (auto_load_list_edits
              [("g1", mkGameDef "boot.bin" "a.gb")] "g1" ["g0"]) eq_refl))) _).
    intros [C|[]]. discriminate C.
  - exact (proj1 (proj1 (auto_load_list_edits [("g1", mkGameDef "boot.bin" "a.gb")] "zz" ["g0"])
                   eq_refl)).
Defined.


(** ** The [start] and [stop] commands *)

(** X23: [setup_stop]: an undefined name, a missing instance and a stopped one
    change nothing; a running instance of a defined game is saved to its main
    state file, which [open(path, "wb")] creates, and stopped, the other
    instances being left as they are; when that file cannot be opened the
    error of [open] is raised and nothing changes. *)
Theorem setup_stop_effect (lp : option string) (gd : list (string * GameDef)) (name : string)
    (w : World) :
  (in_keys name gd = false -> setup_stop lp gd name w = Ok tt w)
  /\ (dict_get String.eqb name (instances w) = None -> setup_stop lp gd name w = Ok tt w)
  /\ (forall e, dict_get String.eqb name (instances w) = Some e -> isRunning e = false ->
        setup_stop lp gd name w = Ok tt w)
  /\ (forall e mainp fs, in_keys name gd = true ->
        dict_get String.eqb name (instances w) = Some e -> isRunning e = true ->
        state_save_path lp name "main" = inr mainp -> open_write mainp (wfs w) = inr fs ->
        setup_stop lp gd name w
        = Ok tt (mkWorld (dict_set String.eqb name
                            (set_pyboy None (emit EStop (emit (ESave mainp) e))) (instances w)) fs))
  /\ (forall e mainp x, in_keys name gd = true ->
        dict_get String.eqb name (instances w) = Some e -> isRunning e = true ->
        state_save_path lp name "main" = inr mainp -> open_write mainp (wfs w) = inl x ->
        setup_stop lp gd name w = Raise x w).
Proof.
  unfold setup_stop. repeat apply conj.
  - intro K. rewrite K. reflexivity.
  - intro G. destruct (in_keys name gd); cbv [negb]; [|reflexivity].
    rewrite (bind_Ok get _ w w w eq_refl), G. reflexivity.
  - intros e G R. destruct (in_keys name gd); cbv [negb]; [|reflexivity].
    rewrite (bind_Ok get _ w w w eq_refl), G, R. reflexivity.
  - intros e mainp fs K G R P W. rewrite K. cbv [negb].
    rewrite (bind_Ok get _ w w w eq_refl), G, R. cbv [negb].
    exact (stop_instance_running _ _ _ _ _ _ G R P W).
  - intros e mainp x K G R P W. rewrite K. cbv [negb].
    rewrite (bind_Ok get _ w w w eq_refl), G, R. cbv [negb].
    exact (stop_instance_save_fails _ _ _ _ _ _ G R P W).
Qed.

Lemma setup_stop_effect_witness :
  (exists w', setup_stop (Some "/srv") pkmn_defs "pkmn" (mkWorld [("pkmn", started_gb)] srv_fs)
              = Ok tt w')
  /\ setup_stop (Some "/srv") pkmn_defs "pkmn" (mkWorld [("pkmn", started_gb)] no_files)
     = Raise (FileNotFoundError "/srv/gb/saves/pkmn/states/main")
             (mkWorld [("pkmn", started_gb)] no_files).
Proof.
  destruct (open_write_can "/srv/gb/saves/pkmn/states/main" srv_fs ltac:(vm_compute; reflexivity))
    as [fs W].
  split.
  - eexists. exact (proj1 (proj2 (proj2 (proj2 (setup_stop_effect (Some "/srv") pkmn_defs "pkmn"
              (mkWorld [("pkmn", started_gb)] srv_fs)))))
              started_gb "/srv/gb/saves/pkmn/states/main" fs eq_refl eq_refl
              ltac:(vm_compute; reflexivity) eq_refl W).
  - exact (proj2 (proj2 (proj2 (proj2 (setup_stop_effect (Some "/srv") pkmn_defs "pkmn"
              (mkWorld [("pkmn", started_gb)] no_files)))))
              started_gb "/srv/gb/saves/pkmn/states/main" _ eq_refl eq_refl
              ltac:(vm_compute; reflexivity) eq_refl ltac:(vm_compute; reflexivity)).
Defined.

(** X24: [setup_start] changes nothing for an undefined name or a running
    instance; when it succeeds on a defined name, the instance is running. *)
Theorem setup_start_effect (lp : option string) (gd : list (string * GameDef))
    (now name : string) (w : World) :
  (in_keys name gd = false -> setup_start lp gd now name w = Ok tt w)
  /\ (forall e, dict_get String.eqb name (instances w) = Some e -> isRunning e = true ->
        setup_start lp gd now name w = Ok tt w)
  /\ (forall w', in_keys name gd = true -> setup_start lp gd now name w = Ok tt w' ->
        exists e, dict_get String.eqb name (instances w') = Some e /\ isRunning e = true).
Proof.
  unfold setup_start. split; [|split].
  - intro K. rewrite K. reflexivity.
  - intros e E R. destruct (in_keys name gd); cbv [negb]; [|reflexivity].
    rewrite (bind_Ok get _ w w w eq_refl), E, R. reflexivity.
  - intros w' K H. rewrite K in H. cbv [negb] in H.
    rewrite (bind_Ok get _ w w w eq_refl) in H.
    destruct (dict_get String.eqb name (instances w)) as [e|] eqn:E.
    + destruct (isRunning e) eqn:R.
      * injection H as <-. exists e. split; [exact E|exact R].
      * exact (proj2 (start_instance_ok_inv _ _ _ _ _ _ H)).
    + exact (proj2 (start_instance_ok_inv _ _ _ _ _ _ H)).
Qed.

Lemma setup_start_effect_witness :
  setup_start (Some "/srv") [] "t0" "pkmn" (mkWorld [] srv_fs) = Ok tt (mkWorld [] srv_fs)
  /\ setup_start (Some "/srv") pkmn_defs "t0" "pkmn" (mkWorld [("pkmn", started_gb)] srv_fs)
     = Ok tt (mkWorld [("pkmn", started_gb)] srv_fs).
Proof.
  split.
  - exact (proj1 (setup_start_effect (Some "/srv") [] "t0" "pkmn" (mkWorld [] srv_fs)) eq_refl).
  - exact (proj1 (proj2 (setup_start_effect (Some "/srv") pkmn_defs "t0" "pkmn"
             (mkWorld [("pkmn", started_gb)] srv_fs))) started_gb eq_refl eq_refl).
Defined.

(** ** Deleting a definition *)

(** X25: [setup_delete_definition] on an undefined name, a refused
    confirmation or a game that has an instance raises and changes nothing.
    Otherwise it deletes the game definition and then, as soon as any channel
    is registered, raises [RuntimeError] in the loop that clears the
    registrations, before saving them: the definition is gone and every
    registration is left in place. It completes
    only when no channel is registered: then, in a consistent configuration,
    the definition and its channel list are both deleted. *)
Theorem delete_definition_effect (name : string) (confirmed : bool) (c : Cog) :
  (in_keys name (game_defs (conf c)) = false ->
     setup_delete_definition name confirmed c = Raise (NameError "name") c)
  /\ (in_keys name (game_defs (conf c)) = true -> confirmed = false ->
     setup_delete_definition name confirmed c = Raise (NameError "contextlib") c)
  /\ (in_keys name (game_defs (conf c)) = true -> In name (started c) ->
     setup_delete_definition name true c = Raise TypeError c)
  /\ (in_keys name (game_defs (conf c)) = true -> ~ In name (started c) ->
      channels_to_defs (conf c) <> [] ->
      setup_delete_definition name true c
      = Raise RuntimeError (set_game_defs (dict_del String.eqb name (game_defs (conf c))) c))
  /\ (conf_ok (conf c) -> in_keys name (game_defs (conf c)) = true -> ~ In name (started c) ->
      channels_to_defs (conf c) = [] ->
      setup_delete_definition name true c
      = Ok tt (mkCog (mkConf (dict_del String.eqb name (game_defs (conf c))) []
                             (dict_del String.eqb name (defs_to_channels (conf c))))
                     (disk c) (started c))).
Proof.
  destruct c as [[gd c2d d2c] dk st]; cbn [conf game_defs channels_to_defs defs_to_channels
    disk started].
  assert (Hst : ~ In name st -> existsb (String.eqb name) st = false).
  { intro N. apply not_true_iff_false. intro E. apply existsb_exists in E.
    destruct E as (x & Hx & Ex). apply String.eqb_eq in Ex. subst x. exact (N Hx). }
  assert (Hst' : In name st -> existsb (String.eqb name) st = true).
  { intro I. apply existsb_exists. exists name. split; [exact I|apply String.eqb_refl]. }
  unfold setup_delete_definition.
  repeat split.
  - intro K. rewrite (bind_Ok get _ _ _ _ eq_refl). cbn [conf game_defs]. rewrite K. reflexivity.
  - intros K F. subst confirmed.
    rewrite (bind_Ok get _ _ _ _ eq_refl). cbn [conf game_defs]. rewrite K. reflexivity.
  - intros K I. rewrite (bind_Ok get _ _ _ _ eq_refl). cbn [conf game_defs started].
    rewrite K, (Hst' I). reflexivity.
  - intros K N NE. rewrite (bind_Ok get _ _ _ _ eq_refl). cbn [conf game_defs started].
    rewrite K, (Hst N). cbv [negb].
    destruct c2d as [|[k v] c2d]; [contradiction NE; reflexivity|]. reflexivity.
  - intros OK K N E. subst c2d.
    destruct OK as (_ & _ & _ & Hd). destruct (Hd name K) as (l & Hl).
    assert (K2 : in_keys name d2c = true) by (apply in_keys_some; exists l; exact Hl).
    rewrite (bind_Ok get _ _ _ _ eq_refl). cbn [conf game_defs started].
    rewrite K, (Hst N). cbv [negb bind get modify ret raise set_game_defs set_channels_to_defs
      set_defs_to_channels conf game_defs channels_to_defs defs_to_channels disk started
      del_while_iterating].
    rewrite K2. reflexivity.
Qed.

Lemma delete_definition_effect_witness :
  setup_delete_definition "g1" true
    (mkCog (mkConf [("g1", mkGameDef "boot.bin" "a.gb")] [] [("g1", [])]) no_files [])
  = Ok tt (mkCog (mkConf [] [] []) no_files []).
Proof.
  exact (proj2 (proj2 (proj2 (proj2 (delete_definition_effect "g1" true
           (mkCog (mkConf [("g1", mkGameDef "boot.bin" "a.gb")] [] [("g1", [])]) no_files [])))))
           conf_ok_g1 eq_refl (fun H => match H with end) eq_refl).
Defined.

(** ** Creating the folders of an instance *)




